(** * Banelo forecasting dashboard: the stock computations of dashboard/views.py

    A shallow embedding of [calculate_max_servings], [transfer_inventory_api],
    [add_waste_api], [train_forecasting_model], the forecast loop of
    [inventory_forecasting_view], [delete_product_view] and
    [delete_recipe_api], with the ORM tables of dashboard/models.py.

    Conventions of the embedding.
    - Numbers are embedded twice.  In the first embedding a [FloatField]
      and a Python [float] are exact rationals ([Q]): rounding, infinities
      and NaN are outside it, and the literal [1.1] is [11/10].  It carries
      the properties that are stated over exact arithmetic and those that
      do not depend on the value of a number.  In the second, [Binary64], a
      float is an IEEE binary64 number: it carries the properties in which
      a comparison, a truncation or an exception decides what the code
      answers.
    - A [str] is the sequence of its UTF-8 bytes.
    - A datetime is a number of microseconds ([Z]); [datetime.now()] is one
      instant [now] for the whole request.
    - A table is the list of its rows.  The columns that none of the
      modelled functions reads or assigns are left out of the rows:
      surrogate keys, [auto_now] timestamps, prices, costs, images and the
      unit of a recipe ingredient.
    - Every ORM call is a point where the database driver may raise: the
      oracle [fault] says which calls do, and [refuses] which DELETE
      statements.
    - [print] and [traceback.print_exc] write to the console only and are
      left out.  The [login_required] and [require_http_methods] decorators
      belong to the framework; the embedding is of the decorated bodies. *)

From Stdlib Require Import ZArith QArith Qround List String Ascii Bool Lia Lqa.
From Stdlib Require Import DecimalString.
Import ListNotations.
Local Open Scope string_scope.
Local Open Scope Z_scope.

(** ** Python values *)

Definition Qltb (x y : Q) : bool := negb (Qle_bool y x).

(** [x or 0] on a nullable number: [None] and [0.0] are falsy. *)
Definition or0 (x : option Q) : Q :=
  match x with
  | Some q => if Qeq_bool q 0 then 0%Q else q
  | None => 0%Q
  end.

(** [int(x)] on a float: truncation toward zero. *)
Definition py_int (x : Q) : Z := Z.quot (Qnum x) (Zpos (Qden x)).

(** [min(l)] on a non-empty list of integers. *)
Definition py_min (x : Z) (l : list Z) : Z := fold_left Z.min l x.

(** [str.strip()].  A [str] is the sequence of its UTF-8 bytes; the
    characters [str.isspace] holds of take one, two or three bytes:
    U+0009 to U+000D and U+001C to U+0020; U+0085 and U+00A0; U+1680,
    U+2000 to U+200A, U+2028, U+2029, U+202F, U+205F and U+3000. *)
Definition space1 (a : ascii) : bool :=
  let x := nat_of_ascii a in
  ((9 <=? x) && (x <=? 13) || (28 <=? x) && (x <=? 32))%nat.

Definition space2 (a b : ascii) : bool :=
  let x := nat_of_ascii a in
  let y := nat_of_ascii b in
  ((x =? 194) && ((y =? 133) || (y =? 160)))%nat.

Definition space3 (a b c : ascii) : bool :=
  let x := nat_of_ascii a in
  let y := nat_of_ascii b in
  let z := nat_of_ascii c in
  ((x =? 225) && (y =? 154) && (z =? 128)
   || (x =? 226) && (y =? 128)
      && ((128 <=? z) && (z <=? 138) || (z =? 168) || (z =? 169)
          || (z =? 175))
   || (x =? 226) && (y =? 129) && (z =? 159)
   || (x =? 227) && (y =? 128) && (z =? 128))%nat.

(** The string without the whitespace it starts with; [backwards] when the
    string is read from its end, the bytes of a character in reverse. *)
Fixpoint lstrip_bytes (backwards : bool) (s : string) : string :=
  match s with
  | String a s1 =>
      if space1 a then lstrip_bytes backwards s1
      else
        match s1 with
        | String b s2 =>
            if (if backwards then space2 b a else space2 a b)
            then lstrip_bytes backwards s2
            else
              match s2 with
              | String c s3 =>
                  if (if backwards then space3 c b a else space3 a b c)
                  then lstrip_bytes backwards s3
                  else s
              | EmptyString => s
              end
        | EmptyString => s
        end
  | EmptyString => s
  end.

Definition reverse (s : string) : string :=
  string_of_list_ascii (rev (list_ascii_of_string s)).

Definition lstrip (s : string) : string := lstrip_bytes false s.

Definition rstrip (s : string) : string :=
  reverse (lstrip_bytes true (reverse s)).

Definition strip (s : string) : string := rstrip (lstrip s).

(** JSON documents as [json.loads] returns them. *)
#[local] Unset Elimination Schemes.
Inductive json : Type :=
| JNull
| JBool (b : bool)
| JInt (z : Z)
| JNum (q : Q)
| JStr (s : string)
| JArr (l : list json)
| JObj (kv : list (string * json)).
#[local] Set Elimination Schemes.

Fixpoint dict_lookup {A : Type} (k : string) (d : list (string * A)) : option A :=
  match d with
  | (k', v) :: d' => if String.eqb k k' then Some v else dict_lookup k d'
  | [] => None
  end.

(** Truthiness of a value read from a JSON document. *)
Definition truthy (v : json) : bool :=
  match v with
  | JNull => false
  | JBool b => b
  | JInt z => negb (z =? 0)
  | JNum q => negb (Qeq_bool q 0)
  | JStr s => negb (String.eqb s "")
  | JArr l => match l with [] => false | _ => true end
  | JObj kv => match kv with [] => false | _ => true end
  end.

(** ** Exceptions *)

Inductive table : Type :=
| TProduct | TSale | TRecipe | TRecipeIngredient
| TWasteLog | TAuditTrail | TMLPrediction | TMLModel.

Inductive exc_class : Type :=
| JSONDecodeError
| AttributeError
| TypeError
| ValueError
| DoesNotExist (model : table)
| MultipleObjectsReturned (model : table)
| OverflowError
| DatabaseError.

(** An exception object: its class and [str(e)]. *)
Record PyExn : Type := mkExn { exc_type : exc_class; exc_str : string }.

Definition table_eqb (a b : table) : bool :=
  match a, b with
  | TProduct, TProduct | TSale, TSale | TRecipe, TRecipe
  | TRecipeIngredient, TRecipeIngredient | TWasteLog, TWasteLog
  | TAuditTrail, TAuditTrail | TMLPrediction, TMLPrediction
  | TMLModel, TMLModel => true
  | _, _ => false
  end.

Definition is_does_not_exist (model : table) (e : PyExn) : bool :=
  match exc_type e with
  | DoesNotExist m => table_eqb m model
  | _ => false
  end.

Inductive result (A : Type) : Type :=
| Ok (a : A)
| Raise (e : PyExn).
Arguments Ok {A} a.
Arguments Raise {A} e.

(** ** The tables of dashboard/models.py *)

Module Product.
Record t : Type := mk {
    id : string;
    firebase_id : option string;
    name : string;
    category : string;
    unit : string;
    quantity : option Q;
    inventory_a : option Q;
    inventory_b : option Q
}.
End Product.

Module Sale.
Record t : Type := mk {
    product_firebase_id : option string;
    product_name : string;
    quantity : option Q;
    order_date : option Z
}.
End Sale.

Module Recipe.
Record t : Type := mk {
    id : string;
    firebase_id : string;
    product_firebase_id : string;
    product_name : string
}.
End Recipe.

Module RecipeIngredient.
Record t : Type := mk {
    recipe_firebase_id : string;
    ingredient_firebase_id : option string;
    ingredient_name : option string;
    quantity_needed : option Q;
    recipe_id : option string
}.
End RecipeIngredient.

Module WasteLog.
Record t : Type := mk {
    product_firebase_id : string;
    product_name : string;
    quantity : Q;
    reason : json;
    waste_date : Z;
    recorded_by : string;
    category : string
}.
End WasteLog.

Module AuditTrail.
Record t : Type := mk {
    action : string;
    user_id : string;
    user_name : string;
    details : string;
    timestamp : Z
}.
End AuditTrail.

Module MLPrediction.
Record t : Type := mk {
    product_firebase_id : string;
    product_name : string;
    predicted_daily_usage : Q;
    avg_daily_usage : Q;
    trend : Q;
    confidence_score : Q;
    data_points : Z
}.
End MLPrediction.

Module MLModel.
Record t : Type := mk {
    name : string;
    is_trained : bool;
    last_trained : option Z;
    total_records : Z;
    products_analyzed : Z;
    predictions_generated : Z;
    accuracy : Z;
    model_type : string;
    training_period_days : Z
}.
End MLModel.

Record DB : Type := mkDB {
  products : list Product.t;
  sales : list Sale.t;
  recipes : list Recipe.t;
  recipe_ingredients : list RecipeIngredient.t;
  waste_logs : list WasteLog.t;
  audit_trail : list AuditTrail.t;
  ml_predictions : list MLPrediction.t;
  ml_models : list MLModel.t
}.

Definition set_products (l : list Product.t) (d : DB) : DB :=
  mkDB l (sales d) (recipes d) (recipe_ingredients d) (waste_logs d)
       (audit_trail d) (ml_predictions d) (ml_models d).

Definition set_waste_logs (l : list WasteLog.t) (d : DB) : DB :=
  mkDB (products d) (sales d) (recipes d) (recipe_ingredients d) l
       (audit_trail d) (ml_predictions d) (ml_models d).

Definition set_audit_trail (l : list AuditTrail.t) (d : DB) : DB :=
  mkDB (products d) (sales d) (recipes d) (recipe_ingredients d) (waste_logs d)
       l (ml_predictions d) (ml_models d).

Definition set_ml_predictions (l : list MLPrediction.t) (d : DB) : DB :=
  mkDB (products d) (sales d) (recipes d) (recipe_ingredients d) (waste_logs d)
       (audit_trail d) l (ml_models d).

Definition set_ml_models (l : list MLModel.t) (d : DB) : DB :=
  mkDB (products d) (sales d) (recipes d) (recipe_ingredients d) (waste_logs d)
       (audit_trail d) (ml_predictions d) l.

(** ** Stateful, fallible computations over the database *)

Definition M (A : Type) : Type := DB -> result A * DB.

Definition ret {A : Type} (a : A) : M A := fun d => (Ok a, d).

Definition raise {A : Type} (e : PyExn) : M A := fun d => (Raise e, d).

Definition bind {A B : Type} (c : M A) (k : A -> M B) : M B :=
  fun d =>
    match c d with
    | (Ok a, d') => k a d'
    | (Raise e, d') => (Raise e, d')
    end.

(** [try: c  except E as e: h e], where [catches] tells the instances of [E]. *)
Definition try_except {A : Type} (catches : PyExn -> bool)
    (c : M A) (h : PyExn -> M A) : M A :=
  fun d =>
    match c d with
    | (Ok a, d') => (Ok a, d')
    | (Raise e, d') => if catches e then h e d' else (Raise e, d')
    end.

(** [except Exception]: every modelled class derives from [Exception]. *)
Definition Exception (e : PyExn) : bool := true.

Declare Scope py_scope.
Delimit Scope py_scope with py.
Notation "x <- c ;; k" := (bind c (fun x => k))
  (at level 61, c at next level, right associativity) : py_scope.
Notation "c ;;; k" := (bind c (fun _ => k))
  (at level 61, right associativity) : py_scope.
Local Open Scope py_scope.

(** The ORM calls, as the driver sees them. *)
Inductive orm_kind : Type :=
| KGet | KFilter | KAll | KCount | KValues | KSave | KCreate | KUpdateOrCreate.

Record orm_call : Type := mkCall {
  call_table : table;
  call_kind : orm_kind;
  call_arg : string
}.

(** [objects.get(cond)]: the only row that satisfies [cond]. *)
Definition objects_get {A : Type} (model : table) (cond : A -> bool)
    (rows : list A) : result A :=
  match filter cond rows with
  | [] => Raise (mkExn (DoesNotExist model) "matching query does not exist.")
  | [x] => Ok x
  | _ :: _ :: _ =>
      Raise (mkExn (MultipleObjectsReturned model)
                   "get() returned more than one row")
  end.

(** A text column compared with a Python value: [NULL] matches nothing. *)
Definition col_eqb (col : option string) (v : string) : bool :=
  match col with
  | Some s => String.eqb s v
  | None => false
  end.

(** A nullable text column compared with a nullable Python value:
    [filter(col=None)] is [col IS NULL]. *)
Definition col_eqb_opt (col v : option string) : bool :=
  match v with
  | Some s => col_eqb col s
  | None => match col with None => true | Some _ => false end
  end.

Definition opt_str (s : option string) : string :=
  match s with Some t => t | None => "" end.

(** ** What the handlers take from their surroundings

    [fault] tells which ORM calls the database driver fails, and with what;
    [now] is the instant [datetime.now()] returns.  [json.loads], [float] on
    a string, [str] on a JSON value, the float and integer formats of the
    f-strings and [strftime] come from the Python runtime. *)
Class Runtime : Type := {
  fault : orm_call -> option PyExn;
  now : Z;
  json_loads : string -> result json;
  float_of_str : string -> option Q;
  py_str : json -> string;
  format_float : Q -> string;
  format_2f : Q -> string;
  format_int : Z -> string;
  strftime : Z -> string;
  (** a failure of the driver is a database error, never the answer of a
      lookup *)
  fault_class : forall c e, fault c = Some e -> exc_type e = DatabaseError
}.

(** ** The functions of dashboard/views.py *)

Section Views.

Context {rt : Runtime}.

(** An ORM call: the driver's failure first, then the query. *)
Definition orm {A : Type} (c : orm_call) (q : M A) : M A :=
  fun d =>
    match fault c with
    | Some e => (Raise e, d)
    | None => q d
    end.

Definition query {A : Type} (f : DB -> result A) : M A :=
  fun d => (f d, d).

Definition Recipe_get_id (v : string) : M Recipe.t :=
  orm (mkCall TRecipe KGet v)
    (query (fun d =>
       objects_get TRecipe (fun r => String.eqb (Recipe.id r) v) (recipes d))).

Definition Recipe_get_firebase_id (v : string) : M Recipe.t :=
  orm (mkCall TRecipe KGet v)
    (query (fun d =>
       objects_get TRecipe (fun r => String.eqb (Recipe.firebase_id r) v)
                   (recipes d))).

(** [Q(recipe_id=recipe.id) | Q(recipe_firebase_id=recipe.firebase_id)] *)
Definition ingredient_of (recipe : Recipe.t) (i : RecipeIngredient.t) : bool :=
  col_eqb (RecipeIngredient.recipe_id i) (Recipe.id recipe)
  || String.eqb (RecipeIngredient.recipe_firebase_id i)
                (Recipe.firebase_id recipe).

Definition RecipeIngredient_filter (recipe : Recipe.t)
    : M (list RecipeIngredient.t) :=
  orm (mkCall TRecipeIngredient KFilter (Recipe.id recipe))
    (query (fun d => Ok (filter (ingredient_of recipe) (recipe_ingredients d)))).

Definition Product_get_firebase_id (v : string) : M Product.t :=
  orm (mkCall TProduct KGet v)
    (query (fun d =>
       objects_get TProduct (fun p => col_eqb (Product.firebase_id p) v)
                   (products d))).

(** [ingredient.ingredient_firebase_id.strip() if
    ingredient.ingredient_firebase_id else ''] *)
Definition ingredient_product_id (ingredient : RecipeIngredient.t) : string :=
  match RecipeIngredient.ingredient_firebase_id ingredient with
  | Some s => if String.eqb s "" then "" else strip s
  | None => ""
  end.

(** The body of the [for ingredient in ingredients] loop of
    [calculate_max_servings], threading [max_servings_list]. *)
Fixpoint servings_loop (ingredients : list RecipeIngredient.t)
    (max_servings_list : list Z) : M (list Z) :=
  match ingredients with
  | [] => ret max_servings_list
  | ingredient :: rest =>
      let id := ingredient_product_id ingredient in
      let quantity_needed :=
        or0 (RecipeIngredient.quantity_needed ingredient) in
      if String.eqb id "" || Qeq_bool quantity_needed 0 then
        servings_loop rest max_servings_list
      else
        found <- try_except (is_does_not_exist TProduct)
                   (ing_product <- Product_get_firebase_id id ;;
                    ret (Some (or0 (Product.inventory_b ing_product))))
                   (fun _ => ret None) ;;
        match found with
        | None => servings_loop rest (max_servings_list ++ [0])
        | Some available_quantity =>
            let max_for_this_ingredient :=
              if Qltb 0 quantity_needed
              then py_int (available_quantity / quantity_needed)
              else 0 in
            servings_loop rest (max_servings_list ++ [max_for_this_ingredient])
        end
  end.

(** [calculate_max_servings]: [None] is Python's [None]. *)
Definition calculate_max_servings (product_firebase_id recipe_id : string)
    : M (option Z) :=
  try_except Exception
    (found <- try_except (is_does_not_exist TRecipe)
                (recipe <- Recipe_get_id recipe_id ;; ret (Some recipe))
                (fun _ =>
                   try_except (is_does_not_exist TRecipe)
                     (recipe <- Recipe_get_firebase_id recipe_id ;;
                      ret (Some recipe))
                     (fun _ => ret None)) ;;
     match found with
     | None => ret None
     | Some recipe =>
         ingredients <- RecipeIngredient_filter recipe ;;
         max_servings_list <- servings_loop ingredients [] ;;
         ret (Some match max_servings_list with
                   | [] => 0
                   | x :: l => py_min x l
                   end)
     end)
    (fun _ => ret None).

(** *** Requests and responses *)

Record User : Type := mkUser { user_pk : Z; username : string }.

Record HttpRequest : Type := mkRequest { body : string; user : User }.

(** The dict handed to [JsonResponse]. *)
Definition JsonResponse : Type := list (string * json).

(** [data.get(key, default)] *)
Definition dict_get (kv : list (string * json)) (key : string) (default : json)
    : json :=
  match dict_lookup key kv with
  | Some v => v
  | None => default
  end.

Definition data_get (data : json) (key : string) (default : json) : M json :=
  match data with
  | JObj kv => ret (dict_get kv key default)
  | _ => raise (mkExn AttributeError "object has no attribute 'get'")
  end.

(** [float(v)] *)
Definition float_of_json (v : json) : result Q :=
  match v with
  | JInt z => Ok (inject_Z z)
  | JNum q => Ok q
  | JBool b => Ok (if b then 1%Q else 0%Q)
  | JStr s =>
      match float_of_str s with
      | Some q => Ok q
      | None => Raise (mkExn ValueError "could not convert string to float")
      end
  | _ => Raise (mkExn TypeError
                      "float() argument must be a string or a real number")
  end.

Definition py_float (v : json) : M Q := fun d => (float_of_json v, d).

(** The text a lookup value is compared as. *)
Definition lookup_text (v : json) : string :=
  match v with
  | JStr s => s
  | _ => py_str v
  end.

(** [Q(firebase_id=product_id) | Q(id=product_id)] *)
Definition product_matches (v : string) (p : Product.t) : bool :=
  col_eqb (Product.firebase_id p) v || String.eqb (Product.id p) v.

Definition Product_get (product_id : json) : M Product.t :=
  orm (mkCall TProduct KGet (lookup_text product_id))
    (query (fun d =>
       objects_get TProduct (product_matches (lookup_text product_id))
                   (products d))).

(** [product.save()]: the row with the product's primary key is rewritten;
    a product without a row is inserted. *)
Definition save_row (product : Product.t) (rows : list Product.t)
    : list Product.t :=
  if existsb (fun r => String.eqb (Product.id r) (Product.id product)) rows
  then map (fun r => if String.eqb (Product.id r) (Product.id product)
                     then product else r) rows
  else rows ++ [product].

Definition Product_save (product : Product.t) : M unit :=
  orm (mkCall TProduct KSave (Product.id product))
    (fun d => (Ok tt, set_products (save_row product (products d)) d)).

Definition WasteLog_create (w : WasteLog.t) : M unit :=
  orm (mkCall TWasteLog KCreate (WasteLog.product_firebase_id w))
    (fun d => (Ok tt, set_waste_logs (waste_logs d ++ [w]) d)).

Definition AuditTrail_create (a : AuditTrail.t) : M unit :=
  orm (mkCall TAuditTrail KCreate (AuditTrail.action a))
    (fun d => (Ok tt, set_audit_trail (audit_trail d ++ [a]) d)).

Definition log_audit (action : string) (u : User) (details : string) : M unit :=
  try_except Exception
    (AuditTrail_create
       (AuditTrail.mk action (format_int (user_pk u)) (username u) details now))
    (fun _ => ret tt).

Definition failure (message : string) : JsonResponse :=
  [("success", JBool false); ("message", JStr message)].

Definition with_inventory (a b : Q) (p : Product.t) : Product.t :=
  Product.mk (Product.id p) (Product.firebase_id p) (Product.name p)
             (Product.category p) (Product.unit p) (Product.quantity p)
             (Some a) (Some b).

Definition with_inventory_b (b : Q) (p : Product.t) : Product.t :=
  Product.mk (Product.id p) (Product.firebase_id p) (Product.name p)
             (Product.category p) (Product.unit p) (Product.quantity p)
             (Product.inventory_a p) (Some b).

(** *** [transfer_inventory_api] *)

Definition transfer_inventory_body (request : HttpRequest) : M JsonResponse :=
  data <- (fun d => (json_loads (body request), d)) ;;
  product_id <- data_get data "productId" JNull ;;
  quantity <- data_get data "quantity" (JInt 0) ;;
  transfer_qty <- py_float quantity ;;
  if negb (truthy product_id) || Qle_bool transfer_qty 0 then
    ret (failure "Invalid product or quantity")
  else
    found <- try_except (is_does_not_exist TProduct)
               (product <- Product_get product_id ;; ret (Some product))
               (fun _ => ret None) ;;
    match found with
    | None => ret (failure "Product not found")
    | Some product =>
        let product_name := Product.name product in
        let inventory_a := or0 (Product.inventory_a product) in
        let inventory_b := or0 (Product.inventory_b product) in
        if Qltb inventory_a transfer_qty then
          ret (failure ("Insufficient stock in Inventory A. Available: "
                          ++ format_2f inventory_a))
        else
          let new_inventory_a := (inventory_a - transfer_qty)%Q in
          let new_inventory_b := (inventory_b + transfer_qty)%Q in
          Product_save (with_inventory new_inventory_a new_inventory_b product) ;;;
          log_audit "Inventory Transfer" (user request)
            ("Transferred " ++ format_float transfer_qty ++ " units of "
               ++ product_name ++ " from A to B") ;;;
          ret [("success", JBool true);
               ("message",
                JStr ("Successfully transferred " ++ format_float transfer_qty
                        ++ " units of " ++ product_name ++ " to Inventory B"));
               ("newInventoryA", JNum new_inventory_a);
               ("newInventoryB", JNum new_inventory_b)]
    end.

Definition transfer_inventory_api (request : HttpRequest) : M JsonResponse :=
  try_except Exception (transfer_inventory_body request)
    (fun e => ret (failure (exc_str e))).

(** *** [add_waste_api] *)

(** [product.firebase_id or str(product.id)] *)
Definition product_key (p : Product.t) : string :=
  match Product.firebase_id p with
  | Some s => if String.eqb s "" then Product.id p else s
  | None => Product.id p
  end.

Definition add_waste_body (request : HttpRequest) : M JsonResponse :=
  data <- (fun d => (json_loads (body request), d)) ;;
  product_id <- data_get data "productId" JNull ;;
  quantity <- data_get data "quantity" (JInt 0) ;;
  waste_qty <- py_float quantity ;;
  reason <- data_get data "reason" (JStr "Expired") ;;
  if negb (truthy product_id) || Qle_bool waste_qty 0 then
    ret (failure "Invalid product or quantity")
  else
    found <- try_except (is_does_not_exist TProduct)
               (product <- Product_get product_id ;; ret (Some product))
               (fun _ => ret None) ;;
    match found with
    | None => ret (failure "Product not found")
    | Some product =>
        let product_name := Product.name product in
        let inventory_b := or0 (Product.inventory_b product) in
        if Qltb inventory_b waste_qty then
          ret (failure ("Insufficient stock in Inventory B. Available: "
                          ++ format_2f inventory_b))
        else
          let new_inventory_b := (inventory_b - waste_qty)%Q in
          Product_save (with_inventory_b new_inventory_b product) ;;;
          WasteLog_create
            (WasteLog.mk (product_key product) product_name waste_qty reason
                         now (username (user request))
                         (Product.category product)) ;;;
          log_audit "Waste Recorded" (user request)
            ("Recorded " ++ format_float waste_qty ++ " units of "
               ++ product_name ++ " as waste (" ++ lookup_text reason ++ ")") ;;;
          ret [("success", JBool true);
               ("message",
                JStr ("Successfully recorded " ++ format_float waste_qty
                        ++ " units of " ++ product_name ++ " as waste"));
               ("newInventoryB", JNum new_inventory_b)]
    end.

Definition add_waste_api (request : HttpRequest) : M JsonResponse :=
  try_except Exception (add_waste_body request)
    (fun e => ret (failure (exc_str e))).

(** *** [train_forecasting_model] *)

Definition Sale_count : M Z :=
  orm (mkCall TSale KCount "")
    (query (fun d => Ok (Z.of_nat (List.length (sales d))))).

Definition Product_all : M (list Product.t) :=
  orm (mkCall TProduct KAll "") (query (fun d => Ok (products d))).

(** [Q(product_firebase_id=product.firebase_id) | Q(product_name=product.name)].
    The [-order_date] ordering of [Sale] is left out: the rows are only
    counted, summed and searched for their minimum. *)
Definition sale_of (product : Product.t) (s : Sale.t) : bool :=
  col_eqb_opt (Sale.product_firebase_id s) (Product.firebase_id product)
  || String.eqb (Sale.product_name s) (Product.name product).

Definition product_sales (product : Product.t) (d : DB) : list Sale.t :=
  filter (sale_of product) (sales d).

Definition product_sales_count (product : Product.t) : M Z :=
  orm (mkCall TSale KCount (Product.name product))
    (query (fun d => Ok (Z.of_nat (List.length (product_sales product d))))).

Definition product_sales_values (product : Product.t) : M (list Sale.t) :=
  orm (mkCall TSale KValues (Product.name product))
    (query (fun d => Ok (product_sales product d))).

(** [sum(s['quantity'] for s in sales_data if s['quantity'])] *)
Definition total_quantity_of (sales_data : list Sale.t) : Q :=
  fold_left
    (fun acc s =>
       match Sale.quantity s with
       | Some q => if Qeq_bool q 0 then acc else (acc + q)%Q
       | None => acc
       end)
    sales_data 0%Q.

(** [s['order_date'] for s in sales_data if s['order_date']] *)
Fixpoint order_dates (sales_data : list Sale.t) : list Z :=
  match sales_data with
  | [] => []
  | s :: rest =>
      match Sale.order_date s with
      | Some t => t :: order_dates rest
      | None => order_dates rest
      end
  end.

(** [min(...)] of a generator, which raises on an empty one. *)
Definition min_of (l : list Z) : M Z :=
  match l with
  | [] => raise (mkExn ValueError "min() arg is an empty sequence")
  | x :: rest => ret (py_min x rest)
  end.

Definition microseconds_per_day : Z := 86400000000.

(** [(datetime.now() - earliest).days or 1] *)
Definition days_since (earliest : Z) : Z :=
  let days := (now - earliest) / microseconds_per_day in
  if days =? 0 then 1 else days.

(** [min(0.9, 0.5 + (len(sales_data) / 100))] *)
Definition confidence_of (sales_data : list Sale.t) : Q :=
  let c := ((5 # 10) + inject_Z (Z.of_nat (List.length sales_data)) / 100)%Q in
  if Qltb c (9 # 10) then c else (9 # 10)%Q.

(** [objects.update_or_create(key, defaults)] on a table whose rows hold the
    key and the defaults: the row of the key is rewritten, or a row added. *)
Definition update_or_create {A : Type} (model : table) (same_key : A -> bool)
    (row : A) (rows : list A) : result (list A) :=
  match filter same_key rows with
  | [] => Ok (rows ++ [row])%list
  | [_] => Ok (map (fun r => if same_key r then row else r) rows)
  | _ :: _ :: _ =>
      Raise (mkExn (MultipleObjectsReturned model)
                   "get() returned more than one row")
  end.

Definition same_prediction (key : string) (r : MLPrediction.t) : bool :=
  String.eqb (MLPrediction.product_firebase_id r) key.

Definition MLPrediction_update_or_create (row : MLPrediction.t) : M unit :=
  orm (mkCall TMLPrediction KUpdateOrCreate
              (MLPrediction.product_firebase_id row))
    (fun d =>
       match update_or_create TMLPrediction
               (same_prediction (MLPrediction.product_firebase_id row))
               row (ml_predictions d) with
       | Ok rows => (Ok tt, set_ml_predictions rows d)
       | Raise e => (Raise e, d)
       end).

Definition MLModel_update_or_create (row : MLModel.t) : M unit :=
  orm (mkCall TMLModel KUpdateOrCreate (MLModel.name row))
    (fun d =>
       match update_or_create TMLModel
               (fun r => String.eqb (MLModel.name r) (MLModel.name row))
               row (ml_models d) with
       | Ok rows => (Ok tt, set_ml_models rows d)
       | Raise e => (Raise e, d)
       end).

(** The prediction [train_forecasting_model] stores for a product from the
    rows of its sales. *)
Definition prediction_row (product : Product.t) (sales_data : list Sale.t)
    (earliest : Z) : MLPrediction.t :=
  let total_quantity := total_quantity_of sales_data in
  let days := days_since earliest in
  let avg_daily_usage := (total_quantity / inject_Z (Z.max days 1))%Q in
  let predicted_daily_usage := (avg_daily_usage * (11 # 10))%Q in
  MLPrediction.mk (product_key product) (Product.name product)
    predicted_daily_usage avg_daily_usage 0%Q (confidence_of sales_data)
    (Z.of_nat (List.length sales_data)).

(** The [for product in products] loop, threading [predictions_created]. *)
Fixpoint train_loop (products : list Product.t) (predictions_created : Z)
    : M Z :=
  match products with
  | [] => ret predictions_created
  | product :: rest =>
      n <- product_sales_count product ;;
      if n <? 3 then train_loop rest predictions_created
      else
        sales_data <- product_sales_values product ;;
        match sales_data with
        | [] => train_loop rest predictions_created
        | _ :: _ =>
            earliest <- min_of (order_dates sales_data) ;;
            MLPrediction_update_or_create
              (prediction_row product sales_data earliest) ;;;
            train_loop rest (predictions_created + 1)
        end
  end.

Definition train_forecasting_body (request : HttpRequest) : M JsonResponse :=
  sales_count <- Sale_count ;;
  if sales_count <? 10 then
    ret (failure ("Insufficient data for training. Need at least 10 sales records, found "
                    ++ format_int sales_count ++ "."))
  else
    products <- Product_all ;;
    predictions_created <- train_loop products 0 ;;
    let products_count := Z.of_nat (List.length products) in
    MLModel_update_or_create
      (MLModel.mk "inventory_forecasting" true (Some now) sales_count
                  products_count predictions_created 85
                  "Linear Regression (Moving Average)" 90) ;;;
    log_audit "Model Trained" (user request)
      ("Trained ML model with " ++ format_int sales_count ++ " records, "
         ++ format_int predictions_created ++ " predictions") ;;;
    ret [("success", JBool true);
         ("message",
          JStr ("Model trained successfully! Analyzed "
                  ++ format_int products_count ++ " products, created "
                  ++ format_int predictions_created ++ " predictions."));
         ("stats",
          JObj [("sales_records", JInt sales_count);
                ("products_analyzed", JInt products_count);
                ("predictions_created", JInt predictions_created)])].

Definition train_forecasting_model (request : HttpRequest) : M JsonResponse :=
  try_except Exception (train_forecasting_body request)
    (fun e => ret (failure (exc_str e))).

(** *** [inventory_forecasting_view] *)

Definition lower_ascii (c : ascii) : ascii :=
  let n := nat_of_ascii c in
  if ((65 <=? n) && (n <=? 90))%nat then ascii_of_nat (n + 32) else c.

Fixpoint lower (s : string) : string :=
  match s with
  | String c s' => String (lower_ascii c) (lower s')
  | EmptyString => EmptyString
  end.

(** [column__iexact=v] and [column__icontains=v] on ASCII text. *)
Definition iexact (column v : string) : bool :=
  String.eqb (lower column) (lower v).

Definition icontains (column v : string) : bool :=
  match index 0 (lower v) (lower column) with
  | Some _ => true
  | None => false
  end.

(** The products the chain of [exclude] calls keeps. *)
Definition listed (p : Product.t) : bool :=
  negb (iexact (Product.category p) "Beverages")
  && negb (iexact (Product.category p) "beverage")
  && negb (iexact (Product.category p) "drinks")
  && negb (icontains (Product.name p) "Water")
  && negb (icontains (Product.name p) "Ice").

Definition Product_count : M Z :=
  orm (mkCall TProduct KCount "")
    (query (fun d => Ok (Z.of_nat (List.length (products d))))).

Definition MLPrediction_count : M Z :=
  orm (mkCall TMLPrediction KCount "")
    (query (fun d => Ok (Z.of_nat (List.length (ml_predictions d))))).

Definition MLModel_get (v : string) : M MLModel.t :=
  orm (mkCall TMLModel KGet v)
    (query (fun d =>
       objects_get TMLModel (fun m => String.eqb (MLModel.name m) v)
                   (ml_models d))).

Definition Product_listed_count : M Z :=
  orm (mkCall TProduct KCount "exclude")
    (query (fun d => Ok (Z.of_nat (List.length (filter listed (products d)))))).

Definition Product_listed : M (list Product.t) :=
  orm (mkCall TProduct KFilter "exclude")
    (query (fun d => Ok (filter listed (products d)))).

(** [MLPrediction.objects.get(product_firebase_id=product.firebase_id)]:
    the column is not nullable, so a [None] value matches no row. *)
Definition MLPrediction_get (v : option string) : M MLPrediction.t :=
  orm (mkCall TMLPrediction KGet (opt_str v))
    (query (fun d =>
       objects_get TMLPrediction
         (fun r => col_eqb_opt (Some (MLPrediction.product_firebase_id r)) v)
         (ml_predictions d))).

(** The ['days_left'] entry of a row: an integer, or ['N/A']. *)
Inductive days_field : Type :=
| DaysInt (n : Z)
| DaysNA.

Record ForecastRow : Type := mkRow {
  row_product_id : string;
  row_product_name : string;
  row_category : string;
  row_current_stock : string;
  row_unit : string;
  row_avg_daily_usage : string;
  row_days_left : days_field;
  row_depletion_date : string;
  row_status : string;
  row_status_label : string;
  row_predicted_usage : string;
  row_reorder_qty : string;
  row_confidence : string
}.

Record Summary : Type := mkSummary {
  critical : Z;
  low : Z;
  healthy : Z;
  needs_reorder : Z
}.

Definition datetime_min : Z := -62135596800000000.
Definition datetime_max : Z := 253402300799999999.

(** [datetime.now() + timedelta(days=n)] *)
Definition now_plus_days (n : Z) : M Z :=
  if (n <? -999999999) || (999999999 <? n) then
    raise (mkExn OverflowError "days out of range for timedelta")
  else
    let t := now + n * microseconds_per_day in
    if (t <? datetime_min) || (datetime_max <? t) then
      raise (mkExn OverflowError "date value out of range")
    else ret t.

(** The days of stock left, as the loop computes them. *)
Definition days_left_of (predicted_daily_usage stock : Q) : Z :=
  if Qltb 0 predicted_daily_usage
  then py_int (stock / predicted_daily_usage)
  else 999.

(** One turn of the [for product in products] loop once the prediction is
    read: the row appended to [forecast_data] and the counters updated. *)
Definition forecast_step (product : Product.t)
    (predicted_daily_usage avg_daily_usage ml_confidence : Q)
    (summary : Summary) : M (ForecastRow * Summary) :=
  let stock := or0 (Product.quantity product) in
  let days_left := days_left_of predicted_daily_usage stock in
  depletion_date <-
    (if days_left <? 999
     then (t <- now_plus_days days_left ;; ret (strftime t))
     else ret "N/A") ;;
  let '(status, status_label, summary) :=
    if days_left <=? 3 then
      ("critical", "Critical",
       mkSummary (critical summary + 1) (low summary) (healthy summary)
                 (needs_reorder summary))
    else if days_left <=? 7 then
      ("warning", "Low Stock",
       mkSummary (critical summary) (low summary + 1) (healthy summary)
                 (needs_reorder summary))
    else
      ("healthy", "Healthy",
       mkSummary (critical summary) (low summary) (healthy summary + 1)
                 (needs_reorder summary)) in
  let summary :=
    if days_left <=? 7 then
      mkSummary (critical summary) (low summary) (healthy summary)
                (needs_reorder summary + 1)
    else summary in
  let predicted_7day_usage := (predicted_daily_usage * 7)%Q in
  let reorder_qty :=
    if days_left <=? 7 then
      let need := (predicted_daily_usage * 30 - stock)%Q in
      if Qltb 0 need then need else 0%Q
    else 0%Q in
  let confidence_percent :=
    if Qeq_bool ml_confidence 0 then "0%"
    else format_int (py_int (ml_confidence * 100)) ++ "%" in
  ret (mkRow (Product.id product) (Product.name product)
             (Product.category product) (format_2f stock)
             (Product.unit product)
             (if Qeq_bool avg_daily_usage 0 then "0.00"
              else format_2f avg_daily_usage)
             (if days_left <? 999 then DaysInt days_left else DaysNA)
             depletion_date status status_label
             (format_2f predicted_7day_usage) (format_2f reorder_qty)
             confidence_percent,
       summary).

Fixpoint forecast_loop (products : list Product.t)
    (forecast_data : list ForecastRow) (summary : Summary)
    : M (list ForecastRow * Summary) :=
  match products with
  | [] => ret (forecast_data, summary)
  | product :: rest =>
      p <- try_except (is_does_not_exist TMLPrediction)
             (prediction <- MLPrediction_get (Product.firebase_id product) ;;
              ret (MLPrediction.predicted_daily_usage prediction,
                   MLPrediction.avg_daily_usage prediction,
                   MLPrediction.confidence_score prediction))
             (fun _ => ret (0%Q, 0%Q, 0%Q)) ;;
      let '(predicted_daily_usage, avg_daily_usage, ml_confidence) := p in
      r <- forecast_step product predicted_daily_usage avg_daily_usage
             ml_confidence summary ;;
      forecast_loop rest (forecast_data ++ [fst r]) (snd r)
  end.

(** The key of [forecast_data.sort]. *)
Definition sort_key (r : ForecastRow) : Z :=
  match row_days_left r with
  | DaysInt n => n
  | DaysNA => 999
  end.

Fixpoint insert_row (r : ForecastRow) (l : list ForecastRow)
    : list ForecastRow :=
  match l with
  | [] => [r]
  | x :: l' =>
      if sort_key r <=? sort_key x then r :: x :: l' else x :: insert_row r l'
  end.

(** [list.sort(key=...)]: a stable sort. *)
Definition sort_rows (l : list ForecastRow) : list ForecastRow :=
  fold_right insert_row [] l.

(** The template context; [model_status] is the trained model's row, or
    [None] for the dict of an untrained model. *)
Record Context : Type := mkContext {
  forecast_data : list ForecastRow;
  model_status : option MLModel.t;
  summary : Summary;
  data_issues : list (string * string);
  data_status : option (Z * Z * Z)
}.

Definition inventory_forecasting_view (request : HttpRequest) : M Context :=
  try_except Exception
    (sales_count <- Sale_count ;;
     products_count <- Product_count ;;
     predictions_count <- MLPrediction_count ;;
     let data_issues :=
       ((if sales_count =? 0 then
          [("no_sales",
            "You need sales history to train the forecasting model.")]
        else if sales_count <? 30 then
          [("insufficient_sales",
            ("You have only " ++ format_int sales_count
               ++ " sales records. At least 30 records recommended.")%string)]
        else [])
       ++ (if products_count =? 0 then
             [("no_products",
               "You need products in your inventory to forecast.")]
           else []))%list in
     m <- try_except (is_does_not_exist TMLModel)
            (ml_model <- MLModel_get "inventory_forecasting" ;;
             ret (Some ml_model, data_issues))
            (fun _ =>
               ret (None,
                    (data_issues
                       ++ [("no_model", "No ML model has been trained yet.")])%list)) ;;
     Product_listed_count ;;;
     products <- Product_listed ;;
     r <- forecast_loop products [] (mkSummary 0 0 0 0) ;;
     ret (mkContext (sort_rows (fst r)) (fst m) (snd r) (snd m)
                    (Some (sales_count, products_count, predictions_count))))
    (fun e =>
       ret (mkContext [] None (mkSummary 0 0 0 0) [("error", exc_str e)] None)).

End Views.

(** ** Removing products and recipes

    [delete_product_view] and [delete_recipe_api] issue DELETE statements,
    which the driver may fail like any other statement: [refuses] tells
    which, by table and key. *)
Class Driver : Type := {
  refuses : table -> string -> option PyExn
}.

Definition set_recipes (l : list Recipe.t) (d : DB) : DB :=
  mkDB (products d) (sales d) l (recipe_ingredients d) (waste_logs d)
       (audit_trail d) (ml_predictions d) (ml_models d).

Definition set_recipe_ingredients (l : list RecipeIngredient.t) (d : DB)
    : DB :=
  mkDB (products d) (sales d) (recipes d) l (waste_logs d)
       (audit_trail d) (ml_predictions d) (ml_models d).

Section Removals.

Context {rt : Runtime} {dr : Driver}.

(** A DELETE statement: the driver's refusal first, then the removal. *)
Definition deleting {A : Type} (model : table) (key : string) (q : M A)
    : M A :=
  fun d =>
    match refuses model key with
    | Some e => (Raise e, d)
    | None => q d
    end.

(** [product.delete()]: the rows with the product's primary key go. *)
Definition delete_row (product : Product.t) (rows : list Product.t)
    : list Product.t :=
  filter (fun r => negb (String.eqb (Product.id r) (Product.id product))) rows.

Definition Product_delete (product : Product.t) : M unit :=
  deleting TProduct (Product.id product)
    (fun d => (Ok tt, set_products (delete_row product (products d)) d)).

(** [data.get('id') or data.get('productId')] *)
Definition id_or_productId (data : json) : M json :=
  id <- data_get data "id" JNull ;;
  if truthy id then ret id else data_get data "productId" JNull.

(** *** [delete_product_view] *)

Definition delete_product_body (request : HttpRequest) : M JsonResponse :=
  data <- (fun d => (json_loads (body request), d)) ;;
  product_id <- id_or_productId data ;;
  if negb (truthy product_id) then
    ret (failure "Product ID is required")
  else
    found <- try_except (is_does_not_exist TProduct)
               (product <- Product_get product_id ;; ret (Some product))
               (fun _ => ret None) ;;
    match found with
    | None => ret (failure "Product not found")
    | Some product =>
        let product_name := Product.name product in
        Product_delete product ;;;
        log_audit "Product Deleted" (user request)
          ("Deleted product: " ++ product_name) ;;;
        ret [("success", JBool true);
             ("message",
              JStr ("Product " ++ product_name ++ " deleted successfully!"))]
    end.

Definition delete_product_view (request : HttpRequest) : M JsonResponse :=
  try_except Exception (delete_product_body request)
    (fun e => ret (failure (exc_str e))).

(** *** [delete_recipe_api] *)

(** [Q(id=recipe_id) | Q(firebase_id=recipe_id)] *)
Definition recipe_matches (v : string) (r : Recipe.t) : bool :=
  String.eqb (Recipe.id r) v || String.eqb (Recipe.firebase_id r) v.

Definition Recipe_get (recipe_id : json) : M Recipe.t :=
  orm (mkCall TRecipe KGet (lookup_text recipe_id))
    (query (fun d =>
       objects_get TRecipe (recipe_matches (lookup_text recipe_id))
                   (recipes d))).

(** [RecipeIngredient.objects.filter(...).delete()], which answers with the
    number of rows it removed. *)
Definition RecipeIngredient_delete (recipe : Recipe.t) : M Z :=
  deleting TRecipeIngredient (Recipe.id recipe)
    (fun d =>
       (Ok (Z.of_nat (List.length (filter (ingredient_of recipe)
                                          (recipe_ingredients d)))),
        set_recipe_ingredients
          (filter (fun i => negb (ingredient_of recipe i))
                  (recipe_ingredients d)) d)).

(** [recipe.delete()] *)
Definition Recipe_delete (recipe : Recipe.t) : M unit :=
  deleting TRecipe (Recipe.id recipe)
    (fun d =>
       (Ok tt,
        set_recipes
          (filter (fun r => negb (String.eqb (Recipe.id r) (Recipe.id recipe)))
                  (recipes d)) d)).

Definition delete_recipe_body (request : HttpRequest) : M JsonResponse :=
  data <- (fun d => (json_loads (body request), d)) ;;
  recipe_id <- data_get data "recipeId" JNull ;;
  if negb (truthy recipe_id) then
    ret (failure "Recipe ID required")
  else
    found <- try_except (is_does_not_exist TRecipe)
               (recipe <- Recipe_get recipe_id ;; ret (Some recipe))
               (fun _ => ret None) ;;
    match found with
    | None => ret (failure "Recipe not found")
    | Some recipe =>
        let product_name := Recipe.product_name recipe in
        RecipeIngredient_delete recipe ;;;
        Recipe_delete recipe ;;;
        log_audit "Recipe Deleted" (user request)
          ("Deleted recipe for " ++ product_name) ;;;
        ret [("success", JBool true);
             ("message",
              JStr ("Recipe for " ++ product_name ++ " deleted successfully!"))]
    end.

Definition delete_recipe_api (request : HttpRequest) : M JsonResponse :=
  try_except Exception (delete_recipe_body request)
    (fun e => ret (failure (exc_str e))).

End Removals.

(** ** The claims' readings, for comparison with the code *)

(** The ingredients [calculate_max_servings] does not skip. *)
Definition kept (i : RecipeIngredient.t) : bool :=
  negb (String.eqb (ingredient_product_id i) ""
        || Qeq_bool (or0 (RecipeIngredient.quantity_needed i)) 0).

(** The products an ingredient's identifier names. *)
Definition ingredient_products (d : DB) (i : RecipeIngredient.t)
    : list Product.t :=
  filter (fun p => col_eqb (Product.firebase_id p) (ingredient_product_id i))
         (products d).

(** The available stock of an ingredient: the usable counter of its product,
    nothing when there is no such product. *)
Definition available (d : DB) (i : RecipeIngredient.t) : Q :=
  match ingredient_products d i with
  | p :: _ => or0 (Product.inventory_b p)
  | [] => 0%Q
  end.

(** The servings an ingredient allows, as the code counts them. *)
Definition servings_of (d : DB) (i : RecipeIngredient.t) : Z :=
  match ingredient_products d i with
  | p :: _ =>
      if Qltb 0 (or0 (RecipeIngredient.quantity_needed i))
      then py_int (or0 (Product.inventory_b p)
                   / or0 (RecipeIngredient.quantity_needed i))
      else 0
  | [] => 0
  end.

Definition min_or_zero (l : list Z) : Z :=
  match l with
  | [] => 0
  | x :: r => py_min x r
  end.

(** The recipe [calculate_max_servings] works on: the one whose [id] is
    [recipe_id], or else the one whose [firebase_id] is. *)
Definition recipe_found (d : DB) (recipe_id : string) (recipe : Recipe.t)
    : Prop :=
  objects_get TRecipe (fun r => String.eqb (Recipe.id r) recipe_id) (recipes d)
    = Ok recipe
  \/ (filter (fun r => String.eqb (Recipe.id r) recipe_id) (recipes d) = []
      /\ objects_get TRecipe
           (fun r => String.eqb (Recipe.firebase_id r) recipe_id) (recipes d)
         = Ok recipe).

(** The sales of a product among the rows of [Sale], the products that have
    enough of them to be processed, and the prediction training stores for
    such a product. *)
Definition sales_of (product : Product.t) (rows : list Sale.t) : list Sale.t :=
  filter (sale_of product) rows.

Definition eligible (rows : list Sale.t) (product : Product.t) : bool :=
  negb (Z.of_nat (List.length (sales_of product rows)) <? 3).

Definition earliest_sale (sales_data : list Sale.t) : Z :=
  match order_dates sales_data with
  | [] => 0
  | x :: rest => py_min x rest
  end.

Definition stored_prediction {rt : Runtime} (rows : list Sale.t)
    (product : Product.t) : MLPrediction.t :=
  prediction_row product (sales_of product rows)
                 (earliest_sale (sales_of product rows)).


(** The rows of [MLPrediction] under a key, and the table after a row is
    stored under its key. *)
Definition predictions_for (key : string) (rows : list MLPrediction.t)
    : list MLPrediction.t :=
  filter (same_prediction key) rows.

Definition upsert (rows : list MLPrediction.t) (row : MLPrediction.t)
    : list MLPrediction.t :=
  if existsb (same_prediction (MLPrediction.product_firebase_id row)) rows
  then map (fun r =>
              if same_prediction (MLPrediction.product_firebase_id row) r
              then row else r) rows
  else (rows ++ [row])%list.

(** What a row shows for a number of days left. *)
Definition shown_days (days_left : Z) : days_field :=
  if days_left <? 999 then DaysInt days_left else DaysNA.

(** The predicted daily usage the forecast reads for a product: that of its
    prediction, or zero when it has none. *)
Definition usage_read (d : DB) (p : Product.t) (predicted : Q) : Prop :=
  (exists prediction,
      objects_get TMLPrediction
        (fun r => col_eqb_opt (Some (MLPrediction.product_firebase_id r))
                              (Product.firebase_id p))
        (ml_predictions d) = Ok prediction
      /\ predicted = MLPrediction.predicted_daily_usage prediction)
  \/ (filter (fun r => col_eqb_opt (Some (MLPrediction.product_firebase_id r))
                                   (Product.firebase_id p))
             (ml_predictions d) = []
      /\ predicted = 0%Q).

(** A row of the forecast follows a product. *)
Definition tracks {rt : Runtime} (d : DB) (p : Product.t) (row : ForecastRow)
    : Prop :=
  exists predicted,
    usage_read d p predicted
    /\ let days_left := days_left_of predicted (or0 (Product.quantity p)) in
       row_product_id row = Product.id p
       /\ row_days_left row = shown_days days_left
       /\ row_depletion_date row
          = (if days_left <? 999
             then strftime (now + days_left * microseconds_per_day)
             else "N/A")
       /\ row_status row
          = (if days_left <=? 3 then "critical"
             else if days_left <=? 7 then "warning" else "healthy").

Definition status_count (status : string) (rows : list ForecastRow) : Z :=
  Z.of_nat (List.length
              (filter (fun r => String.eqb (row_status r) status) rows)).

(** The rows that show at most seven days left. *)
Definition reorder_due (r : ForecastRow) : bool :=
  match row_days_left r with
  | DaysInt n => n <=? 7
  | DaysNA => false
  end.

(** What a request asks for once its body is read, and the product it
    names. *)
Definition asks {rt : Runtime} (request : HttpRequest)
    (kv : list (string * json)) (q : Q) : Prop :=
  json_loads (body request) = Ok (JObj kv)
  /\ float_of_json (dict_get kv "quantity" (JInt 0)) = Ok q.

Definition finds {rt : Runtime} (d : DB) (kv : list (string * json))
    (product : Product.t) : Prop :=
  objects_get TProduct
    (product_matches (lookup_text (dict_get kv "productId" JNull)))
    (products d) = Ok product.

(** ** Sample data *)

Definition show_Z (z : Z) : string := NilZero.string_of_int (Z.to_int z).

Definition show_Q (q : Q) : string :=
  show_Z (Qnum q) ++ "/" ++ show_Z (Zpos (Qden q)).

(** A runtime whose database never fails and whose parser knows three
    request bodies. *)
Definition sample_loads (s : string) : result json :=
  if String.eqb s "transfer 4 of flour" then
    Ok (JObj [("productId", JStr "flour"); ("quantity", JInt 4)])
  else if String.eqb s "transfer 40 of flour" then
    Ok (JObj [("productId", JStr "flour"); ("quantity", JInt 40)])
  else if String.eqb s "waste 3 of flour" then
    Ok (JObj [("productId", JStr "flour"); ("quantity", JNum (3 # 1));
              ("reason", JStr "Spilled")])
  else if String.eqb s "waste 30 of flour" then
    Ok (JObj [("productId", JStr "flour"); ("quantity", JInt 30)])
  else Raise (mkExn JSONDecodeError "Expecting value").

Definition sample_day : Z := 20000 * microseconds_per_day.

#[local] Instance sample_runtime : Runtime := {|
  fault := fun _ => None;
  now := sample_day;
  json_loads := sample_loads;
  float_of_str := fun _ => None;
  py_str := fun _ => "";
  format_float := show_Q;
  format_2f := show_Q;
  format_int := show_Z;
  strftime := show_Z;
  fault_class := fun c e (H : None = Some e) => ltac:(discriminate H)
|}.

Definition flour : Product.t :=
  Product.mk "flour" (Some "flour") "Flour" "ingredients" "g"
             (Some (10 # 1)) (Some (10 # 1)) (Some (5 # 1)).

Definition milk : Product.t :=
  Product.mk "milk" (Some "milk") "Milk" "ingredients" "ml"
             (Some (10 # 1)) (Some 0%Q) (Some (10 # 1)).

Definition empty_db : DB := mkDB [] [] [] [] [] [] [] [].

Definition staff : User := mkUser 7 "ana".

(** A recipe with two usable ingredients and one without identifier. *)
Definition bread_db : DB :=
  mkDB [flour; milk] []
       [Recipe.mk "r2" "fb2" "bread" "Bread"]
       [RecipeIngredient.mk "fb2" (Some " flour ") (Some "Flour")
                            (Some (2 # 1)) None;
        RecipeIngredient.mk "fb2" (Some "milk") (Some "Milk")
                            (Some (3 # 1)) (Some "r2");
        RecipeIngredient.mk "fb2" (Some "") None (Some (1 # 1)) (Some "r2")]
       [] [] [] [].

Definition pantry_db : DB := mkDB [flour] [] [] [] [] [] [] [].

(** A runtime whose database is down. *)
Definition broken_runtime : Runtime := {|
  fault := fun _ => Some (mkExn DatabaseError "connection refused");
  now := sample_day;
  json_loads := sample_loads;
  float_of_str := fun _ => None;
  py_str := fun _ => "";
  format_float := show_Q;
  format_2f := show_Q;
  format_int := show_Z;
  strftime := show_Z;
  fault_class := fun c e (H : Some (mkExn DatabaseError "connection refused")
                              = Some e) =>
                   match H in _ = o
                         return match o with
                                | Some x => exc_type x = DatabaseError
                                | None => True
                                end
                   with eq_refl => eq_refl end
|}.

Definition transfer_4 : HttpRequest := mkRequest "transfer 4 of flour" staff.
Definition transfer_40 : HttpRequest := mkRequest "transfer 40 of flour" staff.
Definition waste_3 : HttpRequest := mkRequest "waste 3 of flour" staff.
Definition train_request : HttpRequest := mkRequest "" staff.

Definition transfer_4_body : list (string * json) :=
  [("productId", JStr "flour"); ("quantity", JInt 4)].

Definition transfer_4_response : JsonResponse :=
  Eval vm_compute in
    match fst (transfer_inventory_api (rt := sample_runtime) transfer_4
                                      pantry_db) with
    | Ok resp => resp
    | Raise _ => []
    end.

Definition days_ago (n : Z) : Z := sample_day - n * microseconds_per_day.

(** Ten sales: four of flour, two of milk, four of sugar, which is not a
    product. *)
Definition shop_db : DB :=
  mkDB [flour; milk]
       [Sale.mk (Some "flour") "Flour" (Some (3 # 1)) (Some (days_ago 3));
        Sale.mk (Some "flour") "Flour" (Some (2 # 1)) (Some (days_ago 10));
        Sale.mk None "Flour" (Some (5 # 1)) (Some (days_ago 7));
        Sale.mk (Some "flour") "Flour bag" None None;
        Sale.mk (Some "milk") "Milk" (Some (1 # 1)) (Some (days_ago 2));
        Sale.mk (Some "milk") "Milk" (Some (1 # 1)) (Some (days_ago 1));
        Sale.mk (Some "sugar") "Sugar" (Some (1 # 1)) (Some (days_ago 1));
        Sale.mk (Some "sugar") "Sugar" (Some (1 # 1)) (Some (days_ago 2));
        Sale.mk (Some "sugar") "Sugar" (Some (1 # 1)) (Some (days_ago 3));
        Sale.mk (Some "sugar") "Sugar" (Some (1 # 1)) (Some (days_ago 4))]
       [] [] [] [] [] [].

Definition train_response : JsonResponse :=
  Eval vm_compute in
    match fst (train_forecasting_model (rt := sample_runtime) train_request
                                       shop_db) with
    | Ok resp => resp
    | Raise _ => []
    end.

Definition stocked (id : string) (name : string) (quantity : Q) : Product.t :=
  Product.mk id (Some id) name "ingredients" "g" (Some quantity) (Some 0%Q)
             (Some quantity).

Definition predicted (id : string) (usage : Q) : MLPrediction.t :=
  MLPrediction.mk id id usage usage 0%Q (5 # 10) 3.

(** Beans oversold, plenty of cocoa, some syrup, cups without a prediction,
    and rice, which the page leaves out for the [Ice] in its name. *)
Definition forecast_db : DB :=
  mkDB [stocked "beans" "Beans" (-5 # 1);
        stocked "cocoa" "Cocoa" (2000 # 1);
        stocked "syrup" "Syrup" (10 # 1);
        stocked "cups" "Cups" (40 # 1);
        stocked "rice" "Rice" (7 # 1)]
       [] [] [] [] []
       [predicted "beans" (2 # 1); predicted "cocoa" (1 # 1);
        predicted "syrup" (2 # 1); predicted "rice" (1 # 1)]
       [].

Definition forecast_context : Context :=
  Eval vm_compute in
    match fst (inventory_forecasting_view (rt := sample_runtime) train_request
                                          forecast_db) with
    | Ok ctx => ctx
    | Raise _ => mkContext [] None (mkSummary 0 0 0 0) [] None
    end.

From Stdlib Require Import Sorted Permutation.

(** ** Readings of the code beyond the claims *)

(** The order of the forecast rows: by the key of [forecast_data.sort]. *)
Definition by_days_left (a b : ForecastRow) : Prop := sort_key a <= sort_key b.

(** The identifier a product request names:
    [data.get('id') or data.get('productId')]. *)
Definition named_product (kv : list (string * json)) : json :=
  if truthy (dict_get kv "id" JNull) then dict_get kv "id" JNull
  else dict_get kv "productId" JNull.

(** The report of a handler that did what it was asked. *)
Definition succeeded (resp : JsonResponse) : Prop :=
  dict_lookup "success" resp = Some (JBool true).

(** ** More sample data *)

Definition kind_eqb (a b : orm_kind) : bool :=
  match a, b with
  | KGet, KGet | KFilter, KFilter | KAll, KAll | KCount, KCount
  | KValues, KValues | KSave, KSave | KCreate, KCreate
  | KUpdateOrCreate, KUpdateOrCreate => true
  | _, _ => false
  end.

(** The parser of the sample runtime, with the requests that delete. *)
Definition office_loads (s : string) : result json :=
  if String.eqb s "delete flour" then
    Ok (JObj [("id", JStr "flour")])
  else if String.eqb s "delete recipe r2" then
    Ok (JObj [("recipeId", JStr "r2")])
  else sample_loads s.

(** A runtime whose driver fails one kind of call on one table, with a
    message, and answers every other. *)
Definition failing (model : table) (kind : orm_kind) (message : string)
    : Runtime := {|
  fault := fun c =>
             if table_eqb (call_table c) model && kind_eqb (call_kind c) kind
             then Some (mkExn DatabaseError message)
             else None;
  now := sample_day;
  json_loads := office_loads;
  float_of_str := fun _ => None;
  py_str := fun _ => "";
  format_float := show_Q;
  format_2f := show_Q;
  format_int := show_Z;
  strftime := show_Z;
  fault_class :=
    fun c e =>
      match table_eqb (call_table c) model && kind_eqb (call_kind c) kind
            as b
            return (if b then Some (mkExn DatabaseError message) else None)
                   = Some e -> exc_type e = DatabaseError
      with
      | true => fun H => match H in _ = o
                               return match o with
                                      | Some x => exc_type x = DatabaseError
                                      | None => True
                                      end
                         with eq_refl => eq_refl end
      | false => fun H => match H in _ = o
                                return match o with
                                       | Some _ => exc_type e = DatabaseError
                                       | None => True
                                       end
                          with eq_refl => I end
      end
|}.

(** The sample runtime with the larger parser. *)
Definition office_runtime : Runtime := {|
  fault := fun _ => None;
  now := sample_day;
  json_loads := office_loads;
  float_of_str := fun _ => None;
  py_str := fun _ => "";
  format_float := show_Q;
  format_2f := show_Q;
  format_int := show_Z;
  strftime := show_Z;
  fault_class := fun c e (H : None = Some e) =>
                   match H in _ = o
                         return match o with
                                | Some _ => exc_type e = DatabaseError
                                | None => True
                                end
                   with eq_refl => I end
|}.

(** A driver that removes what it is asked to, and one that may not remove
    recipes. *)
Definition sample_driver : Driver := {| refuses := fun _ _ => None |}.

Definition stubborn_driver : Driver := {|
  refuses := fun model _ =>
               match model with
               | TRecipe =>
                   Some (mkExn DatabaseError
                               "permission denied for table recipes")
               | _ => None
               end
|}.

Definition delete_flour : HttpRequest := mkRequest "delete flour" staff.
Definition delete_bread : HttpRequest := mkRequest "delete recipe r2" staff.

(** Salt has no [firebase_id]; its prediction is stored under its [id]. *)
Definition salt : Product.t :=
  Product.mk "salt" None "Salt" "ingredients" "g"
             (Some (7 # 1)) (Some 0%Q) (Some (7 # 1)).

Definition salt_db : DB :=
  mkDB [salt] [] [] [] [] [] [predicted "salt" (1 # 1)] [].



(** The shop after training. *)
Definition trained_shop_db : DB :=
  Eval vm_compute in
    snd (train_forecasting_model (rt := sample_runtime) train_request shop_db).

(** The bakery once its flour is deleted, and once its recipe is. *)
Definition delete_flour_response : JsonResponse :=
  Eval vm_compute in
    match fst (delete_product_view (rt := office_runtime)
                 (dr := sample_driver) delete_flour bread_db) with
    | Ok resp => resp
    | Raise _ => []
    end.

Definition bread_without_flour_db : DB :=
  Eval vm_compute in
    snd (delete_product_view (rt := office_runtime) (dr := sample_driver)
           delete_flour bread_db).

Definition delete_bread_response : JsonResponse :=
  Eval vm_compute in
    match fst (delete_recipe_api (rt := office_runtime)
                 (dr := sample_driver) delete_bread bread_db) with
    | Ok resp => resp
    | Raise _ => []
    end.

Definition bread_deleted_db : DB :=
  Eval vm_compute in
    snd (delete_recipe_api (rt := office_runtime) (dr := sample_driver)
           delete_bread bread_db).

(** The forecast page of the salt stock. *)
Definition salt_context : Context :=
  Eval vm_compute in
    match fst (inventory_forecasting_view (rt := sample_runtime) train_request
                                          salt_db) with
    | Ok ctx => ctx
    | Raise _ => mkContext [] None (mkSummary 0 0 0 0) [] None
    end.


(** * The same functions over IEEE binary64

    Where a guard, a truncation or an exception decides what a function
    answers, the exact rationals above say too little: a comparison with NaN
    is false, [int()] is taken of the rounded quotient and raises on NaN
    and on an infinity.  [Binary64] embeds [calculate_max_servings],
    [transfer_inventory_api], [add_waste_api], [train_forecasting_model]
    and [inventory_forecasting_view] once more, with a Python [float] as a
    binary64 number: the arithmetic and the comparisons are those of the
    processor.  What holds no float (exceptions, ORM calls, recipes, audit
    trail, model records, the rows of the forecast page) is shared with the
    embedding above. *)

From Stdlib Require Floats.

Module Binary64.

Import Floats.

(** ** Python values *)

(** [x == 0]: true of both zeros, false of NaN. *)
Definition is_zero (x : float) : bool := (x =? 0)%float.

(** [x or 0] on a nullable float: [None] and the zeros are falsy, NaN is
    not. *)
Definition or0 (x : option float) : float :=
  match x with
  | Some f => if is_zero f then 0%float else f
  | None => 0%float
  end.

(** [int(x)] on a float: truncation toward zero; NaN and the infinities
    raise. *)
Definition py_int (x : float) : result Z :=
  match Prim2SF x with
  | S754_zero _ => Ok 0
  | S754_finite s m e =>
      let z := if 0 <=? e then Zpos m * 2 ^ e
               else Z.quot (Zpos m) (2 ^ (- e)) in
      Ok (if s then - z else z)
  | S754_infinity _ =>
      Raise (mkExn OverflowError "cannot convert float infinity to integer")
  | S754_nan =>
      Raise (mkExn ValueError "cannot convert float NaN to integer")
  end.

(** [float(z)] on an integer: the nearest binary64 number, ties to even;
    an integer too large for one raises. *)
Definition float_of_int (z : Z) : result float :=
  let f := SF2Prim (binary_normalize prec emax z 0 false) in
  match Prim2SF f with
  | S754_infinity _ =>
      Raise (mkExn OverflowError "int too large to convert to float")
  | _ => Ok f
  end.

(** The number a float stands for, when it is one. *)
Definition value (x : float) : option Q :=
  match Prim2SF x with
  | S754_zero _ => Some 0%Q
  | S754_finite s m e =>
      let n := if s then Zneg m else Zpos m in
      Some (if 0 <=? e then inject_Z (n * 2 ^ e)
            else Qmake n (Z.to_pos (2 ^ (- e))))
  | S754_infinity _ | S754_nan => None
  end.

(** JSON documents as [json.loads] returns them: a number without fraction
    or exponent is an [int], any other a [float], and [NaN] and [Infinity]
    are read. *)
#[local] Unset Elimination Schemes.
Inductive json : Type :=
| JNull
| JBool (b : bool)
| JInt (z : Z)
| JNum (f : float)
| JStr (s : string)
| JArr (l : list json)
| JObj (kv : list (string * json)).
#[local] Set Elimination Schemes.

Definition truthy (v : json) : bool :=
  match v with
  | JNull => false
  | JBool b => b
  | JInt z => negb (z =? 0)
  | JNum f => negb (is_zero f)
  | JStr s => negb (String.eqb s "")
  | JArr l => match l with [] => false | _ => true end
  | JObj kv => match kv with [] => false | _ => true end
  end.

(** ** The tables that hold floats *)

Module Product.
Record t : Type := mk {
    id : string;
    firebase_id : option string;
    name : string;
    category : string;
    unit : string;
    quantity : option float;
    inventory_a : option float;
    inventory_b : option float
}.
End Product.

Module Sale.
Record t : Type := mk {
    product_firebase_id : option string;
    product_name : string;
    quantity : option float;
    order_date : option Z
}.
End Sale.

Module RecipeIngredient.
Record t : Type := mk {
    recipe_firebase_id : string;
    ingredient_firebase_id : option string;
    ingredient_name : option string;
    quantity_needed : option float;
    recipe_id : option string
}.
End RecipeIngredient.

Module WasteLog.
Record t : Type := mk {
    product_firebase_id : string;
    product_name : string;
    quantity : float;
    reason : json;
    waste_date : Z;
    recorded_by : string;
    category : string
}.
End WasteLog.

Module MLPrediction.
Record t : Type := mk {
    product_firebase_id : string;
    product_name : string;
    predicted_daily_usage : float;
    avg_daily_usage : float;
    trend : float;
    confidence_score : float;
    data_points : Z
}.
End MLPrediction.

Record DB : Type := mkDB {
  products : list Product.t;
  sales : list Sale.t;
  recipes : list Recipe.t;
  recipe_ingredients : list RecipeIngredient.t;
  waste_logs : list WasteLog.t;
  audit_trail : list AuditTrail.t;
  ml_predictions : list MLPrediction.t;
  ml_models : list MLModel.t
}.

Definition set_products (l : list Product.t) (d : DB) : DB :=
  mkDB l (sales d) (recipes d) (recipe_ingredients d) (waste_logs d)
       (audit_trail d) (ml_predictions d) (ml_models d).

Definition set_waste_logs (l : list WasteLog.t) (d : DB) : DB :=
  mkDB (products d) (sales d) (recipes d) (recipe_ingredients d) l
       (audit_trail d) (ml_predictions d) (ml_models d).

Definition set_audit_trail (l : list AuditTrail.t) (d : DB) : DB :=
  mkDB (products d) (sales d) (recipes d) (recipe_ingredients d) (waste_logs d)
       l (ml_predictions d) (ml_models d).

Definition set_ml_predictions (l : list MLPrediction.t) (d : DB) : DB :=
  mkDB (products d) (sales d) (recipes d) (recipe_ingredients d) (waste_logs d)
       (audit_trail d) l (ml_models d).

Definition set_ml_models (l : list MLModel.t) (d : DB) : DB :=
  mkDB (products d) (sales d) (recipes d) (recipe_ingredients d) (waste_logs d)
       (audit_trail d) (ml_predictions d) l.

(** ** Stateful, fallible computations over that database *)

Definition M (A : Type) : Type := DB -> result A * DB.

Definition ret {A : Type} (a : A) : M A := fun d => (Ok a, d).

Definition raise {A : Type} (e : PyExn) : M A := fun d => (Raise e, d).

Definition bind {A B : Type} (c : M A) (k : A -> M B) : M B :=
  fun d =>
    match c d with
    | (Ok a, d') => k a d'
    | (Raise e, d') => (Raise e, d')
    end.

Definition try_except {A : Type} (catches : PyExn -> bool)
    (c : M A) (h : PyExn -> M A) : M A :=
  fun d =>
    match c d with
    | (Ok a, d') => (Ok a, d')
    | (Raise e, d') => if catches e then h e d' else (Raise e, d')
    end.

(** A pure computation that may raise. *)
Definition lift {A : Type} (r : result A) : M A := fun d => (r, d).

Declare Scope py64_scope.
Delimit Scope py64_scope with py64.
Notation "x <- c ;; k" := (bind c (fun x => k))
  (at level 61, c at next level, right associativity) : py64_scope.
Notation "c ;;; k" := (bind c (fun _ => k))
  (at level 61, right associativity) : py64_scope.
Local Open Scope py64_scope.

(** ** What the handlers take from their surroundings

    As above: [fault] tells which ORM calls the database driver fails,
    [now] is the instant [datetime.now()] returns, and the parser and the
    formats come from the Python runtime.  So does [sum] over floats,
    [float_sum], the rounding of which depends on the interpreter: it is
    compensated from Python 3.12 on. *)
Class Runtime : Type := {
  fault : orm_call -> option PyExn;
  now : Z;
  json_loads : string -> result json;
  float_of_str : string -> option float;
  float_sum : list float -> float;
  py_str : json -> string;
  format_float : float -> string;
  format_2f : float -> string;
  format_int : Z -> string;
  strftime : Z -> string;
  (** a failure of the driver is a database error, never the answer of a
      lookup *)
  fault_class : forall c e, fault c = Some e -> exc_type e = DatabaseError
}.

(** ** The functions of dashboard/views.py *)

Section Views.

Context {rt : Runtime}.

Definition orm {A : Type} (c : orm_call) (q : M A) : M A :=
  fun d =>
    match fault c with
    | Some e => (Raise e, d)
    | None => q d
    end.

Definition query {A : Type} (f : DB -> result A) : M A :=
  fun d => (f d, d).

Definition Recipe_get_id (v : string) : M Recipe.t :=
  orm (mkCall TRecipe KGet v)
    (query (fun d =>
       objects_get TRecipe (fun r => String.eqb (Recipe.id r) v) (recipes d))).

Definition Recipe_get_firebase_id (v : string) : M Recipe.t :=
  orm (mkCall TRecipe KGet v)
    (query (fun d =>
       objects_get TRecipe (fun r => String.eqb (Recipe.firebase_id r) v)
                   (recipes d))).

(** [Q(recipe_id=recipe.id) | Q(recipe_firebase_id=recipe.firebase_id)] *)
Definition ingredient_of (recipe : Recipe.t) (i : RecipeIngredient.t) : bool :=
  col_eqb (RecipeIngredient.recipe_id i) (Recipe.id recipe)
  || String.eqb (RecipeIngredient.recipe_firebase_id i)
                (Recipe.firebase_id recipe).

Definition RecipeIngredient_filter (recipe : Recipe.t)
    : M (list RecipeIngredient.t) :=
  orm (mkCall TRecipeIngredient KFilter (Recipe.id recipe))
    (query (fun d => Ok (filter (ingredient_of recipe) (recipe_ingredients d)))).

Definition Product_get_firebase_id (v : string) : M Product.t :=
  orm (mkCall TProduct KGet v)
    (query (fun d =>
       objects_get TProduct (fun p => col_eqb (Product.firebase_id p) v)
                   (products d))).

(** [ingredient.ingredient_firebase_id.strip() if
    ingredient.ingredient_firebase_id else ''] *)
Definition ingredient_product_id (ingredient : RecipeIngredient.t) : string :=
  match RecipeIngredient.ingredient_firebase_id ingredient with
  | Some s => if String.eqb s "" then "" else strip s
  | None => ""
  end.

(** [int(available_quantity / quantity_needed) if quantity_needed > 0
    else 0] *)
Definition max_for_this_ingredient (available_quantity quantity_needed : float)
    : result Z :=
  if (0 <? quantity_needed)%float
  then py_int (available_quantity / quantity_needed)%float
  else Ok 0.

(** The body of the [for ingredient in ingredients] loop of
    [calculate_max_servings], threading [max_servings_list]. *)
Fixpoint servings_loop (ingredients : list RecipeIngredient.t)
    (max_servings_list : list Z) : M (list Z) :=
  match ingredients with
  | [] => ret max_servings_list
  | ingredient :: rest =>
      let id := ingredient_product_id ingredient in
      let quantity_needed :=
        or0 (RecipeIngredient.quantity_needed ingredient) in
      if String.eqb id "" || is_zero quantity_needed then
        servings_loop rest max_servings_list
      else
        found <- try_except (is_does_not_exist TProduct)
                   (ing_product <- Product_get_firebase_id id ;;
                    ret (Some (or0 (Product.inventory_b ing_product))))
                   (fun _ => ret None) ;;
        match found with
        | None => servings_loop rest (max_servings_list ++ [0])
        | Some available_quantity =>
            n <- lift (max_for_this_ingredient available_quantity
                                               quantity_needed) ;;
            servings_loop rest (max_servings_list ++ [n])
        end
  end.

(** [calculate_max_servings]: [None] is Python's [None]. *)
Definition calculate_max_servings (product_firebase_id recipe_id : string)
    : M (option Z) :=
  try_except Exception
    (found <- try_except (is_does_not_exist TRecipe)
                (recipe <- Recipe_get_id recipe_id ;; ret (Some recipe))
                (fun _ =>
                   try_except (is_does_not_exist TRecipe)
                     (recipe <- Recipe_get_firebase_id recipe_id ;;
                      ret (Some recipe))
                     (fun _ => ret None)) ;;
     match found with
     | None => ret None
     | Some recipe =>
         ingredients <- RecipeIngredient_filter recipe ;;
         max_servings_list <- servings_loop ingredients [] ;;
         ret (Some match max_servings_list with
                   | [] => 0
                   | x :: l => py_min x l
                   end)
     end)
    (fun _ => ret None).

(** *** Requests and responses *)

Definition JsonResponse : Type := list (string * json).

Definition dict_get (kv : list (string * json)) (key : string) (default : json)
    : json :=
  match dict_lookup key kv with
  | Some v => v
  | None => default
  end.

Definition data_get (data : json) (key : string) (default : json) : M json :=
  match data with
  | JObj kv => ret (dict_get kv key default)
  | _ => raise (mkExn AttributeError "object has no attribute 'get'")
  end.

(** [float(v)] *)
Definition float_of_json (v : json) : result float :=
  match v with
  | JInt z => float_of_int z
  | JNum f => Ok f
  | JBool b => Ok (if b then 1%float else 0%float)
  | JStr s =>
      match float_of_str s with
      | Some f => Ok f
      | None => Raise (mkExn ValueError "could not convert string to float")
      end
  | _ => Raise (mkExn TypeError
                      "float() argument must be a string or a real number")
  end.

Definition py_float (v : json) : M float := lift (float_of_json v).

Definition lookup_text (v : json) : string :=
  match v with
  | JStr s => s
  | _ => py_str v
  end.

(** [Q(firebase_id=product_id) | Q(id=product_id)] *)
Definition product_matches (v : string) (p : Product.t) : bool :=
  col_eqb (Product.firebase_id p) v || String.eqb (Product.id p) v.

Definition Product_get (product_id : json) : M Product.t :=
  orm (mkCall TProduct KGet (lookup_text product_id))
    (query (fun d =>
       objects_get TProduct (product_matches (lookup_text product_id))
                   (products d))).

(** [product.save()] *)
Definition save_row (product : Product.t) (rows : list Product.t)
    : list Product.t :=
  if existsb (fun r => String.eqb (Product.id r) (Product.id product)) rows
  then map (fun r => if String.eqb (Product.id r) (Product.id product)
                     then product else r) rows
  else rows ++ [product].

Definition Product_save (product : Product.t) : M unit :=
  orm (mkCall TProduct KSave (Product.id product))
    (fun d => (Ok tt, set_products (save_row product (products d)) d)).

Definition WasteLog_create (w : WasteLog.t) : M unit :=
  orm (mkCall TWasteLog KCreate (WasteLog.product_firebase_id w))
    (fun d => (Ok tt, set_waste_logs (waste_logs d ++ [w]) d)).

Definition AuditTrail_create (a : AuditTrail.t) : M unit :=
  orm (mkCall TAuditTrail KCreate (AuditTrail.action a))
    (fun d => (Ok tt, set_audit_trail (audit_trail d ++ [a]) d)).

Definition log_audit (action : string) (u : User) (details : string) : M unit :=
  try_except Exception
    (AuditTrail_create
       (AuditTrail.mk action (format_int (user_pk u)) (username u) details now))
    (fun _ => ret tt).

Definition failure (message : string) : JsonResponse :=
  [("success", JBool false); ("message", JStr message)].

Definition with_inventory (a b : float) (p : Product.t) : Product.t :=
  Product.mk (Product.id p) (Product.firebase_id p) (Product.name p)
             (Product.category p) (Product.unit p) (Product.quantity p)
             (Some a) (Some b).

Definition with_inventory_b (b : float) (p : Product.t) : Product.t :=
  Product.mk (Product.id p) (Product.firebase_id p) (Product.name p)
             (Product.category p) (Product.unit p) (Product.quantity p)
             (Product.inventory_a p) (Some b).

(** *** [transfer_inventory_api] *)

Definition transfer_inventory_body (request : HttpRequest) : M JsonResponse :=
  data <- lift (json_loads (body request)) ;;
  product_id <- data_get data "productId" JNull ;;
  quantity <- data_get data "quantity" (JInt 0) ;;
  transfer_qty <- py_float quantity ;;
  if negb (truthy product_id) || (transfer_qty <=? 0)%float then
    ret (failure "Invalid product or quantity")
  else
    found <- try_except (is_does_not_exist TProduct)
               (product <- Product_get product_id ;; ret (Some product))
               (fun _ => ret None) ;;
    match found with
    | None => ret (failure "Product not found")
    | Some product =>
        let product_name := Product.name product in
        let inventory_a := or0 (Product.inventory_a product) in
        let inventory_b := or0 (Product.inventory_b product) in
        if (inventory_a <? transfer_qty)%float then
          ret (failure ("Insufficient stock in Inventory A. Available: "
                          ++ format_2f inventory_a))
        else
          let new_inventory_a := (inventory_a - transfer_qty)%float in
          let new_inventory_b := (inventory_b + transfer_qty)%float in
          Product_save (with_inventory new_inventory_a new_inventory_b product) ;;;
          log_audit "Inventory Transfer" (user request)
            ("Transferred " ++ format_float transfer_qty ++ " units of "
               ++ product_name ++ " from A to B") ;;;
          ret [("success", JBool true);
               ("message",
                JStr ("Successfully transferred " ++ format_float transfer_qty
                        ++ " units of " ++ product_name ++ " to Inventory B"));
               ("newInventoryA", JNum new_inventory_a);
               ("newInventoryB", JNum new_inventory_b)]
    end.

Definition transfer_inventory_api (request : HttpRequest) : M JsonResponse :=
  try_except Exception (transfer_inventory_body request)
    (fun e => ret (failure (exc_str e))).

(** *** [add_waste_api] *)

(** [product.firebase_id or str(product.id)] *)
Definition product_key (p : Product.t) : string :=
  match Product.firebase_id p with
  | Some s => if String.eqb s "" then Product.id p else s
  | None => Product.id p
  end.

Definition add_waste_body (request : HttpRequest) : M JsonResponse :=
  data <- lift (json_loads (body request)) ;;
  product_id <- data_get data "productId" JNull ;;
  quantity <- data_get data "quantity" (JInt 0) ;;
  waste_qty <- py_float quantity ;;
  reason <- data_get data "reason" (JStr "Expired") ;;
  if negb (truthy product_id) || (waste_qty <=? 0)%float then
    ret (failure "Invalid product or quantity")
  else
    found <- try_except (is_does_not_exist TProduct)
               (product <- Product_get product_id ;; ret (Some product))
               (fun _ => ret None) ;;
    match found with
    | None => ret (failure "Product not found")
    | Some product =>
        let product_name := Product.name product in
        let inventory_b := or0 (Product.inventory_b product) in
        if (inventory_b <? waste_qty)%float then
          ret (failure ("Insufficient stock in Inventory B. Available: "
                          ++ format_2f inventory_b))
        else
          let new_inventory_b := (inventory_b - waste_qty)%float in
          Product_save (with_inventory_b new_inventory_b product) ;;;
          WasteLog_create
            (WasteLog.mk (product_key product) product_name waste_qty reason
                         now (username (user request))
                         (Product.category product)) ;;;
          log_audit "Waste Recorded" (user request)
            ("Recorded " ++ format_float waste_qty ++ " units of "
               ++ product_name ++ " as waste (" ++ lookup_text reason ++ ")") ;;;
          ret [("success", JBool true);
               ("message",
                JStr ("Successfully recorded " ++ format_float waste_qty
                        ++ " units of " ++ product_name ++ " as waste"));
               ("newInventoryB", JNum new_inventory_b)]
    end.

Definition add_waste_api (request : HttpRequest) : M JsonResponse :=
  try_except Exception (add_waste_body request)
    (fun e => ret (failure (exc_str e))).

(** *** [train_forecasting_model] *)

Definition Sale_count : M Z :=
  orm (mkCall TSale KCount "")
    (query (fun d => Ok (Z.of_nat (List.length (sales d))))).

Definition Product_all : M (list Product.t) :=
  orm (mkCall TProduct KAll "") (query (fun d => Ok (products d))).

(** [Q(product_firebase_id=product.firebase_id) | Q(product_name=product.name)] *)
Definition sale_of (product : Product.t) (s : Sale.t) : bool :=
  col_eqb_opt (Sale.product_firebase_id s) (Product.firebase_id product)
  || String.eqb (Sale.product_name s) (Product.name product).

Definition product_sales (product : Product.t) (d : DB) : list Sale.t :=
  filter (sale_of product) (sales d).

Definition product_sales_count (product : Product.t) : M Z :=
  orm (mkCall TSale KCount (Product.name product))
    (query (fun d => Ok (Z.of_nat (List.length (product_sales product d))))).

Definition product_sales_values (product : Product.t) : M (list Sale.t) :=
  orm (mkCall TSale KValues (Product.name product))
    (query (fun d => Ok (product_sales product d))).

(** [s['quantity'] for s in sales_data if s['quantity']] *)
Fixpoint quantities (sales_data : list Sale.t) : list float :=
  match sales_data with
  | [] => []
  | s :: rest =>
      match Sale.quantity s with
      | Some q => if is_zero q then quantities rest else q :: quantities rest
      | None => quantities rest
      end
  end.

(** [s['order_date'] for s in sales_data if s['order_date']] *)
Fixpoint order_dates (sales_data : list Sale.t) : list Z :=
  match sales_data with
  | [] => []
  | s :: rest =>
      match Sale.order_date s with
      | Some t => t :: order_dates rest
      | None => order_dates rest
      end
  end.

(** [min(...)] of a generator, which raises on an empty one. *)
Definition min_of (l : list Z) : M Z :=
  match l with
  | [] => raise (mkExn ValueError "min() arg is an empty sequence")
  | x :: rest => ret (py_min x rest)
  end.

(** [(datetime.now() - earliest).days or 1] *)
Definition days_since (earliest : Z) : Z :=
  let days := (now - earliest) / microseconds_per_day in
  if days =? 0 then 1 else days.

(** [total_quantity / max(days, 1)]: the sum of no quantity is the integer
    0, and the quotient of two integers; any other sum is a float, for the
    division by which the days are converted. *)
Definition avg_daily_usage_of (sales_data : list Sale.t) (days : Z)
    : result float :=
  match quantities sales_data with
  | [] => Ok 0%float
  | q :: qs =>
      match float_of_int (Z.max days 1) with
      | Ok n => Ok (float_sum (q :: qs) / n)%float
      | Raise e => Raise e
      end
  end.

(** The literals [1.1], [0.9] and [100]. *)
Definition buffer : float := (11 / 10)%float.
Definition nine_tenths : float := (9 / 10)%float.
Definition hundred : float := 100%float.

(** [len(sales_data)] as a float: a list is far shorter than 2 ^ 53. *)
Definition float_of_len {A : Type} (l : list A) : float :=
  SF2Prim (binary_normalize prec emax (Z.of_nat (List.length l)) 0 false).

(** [min(0.9, 0.5 + (len(sales_data) / 100))] *)
Definition confidence_of (sales_data : list Sale.t) : float :=
  let c := (0.5 + float_of_len sales_data / hundred)%float in
  if (c <? nine_tenths)%float then c else nine_tenths.

Definition same_prediction (key : string) (r : MLPrediction.t) : bool :=
  String.eqb (MLPrediction.product_firebase_id r) key.

Definition MLPrediction_update_or_create (row : MLPrediction.t) : M unit :=
  orm (mkCall TMLPrediction KUpdateOrCreate
              (MLPrediction.product_firebase_id row))
    (fun d =>
       match update_or_create TMLPrediction
               (same_prediction (MLPrediction.product_firebase_id row))
               row (ml_predictions d) with
       | Ok rows => (Ok tt, set_ml_predictions rows d)
       | Raise e => (Raise e, d)
       end).

Definition MLModel_update_or_create (row : MLModel.t) : M unit :=
  orm (mkCall TMLModel KUpdateOrCreate (MLModel.name row))
    (fun d =>
       match update_or_create TMLModel
               (fun r => String.eqb (MLModel.name r) (MLModel.name row))
               row (ml_models d) with
       | Ok rows => (Ok tt, set_ml_models rows d)
       | Raise e => (Raise e, d)
       end).

(** The prediction [train_forecasting_model] stores for a product from the
    rows of its sales. *)
Definition prediction_row (product : Product.t) (sales_data : list Sale.t)
    (earliest : Z) : result MLPrediction.t :=
  match avg_daily_usage_of sales_data (days_since earliest) with
  | Ok avg_daily_usage =>
      let predicted_daily_usage := (avg_daily_usage * buffer)%float in
      Ok (MLPrediction.mk (product_key product) (Product.name product)
            predicted_daily_usage avg_daily_usage 0%float
            (confidence_of sales_data)
            (Z.of_nat (List.length sales_data)))
  | Raise e => Raise e
  end.

(** The [for product in products] loop, threading [predictions_created]. *)
Fixpoint train_loop (products : list Product.t) (predictions_created : Z)
    : M Z :=
  match products with
  | [] => ret predictions_created
  | product :: rest =>
      n <- product_sales_count product ;;
      if n <? 3 then train_loop rest predictions_created
      else
        sales_data <- product_sales_values product ;;
        match sales_data with
        | [] => train_loop rest predictions_created
        | _ :: _ =>
            earliest <- min_of (order_dates sales_data) ;;
            row <- lift (prediction_row product sales_data earliest) ;;
            MLPrediction_update_or_create row ;;;
            train_loop rest (predictions_created + 1)
        end
  end.

Definition train_forecasting_body (request : HttpRequest) : M JsonResponse :=
  sales_count <- Sale_count ;;
  if sales_count <? 10 then
    ret (failure ("Insufficient data for training. Need at least 10 sales records, found "
                    ++ format_int sales_count ++ "."))
  else
    products <- Product_all ;;
    predictions_created <- train_loop products 0 ;;
    let products_count := Z.of_nat (List.length products) in
    MLModel_update_or_create
      (MLModel.mk "inventory_forecasting" true (Some now) sales_count
                  products_count predictions_created 85
                  "Linear Regression (Moving Average)" 90) ;;;
    log_audit "Model Trained" (user request)
      ("Trained ML model with " ++ format_int sales_count ++ " records, "
         ++ format_int predictions_created ++ " predictions") ;;;
    ret [("success", JBool true);
         ("message",
          JStr ("Model trained successfully! Analyzed "
                  ++ format_int products_count ++ " products, created "
                  ++ format_int predictions_created ++ " predictions."));
         ("stats",
          JObj [("sales_records", JInt sales_count);
                ("products_analyzed", JInt products_count);
                ("predictions_created", JInt predictions_created)])].

Definition train_forecasting_model (request : HttpRequest) : M JsonResponse :=
  try_except Exception (train_forecasting_body request)
    (fun e => ret (failure (exc_str e))).

(** *** [inventory_forecasting_view] *)

(** The products the chain of [exclude] calls keeps. *)
Definition listed (p : Product.t) : bool :=
  negb (iexact (Product.category p) "Beverages")
  && negb (iexact (Product.category p) "beverage")
  && negb (iexact (Product.category p) "drinks")
  && negb (icontains (Product.name p) "Water")
  && negb (icontains (Product.name p) "Ice").

Definition Product_count : M Z :=
  orm (mkCall TProduct KCount "")
    (query (fun d => Ok (Z.of_nat (List.length (products d))))).

Definition MLPrediction_count : M Z :=
  orm (mkCall TMLPrediction KCount "")
    (query (fun d => Ok (Z.of_nat (List.length (ml_predictions d))))).

Definition MLModel_get (v : string) : M MLModel.t :=
  orm (mkCall TMLModel KGet v)
    (query (fun d =>
       objects_get TMLModel (fun m => String.eqb (MLModel.name m) v)
                   (ml_models d))).

Definition Product_listed_count : M Z :=
  orm (mkCall TProduct KCount "exclude")
    (query (fun d => Ok (Z.of_nat (List.length (filter listed (products d)))))).

Definition Product_listed : M (list Product.t) :=
  orm (mkCall TProduct KFilter "exclude")
    (query (fun d => Ok (filter listed (products d)))).

(** [MLPrediction.objects.get(product_firebase_id=product.firebase_id)]:
    the column is not nullable, so a [None] value matches no row. *)
Definition MLPrediction_get (v : option string) : M MLPrediction.t :=
  orm (mkCall TMLPrediction KGet (opt_str v))
    (query (fun d =>
       objects_get TMLPrediction
         (fun r => col_eqb_opt (Some (MLPrediction.product_firebase_id r)) v)
         (ml_predictions d))).

(** [datetime.now() + timedelta(days=n)] *)
Definition now_plus_days (n : Z) : M Z :=
  if (n <? -999999999) || (999999999 <? n) then
    raise (mkExn OverflowError "days out of range for timedelta")
  else
    let t := now + n * microseconds_per_day in
    if (t <? datetime_min) || (datetime_max <? t) then
      raise (mkExn OverflowError "date value out of range")
    else ret t.

(** [int(stock / predicted_daily_usage) if predicted_daily_usage > 0
    else 999] *)
Definition days_left_of (predicted_daily_usage stock : float) : result Z :=
  if (0 <? predicted_daily_usage)%float
  then py_int (stock / predicted_daily_usage)%float
  else Ok 999.

(** [f"{int(ml_confidence * 100)}%" if ml_confidence else "0%"] *)
Definition confidence_percent_of (ml_confidence : float) : result string :=
  if is_zero ml_confidence then Ok "0%"
  else
    match py_int (ml_confidence * 100)%float with
    | Ok n => Ok (format_int n ++ "%")
    | Raise e => Raise e
    end.

(** One turn of the [for product in products] loop once the prediction is
    read: the row appended to [forecast_data] and the counters updated. *)
Definition forecast_step (product : Product.t)
    (predicted_daily_usage avg_daily_usage ml_confidence : float)
    (summary : Summary) : M (ForecastRow * Summary) :=
  let stock := or0 (Product.quantity product) in
  days_left <- lift (days_left_of predicted_daily_usage stock) ;;
  depletion_date <-
    (if days_left <? 999
     then (t <- now_plus_days days_left ;; ret (strftime t))
     else ret "N/A") ;;
  let '(status, status_label, summary) :=
    if days_left <=? 3 then
      ("critical", "Critical",
       mkSummary (critical summary + 1) (low summary) (healthy summary)
                 (needs_reorder summary))
    else if days_left <=? 7 then
      ("warning", "Low Stock",
       mkSummary (critical summary) (low summary + 1) (healthy summary)
                 (needs_reorder summary))
    else
      ("healthy", "Healthy",
       mkSummary (critical summary) (low summary) (healthy summary + 1)
                 (needs_reorder summary)) in
  let summary :=
    if days_left <=? 7 then
      mkSummary (critical summary) (low summary) (healthy summary)
                (needs_reorder summary + 1)
    else summary in
  let predicted_7day_usage := (predicted_daily_usage * 7)%float in
  let reorder_qty :=
    if days_left <=? 7 then
      let need := (predicted_daily_usage * 30 - stock)%float in
      if (0 <? need)%float then need else 0%float
    else 0%float in
  confidence_percent <- lift (confidence_percent_of ml_confidence) ;;
  ret (mkRow (Product.id product) (Product.name product)
             (Product.category product) (format_2f stock)
             (Product.unit product)
             (if is_zero avg_daily_usage then "0.00"
              else format_2f avg_daily_usage)
             (if days_left <? 999 then DaysInt days_left else DaysNA)
             depletion_date status status_label
             (format_2f predicted_7day_usage) (format_2f reorder_qty)
             confidence_percent,
       summary).

Fixpoint forecast_loop (products : list Product.t)
    (forecast_data : list ForecastRow) (summary : Summary)
    : M (list ForecastRow * Summary) :=
  match products with
  | [] => ret (forecast_data, summary)
  | product :: rest =>
      p <- try_except (is_does_not_exist TMLPrediction)
             (prediction <- MLPrediction_get (Product.firebase_id product) ;;
              ret (MLPrediction.predicted_daily_usage prediction,
                   MLPrediction.avg_daily_usage prediction,
                   MLPrediction.confidence_score prediction))
             (fun _ => ret (0%float, 0%float, 0%float)) ;;
      let '(predicted_daily_usage, avg_daily_usage, ml_confidence) := p in
      r <- forecast_step product predicted_daily_usage avg_daily_usage
             ml_confidence summary ;;
      forecast_loop rest (forecast_data ++ [fst r]) (snd r)
  end.

Definition inventory_forecasting_view (request : HttpRequest) : M Context :=
  try_except Exception
    (sales_count <- Sale_count ;;
     products_count <- Product_count ;;
     predictions_count <- MLPrediction_count ;;
     let data_issues :=
       ((if sales_count =? 0 then
          [("no_sales",
            "You need sales history to train the forecasting model.")]
        else if sales_count <? 30 then
          [("insufficient_sales",
            ("You have only " ++ format_int sales_count
               ++ " sales records. At least 30 records recommended.")%string)]
        else [])
       ++ (if products_count =? 0 then
             [("no_products",
               "You need products in your inventory to forecast.")]
           else []))%list in
     m <- try_except (is_does_not_exist TMLModel)
            (ml_model <- MLModel_get "inventory_forecasting" ;;
             ret (Some ml_model, data_issues))
            (fun _ =>
               ret (None,
                    (data_issues
                       ++ [("no_model", "No ML model has been trained yet.")])%list)) ;;
     Product_listed_count ;;;
     products <- Product_listed ;;
     r <- forecast_loop products [] (mkSummary 0 0 0 0) ;;
     ret (mkContext (sort_rows (fst r)) (fst m) (snd r) (snd m)
                    (Some (sales_count, products_count, predictions_count))))
    (fun e =>
       ret (mkContext [] None (mkSummary 0 0 0 0) [("error", exc_str e)] None)).

End Views.

(** ** The claims' readings over binary64 *)

(** Truncation toward zero, and the floor, of a number. *)
Definition truncation (q : Q) : Z := Z.quot (Qnum q) (Zpos (Qden q)).

(** The ingredients [calculate_max_servings] does not skip. *)
Definition kept (i : RecipeIngredient.t) : bool :=
  negb (String.eqb (ingredient_product_id i) ""
        || is_zero (or0 (RecipeIngredient.quantity_needed i))).

(** The products an ingredient's identifier names. *)
Definition ingredient_products (d : DB) (i : RecipeIngredient.t)
    : list Product.t :=
  filter (fun p => col_eqb (Product.firebase_id p) (ingredient_product_id i))
         (products d).

(** The servings a kept ingredient allows, when the lookup of its product
    is answered and its identifier names at most one product: none when it
    names no product or when the quantity needed is not above zero, and
    else [int()] of the usable counter divided by the quantity needed. *)
Definition allows {rt : Runtime} (d : DB) (i : RecipeIngredient.t) (n : Z)
    : Prop :=
  fault (mkCall TProduct KGet (ingredient_product_id i)) = None
  /\ match ingredient_products d i with
     | [] => n = 0
     | [p] =>
         let needed := or0 (RecipeIngredient.quantity_needed i) in
         let available := or0 (Product.inventory_b p) in
         if (0 <? needed)%float
         then py_int (available / needed)%float = Ok n
         else n = 0
     | _ :: _ :: _ => False
     end.

(** The recipe [calculate_max_servings] works on: the one whose [id] is
    [recipe_id], or else the one whose [firebase_id] is. *)
Definition recipe_found (d : DB) (recipe_id : string) (recipe : Recipe.t)
    : Prop :=
  objects_get TRecipe (fun r => String.eqb (Recipe.id r) recipe_id) (recipes d)
    = Ok recipe
  \/ (filter (fun r => String.eqb (Recipe.id r) recipe_id) (recipes d) = []
      /\ objects_get TRecipe
           (fun r => String.eqb (Recipe.firebase_id r) recipe_id) (recipes d)
         = Ok recipe).

(** The ingredients of a recipe that are kept. *)
Definition kept_ingredients (d : DB) (recipe : Recipe.t)
    : list RecipeIngredient.t :=
  filter kept (filter (ingredient_of recipe) (recipe_ingredients d)).

(** [m] is the bottleneck of the recipe [recipe_id] names: the driver
    answers the lookups, the recipe is found, every ingredient it keeps
    allows a number of servings, and [m] is the least of them, or zero when
    none is kept. *)
Definition bottleneck {rt : Runtime} (d : DB) (recipe_id : string) (m : Z)
    : Prop :=
  exists recipe servings,
    fault (mkCall TRecipe KGet recipe_id) = None
    /\ recipe_found d recipe_id recipe
    /\ fault (mkCall TRecipeIngredient KFilter (Recipe.id recipe)) = None
    /\ Forall2 (allows d) (kept_ingredients d recipe) servings
    /\ m = min_or_zero servings.

(** Servings in the words of the specification: the floor of the available
    quantity divided by the quantity needed, both taken as the numbers
    they stand for. *)
Definition spec_servings (available needed : float) : option Z :=
  match value available, value needed with
  | Some a, Some q => Some (Qfloor (a / q))
  | _, _ => None
  end.

(** The days of stock left in the words of the specification. *)
Definition spec_days_left (predicted_daily_usage stock : float) : option Z :=
  match value predicted_daily_usage, value stock with
  | Some u, Some s => Some (if Qltb 0 u then Qfloor (s / u) else 999)
  | _, _ => None
  end.

(** The predicted daily usage the forecast reads for a product: that of its
    prediction, or zero when it has none. *)
Definition usage_read (d : DB) (p : Product.t) (predicted : float) : Prop :=
  (exists prediction,
      objects_get TMLPrediction
        (fun r => col_eqb_opt (Some (MLPrediction.product_firebase_id r))
                              (Product.firebase_id p))
        (ml_predictions d) = Ok prediction
      /\ predicted = MLPrediction.predicted_daily_usage prediction)
  \/ (filter (fun r => col_eqb_opt (Some (MLPrediction.product_firebase_id r))
                                   (Product.firebase_id p))
             (ml_predictions d) = []
      /\ predicted = 0%float).

(** A row of the forecast follows a product whose days left are
    [days_left]. *)
Definition tracks {rt : Runtime} (d : DB) (p : Product.t) (days_left : Z)
    (row : ForecastRow) : Prop :=
  exists predicted,
    usage_read d p predicted
    /\ days_left_of predicted (or0 (Product.quantity p)) = Ok days_left
    /\ row_product_id row = Product.id p
    /\ row_days_left row = shown_days days_left
    /\ row_depletion_date row
       = (if days_left <? 999
          then strftime (now + days_left * microseconds_per_day)
          else "N/A")
    /\ row_status row
       = (if days_left <=? 3 then "critical"
          else if days_left <=? 7 then "warning" else "healthy").

(** A row of the forecast follows a product. *)
Definition follows {rt : Runtime} (d : DB) (p : Product.t) (row : ForecastRow)
    : Prop :=
  exists days_left, tracks d p days_left row.

(** The sales of a product among the rows of [Sale], the products that have
    enough of them to be processed, and the prediction training stores for
    such a product. *)
Definition sales_of (product : Product.t) (rows : list Sale.t) : list Sale.t :=
  filter (sale_of product) rows.

Definition eligible (rows : list Sale.t) (product : Product.t) : bool :=
  negb (Z.of_nat (List.length (sales_of product rows)) <? 3).

Definition earliest_sale (sales_data : list Sale.t) : Z :=
  match order_dates sales_data with
  | [] => 0
  | x :: rest => py_min x rest
  end.

Definition stored_prediction {rt : Runtime} (rows : list Sale.t)
    (product : Product.t) : result MLPrediction.t :=
  prediction_row product (sales_of product rows)
                 (earliest_sale (sales_of product rows)).

(** The rows of [MLPrediction] under a key, and the table after a row is
    stored under its key. *)
Definition predictions_for (key : string) (rows : list MLPrediction.t)
    : list MLPrediction.t :=
  filter (same_prediction key) rows.

Definition upsert (rows : list MLPrediction.t) (row : MLPrediction.t)
    : list MLPrediction.t :=
  if existsb (same_prediction (MLPrediction.product_firebase_id row)) rows
  then map (fun r =>
              if same_prediction (MLPrediction.product_firebase_id row) r
              then row else r) rows
  else (rows ++ [row])%list.

(** What a stock request asks for once its body is read, and the product
    it names. *)
Definition asks {rt : Runtime} (request : HttpRequest)
    (kv : list (string * json)) (q : float) : Prop :=
  json_loads (body request) = Ok (JObj kv)
  /\ float_of_json (dict_get kv "quantity" (JInt 0)) = Ok q.

Definition finds {rt : Runtime} (d : DB) (kv : list (string * json))
    (product : Product.t) : Prop :=
  objects_get TProduct
    (product_matches (lookup_text (dict_get kv "productId" JNull)))
    (products d) = Ok product.

(** The report of a handler that did what it was asked. *)
Definition succeeded (resp : JsonResponse) : Prop :=
  dict_lookup "success" resp = Some (JBool true).

(** ** Sample data *)

(** A runtime whose database never fails, whose parser knows two request
    bodies, and which prints a float as its integral part. *)
Definition office_loads (s : string) : result json :=
  if String.eqb s "transfer NaN of flour" then
    Ok (JObj [("productId", JStr "flour"); ("quantity", JNum nan)])
  else if String.eqb s "waste 3 of flour" then
    Ok (JObj [("productId", JStr "flour"); ("quantity", JInt 3);
              ("reason", JStr "Spilled")])
  else Raise (mkExn JSONDecodeError "Expecting value").

Definition show_float (x : float) : string :=
  match py_int x with
  | Ok n => show_Z n
  | Raise _ => "nan"
  end.

Definition office : Runtime := {|
  fault := fun _ => None;
  now := sample_day;
  json_loads := office_loads;
  float_of_str := fun _ => None;
  float_sum := fun l => fold_left PrimFloat.add l 0%float;
  py_str := fun _ => "";
  format_float := show_float;
  format_2f := show_float;
  format_int := show_Z;
  strftime := show_Z;
  fault_class := fun c e (H : None = Some e) => ltac:(discriminate H)
|}.

(** A runtime whose database is down. *)
Definition broken : Runtime := {|
  fault := fun _ => Some (mkExn DatabaseError "connection refused");
  now := sample_day;
  json_loads := office_loads;
  float_of_str := fun _ => None;
  float_sum := fun l => fold_left PrimFloat.add l 0%float;
  py_str := fun _ => "";
  format_float := show_float;
  format_2f := show_float;
  format_int := show_Z;
  strftime := show_Z;
  fault_class := fun c e (H : Some (mkExn DatabaseError "connection refused")
                              = Some e) =>
                   match H in _ = o
                         return match o with
                                | Some x => exc_type x = DatabaseError
                                | None => True
                                end
                   with eq_refl => eq_refl end
|}.

Definition flour : Product.t :=
  Product.mk "flour" (Some "flour") "Flour" "ingredients" "g"
             (Some 10%float) (Some 10%float) (Some 5%float).

Definition milk : Product.t :=
  Product.mk "milk" (Some "milk") "Milk" "ingredients" "ml"
             (Some 10%float) (Some 0%float) (Some 10%float).

Definition pantry_db : DB := mkDB [flour] [] [] [] [] [] [] [].

Definition transfer_nan : HttpRequest :=
  mkRequest "transfer NaN of flour" staff.
Definition waste_3 : HttpRequest := mkRequest "waste 3 of flour" staff.
Definition page_request : HttpRequest := mkRequest "" staff.

Definition transfer_nan_body : list (string * json) :=
  [("productId", JStr "flour"); ("quantity", JNum nan)].

Definition waste_3_body : list (string * json) :=
  [("productId", JStr "flour"); ("quantity", JInt 3);
   ("reason", JStr "Spilled")].

(** The two counters of each product. *)
Definition counters (d : DB) : list (option float * option float) :=
  map (fun p => (Product.inventory_a p, Product.inventory_b p)) (products d).

(** The float nearest to one tenth, which the literal [0.1] denotes. *)
Definition tenth : float := (1 / 10)%float.

(** The pantry after a transfer of NaN. *)
Definition spoiled_db : DB :=
  Eval vm_compute in
    snd (transfer_inventory_api (rt := office) transfer_nan pantry_db).

(** The spoiled pantry after three units of flour are recorded as waste. *)
Definition wasted_db : DB :=
  Eval vm_compute in
    snd (add_waste_api (rt := office) waste_3 spoiled_db).

(** A recipe with one ingredient, of a given quantity, whose product has a
    given usable counter. *)
Definition one_ingredient (available needed : float) : DB :=
  mkDB [Product.mk "milk" (Some "milk") "Milk" "ingredients" "ml"
                   (Some available) (Some 0%float) (Some available)]
       []
       [Recipe.mk "r1" "r1" "latte" "Latte"]
       [RecipeIngredient.mk "r1" (Some "milk") (Some "Milk") (Some needed)
                            (Some "r1")]
       [] [] [] [].

(** A recipe with two usable ingredients and one without identifier. *)
Definition bread_db : DB :=
  mkDB [flour; milk] []
       [Recipe.mk "r2" "fb2" "bread" "Bread"]
       [RecipeIngredient.mk "fb2" (Some " flour ") (Some "Flour")
                            (Some 2%float) None;
        RecipeIngredient.mk "fb2" (Some "milk") (Some "Milk")
                            (Some 3%float) (Some "r2");
        RecipeIngredient.mk "fb2" (Some "") None (Some 1%float) (Some "r2")]
       [] [] [] [].

(** The same recipe, with the milk entered twice. *)
Definition twin_db : DB :=
  mkDB [flour; milk; milk] [] (recipes bread_db) (recipe_ingredients bread_db)
       [] [] [] [].

Definition stocked (id : string) (name : string) (quantity : float)
    : Product.t :=
  Product.mk id (Some id) name "ingredients" "g" (Some quantity) (Some 0%float)
             (Some quantity).

Definition predicted (id : string) (usage : float) : MLPrediction.t :=
  MLPrediction.mk id id usage usage 0%float 0.5%float 3.

(** Beans oversold, plenty of cocoa, some syrup, half a unit of salt used a
    tenth a day, cups without a prediction, and rice, which the page leaves
    out for the [Ice] in its name. *)
Definition forecast_db : DB :=
  mkDB [stocked "beans" "Beans" (-5)%float;
        stocked "cocoa" "Cocoa" 2000%float;
        stocked "syrup" "Syrup" 10%float;
        stocked "salt" "Salt" 0.5%float;
        stocked "cups" "Cups" 40%float;
        stocked "rice" "Rice" 7%float]
       [] [] [] [] []
       [predicted "beans" 2%float; predicted "cocoa" 1%float;
        predicted "syrup" 2%float; predicted "salt" tenth;
        predicted "rice" 1%float]
       [].

(** Ten sales: four of flour, two of milk, four of sugar, which is not a
    product.  The flour sold adds up to 8 in 10 days, and 7.04 of it are
    in stock. *)
Definition shop_flour : Product.t :=
  stocked "flour" "Flour" (704 / 100)%float.

Definition shop_milk : Product.t := stocked "milk" "Milk" 10%float.

Definition shop_db : DB :=
  mkDB [shop_flour; shop_milk]
       [Sale.mk (Some "flour") "Flour" (Some 3%float) (Some (days_ago 3));
        Sale.mk (Some "flour") "Flour" (Some 2%float) (Some (days_ago 10));
        Sale.mk None "Flour" (Some 3%float) (Some (days_ago 7));
        Sale.mk (Some "flour") "Flour bag" None None;
        Sale.mk (Some "milk") "Milk" (Some 1%float) (Some (days_ago 2));
        Sale.mk (Some "milk") "Milk" (Some 1%float) (Some (days_ago 1));
        Sale.mk (Some "sugar") "Sugar" (Some 1%float) (Some (days_ago 1));
        Sale.mk (Some "sugar") "Sugar" (Some 1%float) (Some (days_ago 2));
        Sale.mk (Some "sugar") "Sugar" (Some 1%float) (Some (days_ago 3));
        Sale.mk (Some "sugar") "Sugar" (Some 1%float) (Some (days_ago 4))]
       [] [] [] [] [] [].

Definition no_page : Context :=
  mkContext [] None (mkSummary 0 0 0 0) [] None.

Definition forecast_context : Context :=
  Eval vm_compute in
    match fst (inventory_forecasting_view (rt := office) page_request
                                          forecast_db) with
    | Ok ctx => ctx
    | Raise _ => no_page
    end.

(** The shop after training, and the forecast page rendered then. *)
Definition train_response : JsonResponse :=
  Eval vm_compute in
    match fst (train_forecasting_model (rt := office) page_request
                                       shop_db) with
    | Ok resp => resp
    | Raise _ => []
    end.

Definition trained_shop_db : DB :=
  Eval vm_compute in
    snd (train_forecasting_model (rt := office) page_request shop_db).


(** A product two thousand million units short, used one a day. *)
Definition debt_db : DB :=
  mkDB [stocked "beans" "Beans" (-2000000000)%float] [] [] [] [] []
       [predicted "beans" 1%float] [].

Definition debt_context : Context :=
  Eval vm_compute in
    match fst (inventory_forecasting_view (rt := office) page_request
                                          debt_db) with
    | Ok ctx => ctx
    | Raise _ => no_page
    end.

End Binary64.

(** * Properties *)

Section Properties.

Context {rt : Runtime}.

(** With a database that answers, the ORM calls reduce to their queries. *)
Ltac quiet Hf := repeat first [rewrite Hf | progress (cbn beta iota)].

(** ** Arithmetic of the Python values *)

Lemma Qltb_lt (x y : Q) : Qltb x y = true <-> (x < y)%Q.
Proof.
  unfold Qltb. rewrite negb_true_iff. split; intro H.
  - apply Qnot_le_lt. intro L. apply Qle_bool_iff in L. congruence.
  - destruct (Qle_bool y x) eqn:E; [|reflexivity].
    apply Qle_bool_iff in E. exfalso. exact (Qlt_not_le _ _ H E).
Qed.

Lemma Qltb_ge (x y : Q) : Qltb x y = false <-> (y <= x)%Q.
Proof.
  unfold Qltb. rewrite negb_false_iff. apply Qle_bool_iff.
Qed.

(** On a non-negative number [int] is the floor. *)
Lemma py_int_floor (q : Q) : (0 <= q)%Q -> py_int q = Qfloor q.
Proof.
  destruct q as [n d]. unfold Qle, py_int, Qfloor. simpl. intro H.
  apply Z.quot_div_nonneg; lia.
Qed.

Lemma Qdiv_nonneg (a b : Q) : (0 <= a)%Q -> (0 < b)%Q -> (0 <= a / b)%Q.
Proof.
  intros Ha Hb. apply Qle_shift_div_l; [exact Hb|].
  setoid_replace (0 * b)%Q with 0%Q by ring. exact Ha.
Qed.

Lemma py_min_le_init (l : list Z) (x : Z) : py_min x l <= x.
Proof.
  unfold py_min. revert x. induction l as [|y l IH]; intro x; simpl; [lia|].
  specialize (IH (Z.min x y)). lia.
Qed.

Lemma py_min_lower (l : list Z) (x : Z) : Forall (Z.le (py_min x l)) (x :: l).
Proof.
  revert x. induction l as [|y l IH]; intro x.
  - constructor; [apply py_min_le_init | constructor].
  - specialize (IH (Z.min x y)). inversion IH as [|? ? H1 H2]; subst.
    change (py_min x (y :: l)) with (py_min (Z.min x y) l).
    constructor; [lia|]. constructor; [lia | exact H2].
Qed.

Lemma py_min_in (l : list Z) (x : Z) : In (py_min x l) (x :: l).
Proof.
  revert x. induction l as [|y l IH]; intro x.
  - left. reflexivity.
  - change (py_min x (y :: l)) with (py_min (Z.min x y) l).
    destruct (IH (Z.min x y)) as [E|I].
    + rewrite <- E. destruct (Z.min_spec x y) as [[_ M]|[_ M]]; rewrite M.
      * left. reflexivity.
      * right. left. reflexivity.
    + right. right. exact I.
Qed.

(** ** [calculate_max_servings] *)

(** ** [transfer_inventory_api] and [add_waste_api] *)

Ltac case_split :=
  match goal with
  | H : context [match ?x with _ => _ end] |- _ => destruct x eqn:?
  | H : context [if ?x then _ else _] |- _ => destruct x eqn:?
  end.

Ltac unfold_run H :=
  unfold data_get, py_float, log_audit, AuditTrail_create, Product_get,
    Product_save, WasteLog_create in H;
  unfold try_except, bind, ret, raise, orm, query, Exception in H.

Ltac tidy :=
  repeat match goal with
    | E : (_, _) = (_, _) |- _ =>
        first [injection E as ? ? | injection E as ? | clear E]; subst
    | E : Ok _ = Ok _ |- _ => injection E as ?; subst
    | E : Raise _ = Raise _ |- _ => injection E as ?; subst
    | E : Some _ = Some _ |- _ => injection E as ?; subst
    | E : Ok _ = Raise _ |- _ => discriminate E
    | E : Raise _ = Ok _ |- _ => discriminate E
    | E : Some _ = None |- _ => discriminate E
    | E : None = Some _ |- _ => discriminate E
    | E : true = false |- _ => discriminate E
    | E : false = true |- _ => discriminate E
    end.

Lemma transfer_cases (request : HttpRequest) (d d' : DB)
    (r : result JsonResponse) :
  transfer_inventory_api request d = (r, d') ->
  (exists kv q product resp,
      asks request kv q /\ finds d kv product /\
      (0 < q)%Q /\ (q <= or0 (Product.inventory_a product))%Q /\
      let a := (or0 (Product.inventory_a product) - q)%Q in
      let b := (or0 (Product.inventory_b product) + q)%Q in
      r = Ok resp /\
      dict_lookup "success" resp = Some (JBool true) /\
      dict_lookup "newInventoryA" resp = Some (JNum a) /\
      dict_lookup "newInventoryB" resp = Some (JNum b) /\
      products d' = save_row (with_inventory a b product) (products d) /\
      waste_logs d' = waste_logs d)
  \/ (exists m, r = Ok (failure m) /\ d' = d).
Proof.
  unfold transfer_inventory_api, transfer_inventory_body. intro H.
  unfold_run H.
  repeat (case_split; tidy); tidy;
    try (right; eexists; split; reflexivity).
  all: left.
  all: try match goal with
       | Hb : negb (truthy _) || Qle_bool ?q 0 = false,
         Ha : Qltb _ ?q = false |- _ =>
           apply orb_false_iff in Hb; destruct Hb as [_ Hb];
           apply Qltb_ge in Ha
       end.
  all: try (do 4 eexists; unfold asks, finds;
            repeat split; try eassumption; try reflexivity;
            apply Qnot_le_lt; intro L; apply Qle_bool_iff in L; congruence).
Qed.

Lemma asks_functional (request : HttpRequest) (kv kv' : list (string * json))
    (q q' : Q) :
  asks request kv q -> asks request kv' q' -> kv' = kv /\ q' = q.
Proof.
  intros [H1 H2] [H1' H2']. rewrite H1 in H1'. injection H1' as <-.
  rewrite H2 in H2'. injection H2' as <-. split; reflexivity.
Qed.

Lemma finds_functional (d : DB) (kv : list (string * json))
    (p p' : Product.t) :
  finds d kv p -> finds d kv p' -> p' = p.
Proof.
  unfold finds. intros H H'. rewrite H in H'. injection H' as <-. reflexivity.
Qed.

Lemma objects_get_in {A : Type} (model : table) (cond : A -> bool)
    (rows : list A) (x : A) :
  objects_get model cond rows = Ok x -> In x rows /\ cond x = true.
Proof.
  unfold objects_get. destruct (filter cond rows) as [|y [|z l]] eqn:E;
    intro H; try discriminate. injection H as ->.
  apply filter_In. rewrite E. left. reflexivity.
Qed.

Lemma save_row_in (p p' : Product.t) (rows : list Product.t) :
  In p rows -> Product.id p' = Product.id p -> In p' (save_row p' rows).
Proof.
  intros Hin Hid. unfold save_row.
  assert (Hex : existsb (fun r => String.eqb (Product.id r) (Product.id p'))
                        rows = true).
  { apply existsb_exists. exists p. split; [exact Hin|].
    rewrite Hid. apply String.eqb_refl. }
  rewrite Hex. apply in_map_iff. exists p. split; [|exact Hin].
  rewrite Hid, String.eqb_refl. reflexivity.
Qed.

(** C7.  A successful transfer conserves the total stock of the product: the
    two counters saved, which the response reports, add up to what the two
    counters held before. *)
Theorem transfer_conserves_stock (request : HttpRequest) (d d' : DB)
    (resp : JsonResponse) (kv : list (string * json)) (q : Q)
    (product : Product.t) :
  transfer_inventory_api request d = (Ok resp, d') ->
  dict_lookup "success" resp = Some (JBool true) ->
  asks request kv q ->
  finds d kv product ->
  exists new_a new_b saved,
    In saved (products d') /\
    Product.id saved = Product.id product /\
    Product.inventory_a saved = Some new_a /\
    Product.inventory_b saved = Some new_b /\
    dict_lookup "newInventoryA" resp = Some (JNum new_a) /\
    dict_lookup "newInventoryB" resp = Some (JNum new_b) /\
    (new_a == or0 (Product.inventory_a product) - q)%Q /\
    (new_b == or0 (Product.inventory_b product) + q)%Q /\
    (new_a + new_b
     == or0 (Product.inventory_a product) + or0 (Product.inventory_b product))%Q.
Proof.
  intros Hrun Hs Hasks Hfinds.
  destruct (transfer_cases _ _ _ _ Hrun)
    as [(kv' & q' & p' & resp' & Ha & Hf & Hq & Hle & Hr & _ & HA & HB & Hp & _)
       | (m & Hr & Hd)].
  - destruct (asks_functional _ _ _ _ _ Hasks Ha) as [-> ->].
    rewrite (finds_functional _ _ _ _ Hfinds Hf) in *.
    injection Hr as <-.
    destruct (objects_get_in _ _ _ _ Hfinds) as [Hin _].
    do 3 eexists. split.
    { rewrite Hp. apply (save_row_in product); [exact Hin | reflexivity]. }
    split; [reflexivity|]. split; [reflexivity|]. split; [reflexivity|].
    split; [exact HA|]. split; [exact HB|].
    split; [reflexivity|]. split; [reflexivity|]. ring.
  - injection Hr as ->. discriminate Hs.
Qed.

(** ** The handlers' [except Exception] *)

Lemma handler_catches (c : M JsonResponse) (d : DB) :
  exists resp,
    fst (try_except Exception c (fun e => ret (failure (exc_str e))) d) = Ok resp
    /\ snd (try_except Exception c (fun e => ret (failure (exc_str e))) d)
       = snd (c d)
    /\ (forall a, fst (c d) = Ok a -> resp = a)
    /\ (forall e, fst (c d) = Raise e ->
          resp = failure (exc_str e)
          /\ dict_lookup "success" resp = Some (JBool false)
          /\ dict_lookup "message" resp = Some (JStr (exc_str e))).
Proof.
  unfold try_except, Exception, ret. destruct (c d) as [[a|e] d1]; simpl.
  - exists a. repeat split; try congruence. all: intros e H; discriminate H.
  - exists (failure (exc_str e)). split; [reflexivity|]. split; [reflexivity|].
    split; [intros a H; discriminate H|].
    intros e' H. injection H as <-. repeat split.
Qed.

(** C5.  The transfer, waste and train handlers always return a response: an
    exception raised while the request is handled never leaves them, it
    becomes a response with [success = false] and the exception's text as
    its message. *)
Theorem handlers_never_raise (request : HttpRequest) (d : DB) :
  (exists resp,
      fst (transfer_inventory_api request d) = Ok resp
      /\ forall e, fst (transfer_inventory_body request d) = Raise e ->
           resp = failure (exc_str e)
           /\ dict_lookup "success" resp = Some (JBool false)
           /\ dict_lookup "message" resp = Some (JStr (exc_str e)))
  /\ (exists resp,
      fst (add_waste_api request d) = Ok resp
      /\ forall e, fst (add_waste_body request d) = Raise e ->
           resp = failure (exc_str e)
           /\ dict_lookup "success" resp = Some (JBool false)
           /\ dict_lookup "message" resp = Some (JStr (exc_str e)))
  /\ (exists resp,
      fst (train_forecasting_model request d) = Ok resp
      /\ forall e, fst (train_forecasting_body request d) = Raise e ->
           resp = failure (exc_str e)
           /\ dict_lookup "success" resp = Some (JBool false)
           /\ dict_lookup "message" resp = Some (JStr (exc_str e))).
Proof.
  unfold transfer_inventory_api, add_waste_api, train_forecasting_model.
  split; [|split].
  - destruct (handler_catches (transfer_inventory_body request) d)
      as (resp & H1 & _ & _ & H2). exists resp. split; assumption.
  - destruct (handler_catches (add_waste_body request) d)
      as (resp & H1 & _ & _ & H2). exists resp. split; assumption.
  - destruct (handler_catches (train_forecasting_body request) d)
      as (resp & H1 & _ & _ & H2). exists resp. split; assumption.
Qed.

(** ** [train_forecasting_model] *)

Lemma existsb_filter {A : Type} (f : A -> bool) (l : list A) :
  existsb f l = match filter f l with [] => false | _ :: _ => true end.
Proof.
  induction l as [|x l IH]; simpl; [reflexivity|].
  destruct (f x); simpl; [reflexivity | exact IH].
Qed.

Lemma update_or_create_upsert (row : MLPrediction.t)
    (rows rows' : list MLPrediction.t) :
  update_or_create TMLPrediction
    (same_prediction (MLPrediction.product_firebase_id row)) row rows
  = Ok rows' ->
  rows' = upsert rows row.
Proof.
  unfold update_or_create, upsert. rewrite existsb_filter.
  destruct (filter _ rows) as [|x [|y l]]; intro H;
    try discriminate; injection H as <-; reflexivity.
Qed.


Lemma upsert_other (row : MLPrediction.t) (rows : list MLPrediction.t)
    (key : string) :
  MLPrediction.product_firebase_id row <> key ->
  predictions_for key (upsert rows row) = predictions_for key rows.
Proof.
  intro Hk. unfold upsert, predictions_for.
  assert (Hrow : same_prediction key row = false).
  { unfold same_prediction. apply String.eqb_neq. exact Hk. }
  destruct (existsb _ rows).
  - induction rows as [|r rows IH]; [reflexivity|]. simpl.
    destruct (same_prediction (MLPrediction.product_firebase_id row) r) eqn:E.
    + rewrite Hrow.
      assert (Hr : same_prediction key r = false).
      { unfold same_prediction in *. apply String.eqb_eq in E.
        apply String.eqb_neq. congruence. }
      rewrite Hr. exact IH.
    + destruct (same_prediction key r); [f_equal|]; exact IH.
  - rewrite filter_app. simpl. rewrite Hrow. apply app_nil_r.
Qed.

Lemma upsert_all_other (written : list MLPrediction.t) :
  forall (rows : list MLPrediction.t) (key : string),
    (forall row, In row written -> MLPrediction.product_firebase_id row <> key) ->
    predictions_for key (fold_left upsert written rows)
    = predictions_for key rows.
Proof.
  induction written as [|w written IH]; intros rows key H; [reflexivity|].
  simpl. rewrite IH.
  - apply upsert_other. apply H. left. reflexivity.
  - intros row Hr. apply H. right. exact Hr.
Qed.





Lemma set_ml_predictions_twice (a b : list MLPrediction.t) (d : DB) :
  set_ml_predictions a (set_ml_predictions b d) = set_ml_predictions a d.
Proof. reflexivity. Qed.

Lemma set_ml_predictions_same (d : DB) :
  set_ml_predictions (ml_predictions d) d = d.
Proof. destruct d. reflexivity. Qed.

Ltac unfold_train H :=
  unfold product_sales_count, product_sales_values, min_of,
    MLPrediction_update_or_create, MLModel_update_or_create, Sale_count,
    Product_all, log_audit, AuditTrail_create in H;
  unfold try_except, bind, ret, raise, orm, query, Exception in H.

(** A run of the loop that ends without exception has stored, in order, the
    predictions of the products with at least three sales, and nothing
    else. *)
Lemma train_loop_ok (ps : list Product.t) :
  forall (n n' : Z) (d d' : DB),
    train_loop ps n d = (Ok n', d') ->
    let processed := filter (eligible (sales d)) ps in
    n' = n + Z.of_nat (List.length processed)
    /\ ml_predictions d'
       = fold_left upsert (map (stored_prediction (sales d)) processed)
                   (ml_predictions d)
    /\ d' = set_ml_predictions (ml_predictions d') d
    /\ (forall p, In p processed -> order_dates (sales_of p (sales d)) <> []).
Proof.
  induction ps as [|p ps IH]; intros n n' d d' H.
  - simpl in H. unfold ret in H. injection H as <- <-. simpl.
    split; [lia|]. split; [reflexivity|].
    split; [symmetry; apply set_ml_predictions_same | intros p []].
  - cbn [train_loop] in H. unfold_train H.
    destruct (fault _) eqn:F1 in H; [discriminate|].
    assert (Hel : eligible (sales d) p
                  = negb (Z.of_nat (List.length (sales_of p (sales d))) <? 3))
      by reflexivity.
    cbv zeta. cbn [filter]. rewrite Hel.
    unfold product_sales in H. fold (sales_of p (sales d)) in H.
    destruct (Z.of_nat (List.length (sales_of p (sales d))) <? 3) eqn:E3;
      cbn [negb].
    + apply IH in H. exact H.
    + destruct (fault _) eqn:F2 in H; [discriminate|].
      change (filter (sale_of p) (sales d)) with (sales_of p (sales d)) in H.
      destruct (sales_of p (sales d)) as [|s0 sd] eqn:Esd.
      { simpl in E3. discriminate. }
      rewrite <- Esd in H.
      destruct (order_dates (sales_of p (sales d))) as [|t ts] eqn:Eod;
        [discriminate|].
      destruct (fault _) eqn:F3 in H; [discriminate|].
      destruct (update_or_create _ _ _ _) as [rows'|e] eqn:Eu in H;
        [|discriminate].
      apply update_or_create_upsert in Eu. subst rows'.
      apply IH in H. cbn [sales set_ml_predictions ml_predictions] in H.
      destruct H as (Hn & Hp & Hd & Ho).
      assert (Hrow : prediction_row p (sales_of p (sales d)) (py_min t ts)
                     = stored_prediction (sales d) p).
      { unfold stored_prediction, earliest_sale. rewrite Eod. reflexivity. }
      rewrite Hrow in Hp.
      split; [cbn [List.length]; lia|].
      split; [exact Hp|].
      split; [rewrite Hd at 1; reflexivity|].
      intros q [<- | Hq]; [rewrite Eod; discriminate | apply Ho; exact Hq].
Qed.

Lemma train_success (request : HttpRequest) (d d' : DB)
    (resp : JsonResponse) :
  train_forecasting_model request d = (Ok resp, d') ->
  dict_lookup "success" resp = Some (JBool true) ->
  let processed := filter (eligible (sales d)) (products d) in
  ml_predictions d'
  = fold_left upsert (map (stored_prediction (sales d)) processed)
              (ml_predictions d)
  /\ (forall p, In p processed -> order_dates (sales_of p (sales d)) <> []).
Proof.
  intros H Hs. cbv zeta.
  unfold train_forecasting_model, train_forecasting_body in H.
  unfold_train H.
  destruct (fault _) eqn:F1 in H.
  { injection H as <- <-. discriminate Hs. }
  destruct (Z.of_nat (List.length (sales d)) <? 10) eqn:E.
  { injection H as <- <-. discriminate Hs. }
  destruct (fault _) eqn:F2 in H.
  { injection H as <- <-. discriminate Hs. }
  destruct (train_loop (products d) 0 d) as [[n|e] d1] eqn:Hloop.
  2:{ injection H as <- <-. discriminate Hs. }
  apply train_loop_ok in Hloop. destruct Hloop as (_ & Hp & Hd & Ho).
  assert (Hpred : ml_predictions d' = ml_predictions d1).
  { repeat (case_split; tidy); tidy; reflexivity. }
  rewrite Hpred. split; assumption.
Qed.

(** C8.  With fewer than ten sales records training answers with a failure
    and leaves the database, and so the predictions and the model record,
    as they were.  A run that succeeds has stored the predictions of the
    products with at least three sales records and no other: a product with
    fewer is not processed, and the rows under its key are the rows that
    were there, unless a processed product shares that key. *)
Theorem train_requires_enough_sales (request : HttpRequest) (d d' : DB)
    (r : result JsonResponse) :
  train_forecasting_model request d = (r, d') ->
  ((List.length (sales d) < 10)%nat ->
     exists m, r = Ok (failure m) /\ d' = d
               /\ ml_predictions d' = ml_predictions d
               /\ ml_models d' = ml_models d)
  /\ (forall resp,
        r = Ok resp -> dict_lookup "success" resp = Some (JBool true) ->
        let processed := filter (eligible (sales d)) (products d) in
        ml_predictions d'
        = fold_left upsert (map (stored_prediction (sales d)) processed)
                    (ml_predictions d)
        /\ (forall p,
              In p (products d) ->
              (List.length (sales_of p (sales d)) < 3)%nat ->
              ~ In p processed
              /\ ((forall q, In q processed -> product_key q <> product_key p) ->
                  predictions_for (product_key p) (ml_predictions d')
                  = predictions_for (product_key p) (ml_predictions d)))).
Proof.
  intro Hrun. split.
  - intro Hlt. pose proof Hrun as H.
    unfold train_forecasting_model, train_forecasting_body in H.
    unfold_train H.
    destruct (fault _) eqn:F1 in H.
    { injection H as <- <-. eexists. repeat split. }
    assert (E : (Z.of_nat (List.length (sales d)) <? 10) = true)
      by (apply Z.ltb_lt; lia).
    rewrite E in H. injection H as <- <-. eexists. repeat split.
  - intros resp Hr Hs processed. subst r.
    destruct (train_success _ _ _ _ Hrun Hs) as [Hp _].
    fold processed in Hp. split; [exact Hp|].
    intros p Hin Hlt. split.
    + intro Hproc. apply filter_In in Hproc. destruct Hproc as [_ He].
      unfold eligible in He. apply negb_true_iff, Z.ltb_ge in He. lia.
    + intro Hkeys. rewrite Hp. apply upsert_all_other.
      intros row Hrow. apply in_map_iff in Hrow.
      destruct Hrow as (q & <- & Hq). apply Hkeys. exact Hq.
Qed.


(** ** [inventory_forecasting_view] *)

Lemma forecast_step_ok (p : Product.t) (u a c : Q) (sm sm' : Summary)
    (row : ForecastRow) (d d' : DB) :
  forecast_step p u a c sm d = (Ok (row, sm'), d') ->
  let days_left := days_left_of u (or0 (Product.quantity p)) in
  d' = d
  /\ row_product_id row = Product.id p
  /\ row_days_left row = shown_days days_left
  /\ row_depletion_date row
     = (if days_left <? 999
        then strftime (now + days_left * microseconds_per_day)
        else "N/A")
  /\ row_status row
     = (if days_left <=? 3 then "critical"
        else if days_left <=? 7 then "warning" else "healthy")
  /\ critical sm' = critical sm + (if days_left <=? 3 then 1 else 0)
  /\ low sm'
     = low sm + (if days_left <=? 3 then 0
                 else if days_left <=? 7 then 1 else 0)
  /\ healthy sm' = healthy sm + (if days_left <=? 7 then 0 else 1)
  /\ needs_reorder sm' = needs_reorder sm + (if days_left <=? 7 then 1 else 0).
Proof.
  unfold forecast_step, now_plus_days, shown_days. cbv zeta.
  set (dl := days_left_of u (or0 (Product.quantity p))).
  unfold bind, ret, raise. intro H.
  destruct (dl <? 999) eqn:E999.
  - destruct ((dl <? -999999999) || (999999999 <? dl)); [discriminate|].
    destruct ((now + dl * microseconds_per_day <? datetime_min)
              || (datetime_max <? now + dl * microseconds_per_day));
      [discriminate|].
    destruct (dl <=? 3) eqn:E3; destruct (dl <=? 7) eqn:E7;
      injection H as <- <- <-; cbn; repeat split; lia.
  - destruct (dl <=? 3) eqn:E3; destruct (dl <=? 7) eqn:E7;
      injection H as <- <- <-; cbn; repeat split; lia.
Qed.

Lemma insert_row_in (r x : ForecastRow) (l : list ForecastRow) :
  In x (insert_row r l) <-> x = r \/ In x l.
Proof.
  induction l as [|y l IH]; simpl.
  - intuition congruence.
  - destruct (sort_key r <=? sort_key y); simpl; [intuition congruence|].
    rewrite IH. intuition congruence.
Qed.

Lemma sort_rows_in (x : ForecastRow) (l : list ForecastRow) :
  In x (sort_rows l) <-> In x l.
Proof.
  induction l as [|y l IH]; simpl; [tauto|].
  rewrite insert_row_in, IH. intuition congruence.
Qed.

Lemma insert_row_count (f : ForecastRow -> bool) (r : ForecastRow)
    (l : list ForecastRow) :
  List.length (filter f (insert_row r l)) = List.length (filter f (r :: l)).
Proof.
  induction l as [|y l IH]; [reflexivity|]. cbn [insert_row].
  destruct (sort_key r <=? sort_key y); [reflexivity|].
  cbn [filter] in *. destruct (f y), (f r); cbn [List.length] in *; lia.
Qed.

Lemma sort_rows_count (f : ForecastRow -> bool) (l : list ForecastRow) :
  List.length (filter f (sort_rows l)) = List.length (filter f l).
Proof.
  induction l as [|y l IH]; [reflexivity|]. cbn [sort_rows fold_right].
  rewrite insert_row_count. fold (sort_rows l). cbn [filter].
  destruct (f y); cbn [List.length]; rewrite IH; reflexivity.
Qed.

Lemma insert_row_length (r : ForecastRow) (l : list ForecastRow) :
  List.length (insert_row r l) = S (List.length l).
Proof.
  induction l as [|y l IH]; [reflexivity|]. cbn [insert_row].
  destruct (sort_key r <=? sort_key y); cbn [List.length]; [reflexivity|].
  rewrite IH. reflexivity.
Qed.

Lemma sort_rows_length (l : list ForecastRow) :
  List.length (sort_rows l) = List.length l.
Proof.
  induction l as [|y l IH]; [reflexivity|]. cbn [sort_rows fold_right].
  rewrite insert_row_length. fold (sort_rows l). rewrite IH. reflexivity.
Qed.

Lemma prediction_read (p : Product.t) (d d1 : DB) (u a c : Q) :
  try_except (is_does_not_exist TMLPrediction)
    (bind (MLPrediction_get (Product.firebase_id p))
       (fun prediction =>
          ret (MLPrediction.predicted_daily_usage prediction,
               MLPrediction.avg_daily_usage prediction,
               MLPrediction.confidence_score prediction)))
    (fun _ => ret (0%Q, 0%Q, 0%Q)) d = (Ok (u, a, c), d1) ->
  d1 = d /\ usage_read d p u.
Proof.
  unfold try_except, bind, ret, MLPrediction_get, orm, query, usage_read.
  destruct (fault _) as [e|] eqn:F.
  - apply fault_class in F. unfold is_does_not_exist. rewrite F. discriminate.
  - unfold objects_get.
    destruct (filter _ (ml_predictions d)) as [|x [|y l]] eqn:E.
    + cbn. intro H. injection H as <- _ _ <-. split; [reflexivity|].
      right. split; reflexivity.
    + intro H. injection H as <- _ _ <-. split; [reflexivity|].
      left. exists x. split; reflexivity.
    + cbn. discriminate.
Qed.

Lemma row_counts (row : ForecastRow) (days_left : Z) :
  row_days_left row = shown_days days_left ->
  row_status row
  = (if days_left <=? 3 then "critical"
     else if days_left <=? 7 then "warning" else "healthy") ->
  String.eqb (row_status row) "critical" = (days_left <=? 3)
  /\ String.eqb (row_status row) "warning"
     = negb (days_left <=? 3) && (days_left <=? 7)
  /\ String.eqb (row_status row) "healthy" = negb (days_left <=? 7)
  /\ reorder_due row = (days_left <=? 7).
Proof.
  unfold reorder_due, shown_days. intros -> ->.
  destruct (days_left <=? 3) eqn:E3; destruct (days_left <=? 7) eqn:E7;
    destruct (days_left <? 999) eqn:E9; cbn; repeat split; lia.
Qed.

Lemma status_count_cons (s : string) (row : ForecastRow)
    (rows : list ForecastRow) :
  status_count s (row :: rows)
  = (if String.eqb (row_status row) s then 1 else 0) + status_count s rows.
Proof.
  unfold status_count. cbn [filter].
  destruct (String.eqb (row_status row) s); cbn [List.length]; lia.
Qed.

Lemma forecast_loop_ok (ps : list Product.t) :
  forall (acc rows : list ForecastRow) (sm sm' : Summary) (d d' : DB),
    forecast_loop ps acc sm d = (Ok (rows, sm'), d') ->
    d' = d
    /\ exists new,
        rows = (acc ++ new)%list
        /\ Forall2 (tracks d) ps new
        /\ critical sm' = critical sm + status_count "critical" new
        /\ low sm' = low sm + status_count "warning" new
        /\ healthy sm' = healthy sm + status_count "healthy" new
        /\ needs_reorder sm'
           = needs_reorder sm
             + Z.of_nat (List.length (filter reorder_due new)).
Proof.
  induction ps as [|p ps IH]; intros acc rows sm sm' d d' H.
  - cbn in H. unfold ret in H. injection H as <- <- <-.
    split; [reflexivity|]. exists []. rewrite app_nil_r.
    repeat split; try constructor; cbn; lia.
  - cbn [forecast_loop] in H. unfold bind at 1 in H.
    destruct (try_except _ _ _ d) as [[[[u a] c]|e] d1] eqn:Hread;
      [|discriminate].
    apply prediction_read in Hread. destruct Hread as [-> Hu].
    unfold bind at 1 in H.
    destruct (forecast_step p u a c sm d) as [[[row sm1]|e] d2] eqn:Hstep;
      [|discriminate].
    apply forecast_step_ok in Hstep.
    destruct Hstep as (-> & Hid & Hdays & Hdate & Hstatus & Hc & Hl & Hh & Hn).
    cbn [fst snd] in H. apply IH in H.
    destruct H as (-> & new & -> & Hall & Hc' & Hl' & Hh' & Hn').
    split; [reflexivity|]. exists (row :: new).
    destruct (row_counts row _ Hdays Hstatus) as (Ec & Ew & Eh & Er).
    split; [rewrite <- app_assoc; reflexivity|]. split.
    { constructor; [|exact Hall]. exists u. split; [exact Hu|].
      cbv zeta. repeat split; assumption. }
    rewrite !status_count_cons, Ec, Ew, Eh. cbn [filter]. rewrite Er.
    destruct (days_left_of u (or0 (Product.quantity p)) <=? 3) eqn:E3;
      destruct (days_left_of u (or0 (Product.quantity p)) <=? 7) eqn:E7;
      cbn [negb andb List.length] in *; repeat split; lia.
Qed.

Lemma forecast_loop_state (ps : list Product.t) :
  forall (acc : list ForecastRow) (sm : Summary) (d d' : DB)
         (r : result (list ForecastRow * Summary)),
    forecast_loop ps acc sm d = (r, d') -> d' = d.
Proof.
  induction ps as [|p ps IH]; intros acc sm d d' r H.
  - cbn in H. unfold ret in H. injection H as _ <-. reflexivity.
  - cbn [forecast_loop] in H. unfold bind at 1 in H.
    destruct (try_except _ _ _ d) as [[[[u a] c]|e] d1] eqn:Hread.
    + apply prediction_read in Hread. destruct Hread as [-> _].
      unfold bind at 1 in H.
      destruct (forecast_step p u a c sm d) as [[[row sm1]|e] d2] eqn:Hstep.
      * apply forecast_step_ok in Hstep. destruct Hstep as (-> & _).
        apply IH in H. exact H.
      * injection H as _ <-.
        unfold forecast_step, now_plus_days, bind, ret, raise in Hstep.
        repeat (case_split; tidy); tidy; reflexivity.
    + injection H as _ <-.
      unfold try_except, bind, ret, MLPrediction_get, orm, query in Hread.
      repeat (case_split; tidy); tidy; reflexivity.
Qed.

(** What the forecast page shows: nothing after an exception, and otherwise
    the sorted rows of the listed products with their counters. *)
Lemma forecast_view_cases (request : HttpRequest) (d d' : DB)
    (r : result Context) :
  inventory_forecasting_view request d = (r, d') ->
  d' = d
  /\ exists ctx,
      r = Ok ctx
      /\ ((forecast_data ctx = [] /\ summary ctx = mkSummary 0 0 0 0)
          \/ exists new,
              forecast_data ctx = sort_rows new
              /\ Forall2 (tracks d) (filter listed (products d)) new
              /\ critical (summary ctx) = status_count "critical" new
              /\ low (summary ctx) = status_count "warning" new
              /\ healthy (summary ctx) = status_count "healthy" new
              /\ needs_reorder (summary ctx)
                 = Z.of_nat (List.length (filter reorder_due new))).
Proof.
  unfold inventory_forecasting_view. intro H.
  unfold Sale_count, Product_count, MLPrediction_count, MLModel_get,
    Product_listed_count, Product_listed in H.
  unfold try_except at 1, bind, orm, query, Exception in H.
  unfold try_except, ret in H.
  repeat (case_split; tidy); tidy;
    try (split; [reflexivity|]; eexists; split; [reflexivity|];
         left; split; reflexivity).
  all: try match goal with
       | Hl : forecast_loop _ _ _ _ = (Ok ?x, _) |- _ =>
           destruct x as [rows sm1];
           apply forecast_loop_ok in Hl;
           destruct Hl as (-> & new & -> & Hall & Hc & Hl' & Hh & Hn)
       end.
  all: try (split; [reflexivity|]; eexists; split; [reflexivity|];
    right; exists new; cbn [forecast_data summary fst snd app];
    repeat split; solve [assumption | lia]).
  all: match goal with
       | Hl : forecast_loop _ _ _ _ = (Raise _, _) |- _ =>
           apply forecast_loop_state in Hl; subst
       end.
  all: split; [reflexivity|]; eexists; split; [reflexivity|];
    left; split; reflexivity.
Qed.

Lemma Forall2_right {A B : Type} (R : A -> B -> Prop) (l : list A)
    (l' : list B) (y : B) :
  Forall2 R l l' -> In y l' -> exists x, In x l /\ R x y.
Proof.
  induction 1 as [|x y' l l' HR _ IH]; intros Hin; [destruct Hin|].
  destruct Hin as [<- | Hin].
  - exists x. split; [left; reflexivity | exact HR].
  - destruct (IH Hin) as (x' & Hx & HR'). exists x'. split; [right|]; assumption.
Qed.

Lemma status_counts_total (rows : list ForecastRow) :
  (forall row, In row rows ->
               row_status row = "critical" \/ row_status row = "warning"
               \/ row_status row = "healthy") ->
  status_count "critical" rows + status_count "warning" rows
  + status_count "healthy" rows
  = Z.of_nat (List.length rows).
Proof.
  induction rows as [|row rows IH]; intro H; [reflexivity|].
  rewrite !status_count_cons. cbn [List.length]. rewrite Nat2Z.inj_succ.
  assert (IH' := IH (fun r Hr => H r (or_intror Hr))).
  destruct (H row (or_introl eq_refl)) as [E | [E | E]]; rewrite E;
    repeat match goal with
      | |- context [String.eqb ?a ?b] =>
          let v := eval vm_compute in (String.eqb a b) in
          change (String.eqb a b) with v
      end; cbv iota; lia.
Qed.

(** ** More on [calculate_max_servings] *)

(** A run of the ingredient loop that ends without exception has appended the
    servings of the ingredients it keeps, whatever the driver did. *)
Lemma servings_loop_ok (l : list RecipeIngredient.t) :
  forall (acc out : list Z) (d d' : DB),
    servings_loop l acc d = (Ok out, d') ->
    d' = d /\ out = (acc ++ map (servings_of d) (filter kept l))%list.
Proof.
  induction l as [|i l IH]; intros acc out d d' H.
  - cbn in H. unfold ret in H. injection H as <- <-.
    rewrite app_nil_r. split; reflexivity.
  - cbn [servings_loop filter] in *. unfold kept at 1.
    destruct (String.eqb (ingredient_product_id i) ""
              || Qeq_bool (or0 (RecipeIngredient.quantity_needed i)) 0) eqn:Hs;
      cbn [negb].
    + apply IH. exact H.
    + unfold bind at 1, try_except, bind, Product_get_firebase_id, orm, query,
        ret in H.
      cbn [map]. unfold servings_of at 1. unfold ingredient_products.
      destruct (fault _) as [e|] eqn:F in H.
      { apply fault_class in F. unfold is_does_not_exist in H.
        rewrite F in H. discriminate H. }
      unfold objects_get in H.
      destruct (filter _ (products d)) as [|p [|p' ps]].
      * cbn in H. apply IH in H. destruct H as [-> ->].
        rewrite <- app_assoc. split; reflexivity.
      * cbn in H. apply IH in H. destruct H as [-> ->].
        rewrite <- app_assoc. split; reflexivity.
      * cbn in H. discriminate H.
Qed.

Lemma servings_loop_state (l : list RecipeIngredient.t) :
  forall (acc : list Z) (d d' : DB) (r : result (list Z)),
    servings_loop l acc d = (r, d') -> d' = d.
Proof.
  induction l as [|i l IH]; intros acc d d' r H.
  - cbn in H. unfold ret in H. injection H as _ <-. reflexivity.
  - cbn [servings_loop] in H.
    destruct (String.eqb (ingredient_product_id i) ""
              || Qeq_bool (or0 (RecipeIngredient.quantity_needed i)) 0).
    + apply IH in H. exact H.
    + unfold bind at 1, try_except, bind, Product_get_firebase_id, orm, query,
        ret in H.
      destruct (fault _) as [e|] in H.
      { destruct (is_does_not_exist TProduct e).
        - apply IH in H. exact H.
        - injection H as _ <-. reflexivity. }
      destruct (objects_get _ _ _) as [p|e] in H.
      * apply IH in H. exact H.
      * destruct (is_does_not_exist TProduct e).
        -- apply IH in H. exact H.
        -- injection H as _ <-. reflexivity.
Qed.

(** What [calculate_max_servings] answers: [None], or the minimum of the
    servings of the kept ingredients of the recipe it found. *)
Lemma max_servings_cases (product_firebase_id recipe_id : string)
    (d d' : DB) (r : result (option Z)) :
  calculate_max_servings product_firebase_id recipe_id d = (r, d') ->
  d' = d
  /\ exists answer,
      r = Ok answer
      /\ forall m,
          answer = Some m ->
          exists recipe,
            recipe_found d recipe_id recipe
            /\ m = min_or_zero
                     (map (servings_of d)
                        (filter kept
                           (filter (ingredient_of recipe)
                                   (recipe_ingredients d)))).
Proof.
  unfold calculate_max_servings. intro H.
  unfold try_except at 1 in H.
  destruct (bind _ _ d) as [[answer|e] d1] eqn:Hb.
  - injection H as <- <-.
    unfold bind at 1 in Hb.
    destruct (try_except _ _ _ d) as [[found|e] d2] eqn:Hfound; [|discriminate].
    assert (Hrec : d2 = d
                   /\ forall recipe, found = Some recipe ->
                                     recipe_found d recipe_id recipe).
    { unfold try_except, bind, ret, Recipe_get_id, Recipe_get_firebase_id,
        orm, query, recipe_found in *.
      destruct (fault _) as [e|] eqn:F1 in Hfound.
      { apply fault_class in F1. unfold is_does_not_exist in Hfound.
        rewrite F1 in Hfound. discriminate. }
      unfold objects_get in *.
      destruct (filter (fun r => String.eqb (Recipe.id r) recipe_id)
                       (recipes d)) as [|x [|y l]].
      - cbn in Hfound.
        destruct (filter (fun r => String.eqb (Recipe.firebase_id r) recipe_id)
                         (recipes d)) as [|x [|y l]];
          cbn in Hfound; injection Hfound as <- <- || discriminate.
        + split; [reflexivity|]. intros recipe Hr. discriminate.
        + split; [reflexivity|]. intros recipe Hr. injection Hr as <-.
          right. split; reflexivity.
      - injection Hfound as <- <-. split; [reflexivity|].
        intros recipe Hr. injection Hr as <-. left. reflexivity.
      - cbn in Hfound. discriminate. }
    destruct Hrec as [-> Hrec].
    destruct found as [recipe|].
    + unfold bind in Hb. unfold RecipeIngredient_filter, orm, query in Hb.
      destruct (fault _) in Hb; [discriminate|].
      destruct (servings_loop _ [] d) as [[out|e] d3] eqn:Hloop; [|discriminate].
      apply servings_loop_ok in Hloop. destruct Hloop as [-> ->].
      unfold ret in Hb. injection Hb as <- <-.
      split; [reflexivity|]. eexists. split; [reflexivity|].
      intros m Hm. injection Hm as <-. exists recipe.
      split; [apply Hrec; reflexivity | reflexivity].
    + unfold ret in Hb. injection Hb as <- <-.
      split; [reflexivity|]. exists None. split; [reflexivity|].
      intros m Hm. discriminate.
  - unfold Exception, ret in H. injection H as <- <-.
    split.
    + unfold bind at 1 in Hb.
      destruct (try_except _ _ _ d) as [[found|e'] d2] eqn:Hfound.
      * assert (Hd : d2 = d).
        { unfold try_except, bind, ret, Recipe_get_id, Recipe_get_firebase_id,
            orm, query in Hfound.
          repeat (case_split; tidy); tidy; reflexivity. }
        subst d2. destruct found as [recipe|].
        -- unfold bind in Hb. unfold RecipeIngredient_filter, orm, query in Hb.
           destruct (fault _) in Hb; [injection Hb as _ <-; reflexivity|].
           destruct (servings_loop _ [] d) as [[out|e''] d3] eqn:Hloop.
           ++ discriminate.
           ++ apply servings_loop_state in Hloop. injection Hb as _ <-.
              exact Hloop.
        -- discriminate.
      * injection Hb as _ <-.
        unfold try_except, bind, ret, Recipe_get_id, Recipe_get_firebase_id,
          orm, query in Hfound.
        repeat (case_split; tidy); tidy; reflexivity.
    + exists None. split; [reflexivity|]. intros m Hm. discriminate.
Qed.

(** X1.  [calculate_max_servings] never raises and never writes: whatever
    the driver does, it returns a number or [None] and leaves the database
    as it found it. *)
Theorem calculate_max_servings_reads_only
    (product_firebase_id recipe_id : string) (d : DB) :
  exists answer,
    calculate_max_servings product_firebase_id recipe_id d = (Ok answer, d).
Proof.
  destruct (calculate_max_servings product_firebase_id recipe_id d)
    as [r d'] eqn:H.
  destruct (max_servings_cases _ _ _ _ _ H) as (-> & answer & -> & _).
  exists answer. reflexivity.
Qed.

Lemma min_or_zero_le (l : list Z) (x : Z) : In x l -> min_or_zero l <= x.
Proof.
  destruct l as [|y l]; [intros []|]. intro Hin. cbn [min_or_zero].
  pose proof (py_min_lower l y) as Hlow. rewrite Forall_forall in Hlow.
  apply Hlow. exact Hin.
Qed.

Lemma min_or_zero_nonneg (l : list Z) :
  (forall x, In x l -> 0 <= x) -> 0 <= min_or_zero l.
Proof.
  destruct l as [|y l]; intro H; [cbn; lia|]. cbn [min_or_zero].
  apply H. apply py_min_in.
Qed.


Lemma py_int_nonneg (q : Q) : (0 <= q)%Q -> 0 <= py_int q.
Proof.
  intro H. rewrite (py_int_floor q H).
  change 0 with (Qfloor 0). apply Qfloor_resp_le. exact H.
Qed.


Lemma servings_of_nonneg (d : DB) (i : RecipeIngredient.t) :
  (forall p, In p (products d) -> (0 <= or0 (Product.inventory_b p))%Q) ->
  0 <= servings_of d i.
Proof.
  intro Hstock. unfold servings_of.
  destruct (ingredient_products d i) as [|p ps] eqn:E; [lia|].
  destruct (Qltb 0 (or0 (RecipeIngredient.quantity_needed i))) eqn:Hpos; [|lia].
  apply Qltb_lt in Hpos. apply py_int_nonneg. apply Qdiv_nonneg; [|exact Hpos].
  apply Hstock.
  assert (Hin : In p (ingredient_products d i)) by (rewrite E; left; reflexivity).
  unfold ingredient_products in Hin. apply filter_In in Hin. tauto.
Qed.

(** X3.  With no negative stock in the products table the servings reported
    are never negative, and they are zero as soon as one kept ingredient of
    the recipe names a product that is not in the table. *)
Theorem max_servings_not_negative
    (product_firebase_id recipe_id : string) (d d' : DB) (m : Z) :
  calculate_max_servings product_firebase_id recipe_id d = (Ok (Some m), d') ->
  (forall p, In p (products d) -> (0 <= or0 (Product.inventory_b p))%Q) ->
  0 <= m
  /\ exists recipe,
      recipe_found d recipe_id recipe
      /\ forall i,
          In i (recipe_ingredients d) ->
          ingredient_of recipe i = true ->
          kept i = true ->
          ingredient_products d i = [] ->
          m = 0.
Proof.
  intros H Hstock. apply max_servings_cases in H.
  destruct H as (_ & answer & Ha & Hm). injection Ha as <-.
  destruct (Hm m eq_refl) as (recipe & Hfound & ->).
  assert (Hnn : 0 <= min_or_zero
                       (map (servings_of d)
                          (filter kept (filter (ingredient_of recipe)
                                               (recipe_ingredients d))))).
  { apply min_or_zero_nonneg. intros x Hx. apply in_map_iff in Hx.
    destruct Hx as (i & <- & _). apply servings_of_nonneg. exact Hstock. }
  split; [exact Hnn|]. exists recipe. split; [exact Hfound|].
  intros i Hin Hof Hkept Hmissing.
  assert (Hle : min_or_zero
                  (map (servings_of d)
                     (filter kept (filter (ingredient_of recipe)
                                          (recipe_ingredients d))))
                <= servings_of d i).
  { apply min_or_zero_le. apply in_map.
    apply filter_In. split; [|exact Hkept].
    apply filter_In. split; assumption. }
  unfold servings_of at 2 in Hle. rewrite Hmissing in Hle. lia.
Qed.

(** ** When [calculate_max_servings] answers [None] *)

(** ** More on [transfer_inventory_api] and [add_waste_api] *)

(** X4.  A transfer is all or nothing.  It always answers; unless the answer
    reports success the database is exactly as it was; and a successful
    transfer touches nothing but the products table and the audit trail,
    to which it adds at most one entry, named after the transfer and the
    user. *)
Theorem transfer_all_or_nothing (request : HttpRequest) (d d' : DB)
    (r : result JsonResponse) :
  transfer_inventory_api request d = (r, d') ->
  exists resp,
    r = Ok resp
    /\ (dict_lookup "success" resp <> Some (JBool true) -> d' = d)
    /\ sales d' = sales d
    /\ recipes d' = recipes d
    /\ recipe_ingredients d' = recipe_ingredients d
    /\ waste_logs d' = waste_logs d
    /\ ml_predictions d' = ml_predictions d
    /\ ml_models d' = ml_models d
    /\ (audit_trail d' = audit_trail d
        \/ exists entry,
            audit_trail d' = (audit_trail d ++ [entry])%list
            /\ AuditTrail.action entry = "Inventory Transfer"
            /\ AuditTrail.user_name entry = username (user request)
            /\ AuditTrail.timestamp entry = now).
Proof.
  unfold transfer_inventory_api, transfer_inventory_body. intro H.
  unfold_run H.
  repeat (case_split; tidy); tidy.
  all: eexists; split; [reflexivity|].
  all: split; [try (intros _; reflexivity);
               try (intro Hs; exfalso; apply Hs; reflexivity)|].
  all: cbn [sales recipes recipe_ingredients waste_logs ml_predictions
            ml_models audit_trail set_products set_audit_trail].
  all: repeat (split; [reflexivity|]).
  all: first [ left; reflexivity
             | right; eexists; repeat split; reflexivity ].
Qed.

(** X5.  A transfer whose request is well formed, whose product is found and
    whose quantity is positive and within the warehouse counter succeeds
    as soon as the driver answers the lookup and the save: it does not
    depend on the audit trail being writable. *)
Theorem transfer_succeeds_when_guards_pass (request : HttpRequest) (d : DB)
    (kv : list (string * json)) (q : Q) (product : Product.t) :
  asks request kv q ->
  truthy (dict_get kv "productId" JNull) = true ->
  finds d kv product ->
  (0 < q)%Q ->
  (q <= or0 (Product.inventory_a product))%Q ->
  fault (mkCall TProduct KGet (lookup_text (dict_get kv "productId" JNull)))
  = None ->
  fault (mkCall TProduct KSave (Product.id product)) = None ->
  let a := (or0 (Product.inventory_a product) - q)%Q in
  let b := (or0 (Product.inventory_b product) + q)%Q in
  exists resp,
    fst (transfer_inventory_api request d) = Ok resp
    /\ dict_lookup "success" resp = Some (JBool true)
    /\ dict_lookup "newInventoryA" resp = Some (JNum a)
    /\ dict_lookup "newInventoryB" resp = Some (JNum b)
    /\ products (snd (transfer_inventory_api request d))
       = save_row (with_inventory a b product) (products d).
Proof.
  intros [Hload Hq] Hid Hfinds Hpos Hle Fget Fsave a b.
  unfold finds in Hfinds.
  assert (Hguard : negb (truthy (dict_get kv "productId" JNull))
                   || Qle_bool q 0 = false).
  { rewrite Hid. cbn [negb orb].
    destruct (Qle_bool q 0) eqn:E; [|reflexivity].
    apply Qle_bool_iff in E. lra. }
  assert (Hstock : Qltb (or0 (Product.inventory_a product)) q = false)
    by (apply Qltb_ge; exact Hle).
  unfold transfer_inventory_api, transfer_inventory_body.
  unfold data_get, py_float, log_audit, AuditTrail_create, Product_get,
    Product_save.
  unfold try_except, bind, ret, raise, orm, query, Exception.
  rewrite Hload. cbn beta iota. rewrite Hq. cbn beta iota.
  rewrite Hguard, Fget, Hfinds. cbn beta iota.
  rewrite Hstock. cbn [with_inventory Product.id]. rewrite Fsave.
  cbn beta iota.
  cbn [AuditTrail.action].
  destruct (fault (mkCall TAuditTrail KCreate "Inventory Transfer"));
    cbn; eexists; repeat split; reflexivity.
Qed.

(** X6.  Recording waste is not all or nothing: when the driver saves the
    product and then fails the insert of the waste log, the answer is a
    failure with the driver's message, no waste log is written, and yet the
    usable counter of the product is already reduced. *)
Theorem add_waste_failure_after_deduction (request : HttpRequest) (d : DB)
    (kv : list (string * json)) (q : Q) (product : Product.t) (e : PyExn) :
  asks request kv q ->
  truthy (dict_get kv "productId" JNull) = true ->
  finds d kv product ->
  (0 < q)%Q ->
  (q <= or0 (Product.inventory_b product))%Q ->
  fault (mkCall TProduct KGet (lookup_text (dict_get kv "productId" JNull)))
  = None ->
  fault (mkCall TProduct KSave (Product.id product)) = None ->
  fault (mkCall TWasteLog KCreate (product_key product)) = Some e ->
  let b := (or0 (Product.inventory_b product) - q)%Q in
  add_waste_api request d
  = (Ok (failure (exc_str e)),
     set_products (save_row (with_inventory_b b product) (products d)) d).
Proof.
  intros [Hload Hq] Hid Hfinds Hpos Hle Fget Fsave Flog b.
  unfold finds in Hfinds.
  assert (Hguard : negb (truthy (dict_get kv "productId" JNull))
                   || Qle_bool q 0 = false).
  { rewrite Hid. cbn [negb orb].
    destruct (Qle_bool q 0) eqn:E; [|reflexivity].
    apply Qle_bool_iff in E. lra. }
  assert (Hstock : Qltb (or0 (Product.inventory_b product)) q = false)
    by (apply Qltb_ge; exact Hle).
  unfold add_waste_api, add_waste_body.
  unfold data_get, py_float, log_audit, AuditTrail_create, Product_get,
    Product_save, WasteLog_create.
  unfold try_except, bind, ret, raise, orm, query, Exception.
  rewrite Hload. cbn beta iota. rewrite Hq. cbn beta iota.
  rewrite Hguard, Fget, Hfinds. cbn beta iota.
  rewrite Hstock. cbn [with_inventory_b Product.id]. rewrite Fsave.
  cbn beta iota.
  cbn [WasteLog.product_firebase_id]. rewrite Flog. reflexivity.
Qed.

Lemma objects_get_filter {A : Type} (model : table) (cond : A -> bool)
    (rows : list A) (x : A) :
  objects_get model cond rows = Ok x <-> filter cond rows = [x].
Proof.
  unfold objects_get. destruct (filter cond rows) as [|y [|z l]]; split;
    intro H; try discriminate; injection H; intros; subst; reflexivity.
Qed.





(** ** More on [inventory_forecasting_view] *)

Lemma insert_row_sorted (r : ForecastRow) (l : list ForecastRow) :
  StronglySorted by_days_left l -> StronglySorted by_days_left (insert_row r l).
Proof.
  induction l as [|x l IH]; intro H; cbn [insert_row].
  - constructor; constructor.
  - inversion H as [|? ? Hl Hx]; subst.
    destruct (Z.leb_spec (sort_key r) (sort_key x)) as [E|E].
    + constructor; [exact H|]. constructor; [exact E|].
      rewrite Forall_forall in *. intros y Hy. unfold by_days_left in *.
      specialize (Hx y Hy). lia.
    + constructor; [apply IH; exact Hl|].
      rewrite Forall_forall in *. intros y Hy.
      apply insert_row_in in Hy. destruct Hy as [-> | Hy].
      * unfold by_days_left. lia.
      * apply Hx. exact Hy.
Qed.

Lemma sort_rows_sorted (l : list ForecastRow) :
  StronglySorted by_days_left (sort_rows l).
Proof.
  induction l as [|x l IH]; [constructor|].
  cbn [sort_rows fold_right]. apply insert_row_sorted. exact IH.
Qed.

(** X8.  The forecast page always renders and never writes, and its rows
    are in the order of the sort key, which is the days left of a row and
    999 for a row without a number: every row has at most the key of every
    row after it. *)
Theorem forecast_rows_sorted (request : HttpRequest) (d : DB) :
  exists ctx,
    inventory_forecasting_view request d = (Ok ctx, d)
    /\ StronglySorted by_days_left (forecast_data ctx).
Proof.
  destruct (inventory_forecasting_view request d) as [r d'] eqn:H.
  apply forecast_view_cases in H.
  destruct H as (-> & ctx & -> & [[Hrows _] | (new & Hrows & _)]);
    exists ctx; (split; [reflexivity|]); rewrite Hrows.
  - constructor.
  - apply sort_rows_sorted.
Qed.

Lemma insert_row_perm (r : ForecastRow) (l : list ForecastRow) :
  Permutation (insert_row r l) (r :: l).
Proof.
  induction l as [|x l IH]; cbn [insert_row]; [reflexivity|].
  destruct (sort_key r <=? sort_key x); [reflexivity|].
  rewrite IH. apply perm_swap.
Qed.

Lemma sort_rows_perm (l : list ForecastRow) : Permutation (sort_rows l) l.
Proof.
  induction l as [|x l IH]; [reflexivity|].
  cbn [sort_rows fold_right]. rewrite insert_row_perm.
  apply perm_skip. exact IH.
Qed.

Lemma tracks_ids (d : DB) (ps : list Product.t) (rows : list ForecastRow) :
  Forall2 (tracks d) ps rows ->
  map row_product_id rows = map Product.id ps.
Proof.
  induction 1 as [|p row ps rows Ht _ IH]; [reflexivity|].
  cbn [map]. rewrite IH. destruct Ht as (u & _ & Hid & _). rewrite Hid.
  reflexivity.
Qed.

(** A page rendered without exception, which its [data_status] tells, has
    the sorted rows of the listed products, and as its model the only row of
    that name, if there is one. *)
Lemma forecast_view_rendered (request : HttpRequest) (d d' : DB)
    (ctx : Context) :
  inventory_forecasting_view request d = (Ok ctx, d') ->
  data_status ctx <> None ->
  (exists new,
      forecast_data ctx = sort_rows new
      /\ Forall2 (tracks d) (filter listed (products d)) new)
  /\ model_status ctx
     = match filter (fun m => String.eqb (MLModel.name m)
                                         "inventory_forecasting")
                    (ml_models d) with
       | [m] => Some m
       | _ => None
       end.
Proof.
  unfold inventory_forecasting_view. intros H Hstatus.
  unfold Sale_count, Product_count, MLPrediction_count, MLModel_get,
    Product_listed_count, Product_listed in H.
  unfold try_except at 1, bind, orm, query, Exception in H.
  unfold try_except, ret, objects_get in H.
  repeat (case_split; tidy); tidy;
    try (exfalso; apply Hstatus; reflexivity).
  all: match goal with
       | Hl : forecast_loop _ _ _ _ = (Ok ?x, _) |- _ =>
           destruct x as [rows sm1];
           apply forecast_loop_ok in Hl;
           destruct Hl as (_ & new & -> & Hall & _)
       end.
  all: cbn [forecast_data model_status fst snd app].
  all: (split; [exists new; split; [reflexivity | exact Hall]|]).
  all: try reflexivity.
  all: cbn [is_does_not_exist exc_type table_eqb] in *; try discriminate.
  all: try match goal with
       | Hm : filter _ (ml_models _) = _ |- _ => rewrite Hm; reflexivity
       end.
  all: match goal with
       | F : fault _ = Some ?e, Hd : is_does_not_exist _ ?e = true |- _ =>
           apply fault_class in F; unfold is_does_not_exist in Hd;
           rewrite F in Hd; discriminate Hd
       end.
Qed.

(** X9.  A forecast page rendered without exception has one row for each
    listed product and no other: the product identifiers of its rows are
    those of the products that are not excluded, in another order. *)
Theorem forecast_lists_every_product (request : HttpRequest) (d d' : DB)
    (ctx : Context) :
  inventory_forecasting_view request d = (Ok ctx, d') ->
  data_status ctx <> None ->
  Permutation (map row_product_id (forecast_data ctx))
              (map Product.id (filter listed (products d))).
Proof.
  intros H Hstatus.
  destruct (forecast_view_rendered _ _ _ _ H Hstatus)
    as [(new & Hrows & Hall) _].
  rewrite Hrows, <- (tracks_ids _ _ _ Hall).
  apply Permutation_map. apply sort_rows_perm.
Qed.

(** X10.  The forecast never uses a prediction for a product without a
    [firebase_id]: whatever the predictions table holds, the row of such a
    product shows no days left and no depletion date, and counts as
    healthy.  (Training stores the prediction of such a product under its
    [id], where the page does not look.) *)
Theorem forecast_needs_firebase_id (request : HttpRequest) (d d' : DB)
    (ctx : Context) (row : ForecastRow) :
  inventory_forecasting_view request d = (Ok ctx, d') ->
  In row (forecast_data ctx) ->
  (forall p, In p (products d) -> Product.id p = row_product_id row ->
             Product.firebase_id p = None) ->
  row_days_left row = DaysNA
  /\ row_depletion_date row = "N/A"
  /\ row_status row = "healthy".
Proof.
  intros H Hin Hnone. apply forecast_view_cases in H.
  destruct H as (_ & ctx' & Hctx & [[Hrows _] | (new & Hrows & Hall & _)]);
    injection Hctx as <-; rewrite Hrows in Hin; [destruct Hin|].
  apply (proj1 (sort_rows_in _ _)) in Hin.
  destruct (Forall2_right _ _ _ _ Hall Hin) as (p & Hp & Ht).
  apply filter_In in Hp. destruct Hp as [Hp _].
  destruct Ht as (u & Hu & Hid & Hdays & Hdate & Hstatus).
  assert (Hfb : Product.firebase_id p = None)
    by (apply Hnone; [exact Hp | symmetry; exact Hid]).
  assert (Hzero : u = 0%Q).
  { destruct Hu as [(prediction & Hget & _) | [_ Hu]]; [|exact Hu].
    rewrite Hfb in Hget. apply objects_get_in in Hget.
    destruct Hget as [_ Hget]. discriminate Hget. }
  subst u. cbv zeta in *.
  unfold days_left_of in *. change (Qltb 0 0) with false in *.
  split; [exact Hdays|]. split; [exact Hdate | exact Hstatus].
Qed.

(** ** More on [train_forecasting_model] *)

Lemma filter_map_replace {A : Type} (f : A -> bool) (row : A) (l : list A) :
  f row = true ->
  filter f (map (fun r => if f r then row else r) l)
  = map (fun _ => row) (filter f l).
Proof.
  intro Hrow. induction l as [|x l IH]; [reflexivity|]. cbn [map filter].
  destruct (f x) eqn:E.
  - rewrite Hrow. cbn [map]. rewrite IH. reflexivity.
  - rewrite E. exact IH.
Qed.

(** After [update_or_create] the key has one row, the one written. *)
Lemma update_or_create_single {A : Type} (model : table)
    (same_key : A -> bool) (row : A) (rows rows' : list A) :
  same_key row = true ->
  update_or_create model same_key row rows = Ok rows' ->
  filter same_key rows' = [row].
Proof.
  intros Hrow H. unfold update_or_create in H.
  destruct (filter same_key rows) as [|x [|y l]] eqn:E; [| |discriminate];
    injection H as <-.
  - rewrite filter_app, E. cbn [filter]. rewrite Hrow. reflexivity.
  - rewrite (filter_map_replace _ _ _ Hrow), E. reflexivity.
Qed.

Lemma upsert_keeps_single (key : string) (rows : list MLPrediction.t)
    (row : MLPrediction.t) :
  List.length (predictions_for key rows) = 1%nat ->
  List.length (predictions_for key (upsert rows row)) = 1%nat.
Proof.
  intro H.
  destruct (String.eqb_spec (MLPrediction.product_firebase_id row) key)
    as [E|E].
  - subst key. unfold upsert, predictions_for in *.
    rewrite existsb_filter.
    destruct (filter (same_prediction (MLPrediction.product_firebase_id row))
                     rows) as [|x l] eqn:Ef; [discriminate H|].
    rewrite filter_map_replace
      by (unfold same_prediction; apply String.eqb_refl).
    rewrite Ef, length_map. exact H.
  - rewrite (upsert_other _ _ _ E). exact H.
Qed.

Lemma fold_upsert_keeps_single (key : string)
    (written : list MLPrediction.t) :
  forall rows : list MLPrediction.t,
    List.length (predictions_for key rows) = 1%nat ->
    List.length (predictions_for key (fold_left upsert written rows)) = 1%nat.
Proof.
  induction written as [|w written IH]; intros rows H; [exact H|].
  cbn [fold_left]. apply IH. apply upsert_keeps_single. exact H.
Qed.

(** A run of the loop that ends without exception leaves one row under the
    key of each product it processed. *)
Lemma train_loop_single (ps : list Product.t) :
  forall (n n' : Z) (d d' : DB),
    train_loop ps n d = (Ok n', d') ->
    forall p, In p (filter (eligible (sales d)) ps) ->
      List.length (predictions_for (product_key p) (ml_predictions d'))
      = 1%nat.
Proof.
  induction ps as [|p0 ps IH]; intros n n' d d' H p Hp; [destruct Hp|].
  cbn [train_loop] in H. unfold_train H.
  destruct (fault _) eqn:F1 in H; [discriminate|].
  assert (Hel : eligible (sales d) p0
                = negb (Z.of_nat (List.length (sales_of p0 (sales d))) <? 3))
    by reflexivity.
  cbn [filter] in Hp. rewrite Hel in Hp.
  unfold product_sales in H. fold (sales_of p0 (sales d)) in H.
  destruct (Z.of_nat (List.length (sales_of p0 (sales d))) <? 3) eqn:E3;
    cbn [negb] in Hp.
  - exact (IH _ _ _ _ H p Hp).
  - destruct (fault _) eqn:F2 in H; [discriminate|].
    change (filter (sale_of p0) (sales d)) with (sales_of p0 (sales d)) in H.
    destruct (sales_of p0 (sales d)) as [|s0 sd] eqn:Esd.
    { simpl in E3. discriminate. }
    rewrite <- Esd in H.
    destruct (order_dates (sales_of p0 (sales d))) as [|t ts] eqn:Eod;
      [discriminate|].
    destruct (fault _) eqn:F3 in H; [discriminate|].
    destruct (update_or_create _ _ _ _) as [rows'|e] eqn:Eu in H;
      [|discriminate].
    destruct Hp as [<- | Hp].
    + apply update_or_create_single in Eu;
        [|unfold same_prediction; apply String.eqb_refl].
      apply train_loop_ok in H.
      cbn [sales set_ml_predictions ml_predictions] in H.
      destruct H as (_ & -> & _).
      apply fold_upsert_keeps_single.
      change (MLPrediction.product_firebase_id
                (prediction_row p0 (sales_of p0 (sales d)) (py_min t ts)))
        with (product_key p0) in Eu.
      unfold predictions_for. rewrite Eu. reflexivity.
    + apply (IH _ _ _ _ H p). exact Hp.
Qed.

(** What a successful training run did, step by step. *)
Lemma train_run (request : HttpRequest) (d d' : DB) (resp : JsonResponse) :
  train_forecasting_model request d = (Ok resp, d') ->
  dict_lookup "success" resp = Some (JBool true) ->
  let sales_count := Z.of_nat (List.length (sales d)) in
  let products_count := Z.of_nat (List.length (products d)) in
  exists predictions_created d1,
    10 <= sales_count
    /\ train_loop (products d) 0 d = (Ok predictions_created, d1)
    /\ ml_predictions d' = ml_predictions d1
    /\ update_or_create TMLModel
         (fun r => String.eqb (MLModel.name r) "inventory_forecasting")
         (MLModel.mk "inventory_forecasting" true (Some now) sales_count
                     products_count predictions_created 85
                     "Linear Regression (Moving Average)" 90)
         (ml_models d1)
       = Ok (ml_models d')
    /\ dict_lookup "stats" resp
       = Some (JObj [("sales_records", JInt sales_count);
                     ("products_analyzed", JInt products_count);
                     ("predictions_created", JInt predictions_created)]).
Proof.
  intros H Hs. cbv zeta.
  unfold train_forecasting_model, train_forecasting_body in H.
  unfold_train H.
  destruct (fault _) eqn:F1 in H.
  { injection H as <- <-. discriminate Hs. }
  destruct (Z.of_nat (List.length (sales d)) <? 10) eqn:E.
  { injection H as <- <-. discriminate Hs. }
  destruct (fault _) eqn:F2 in H.
  { injection H as <- <-. discriminate Hs. }
  destruct (train_loop (products d) 0 d) as [[n|e] d1] eqn:Hloop.
  2:{ injection H as <- <-. discriminate Hs. }
  exists n, d1. split; [apply Z.ltb_ge; exact E|]. split; [reflexivity|].
  cbn [MLModel.name] in H.
  destruct (fault _) eqn:F3 in H.
  { injection H as <- <-. discriminate Hs. }
  destruct (update_or_create _ _ _ _) as [rows'|e] eqn:Eu in H.
  2:{ injection H as <- <-. discriminate Hs. }
  cbn [AuditTrail.action] in H.
  destruct (fault _) eqn:F4 in H; injection H as <- <-;
    cbn [ml_predictions ml_models set_ml_models set_audit_trail];
    repeat split; first [exact Eu | reflexivity].
Qed.

(** X11.  Training leaves one prediction per product it processed: after a
    successful run the key of every product with at least three sales
    records holds exactly one row of the predictions table, so that the
    lookup of that key cannot be ambiguous. *)
Theorem train_one_prediction_per_product (request : HttpRequest) (d d' : DB)
    (resp : JsonResponse) (p : Product.t) :
  train_forecasting_model request d = (Ok resp, d') ->
  dict_lookup "success" resp = Some (JBool true) ->
  In p (products d) ->
  (3 <= List.length (sales_of p (sales d)))%nat ->
  exists row,
    predictions_for (product_key p) (ml_predictions d') = [row]
    /\ objects_get TMLPrediction (same_prediction (product_key p))
                   (ml_predictions d') = Ok row.
Proof.
  intros H Hs Hin Hthree.
  destruct (train_run _ _ _ _ H Hs) as (n & d1 & _ & Hloop & Hpred & _).
  assert (Hone : List.length (predictions_for (product_key p)
                                              (ml_predictions d')) = 1%nat).
  { rewrite Hpred. apply (train_loop_single _ _ _ _ _ Hloop).
    apply filter_In. split; [exact Hin|].
    unfold eligible. apply negb_true_iff, Z.ltb_ge. lia. }
  destruct (predictions_for (product_key p) (ml_predictions d'))
    as [|row [|row' l]] eqn:E; try discriminate Hone.
  exists row. split; [reflexivity|]. apply objects_get_filter. exact E.
Qed.

(** X12.  A successful training run records itself: the model row named
    [inventory_forecasting] is afterwards the only one of that name, marked
    trained at the instant of the run, and it holds the numbers the response
    reports: the sales records, the products, and the predictions stored,
    one for each product with at least three sales records. *)
Theorem train_records_the_run (request : HttpRequest) (d d' : DB)
    (resp : JsonResponse) :
  train_forecasting_model request d = (Ok resp, d') ->
  dict_lookup "success" resp = Some (JBool true) ->
  let sales_count := Z.of_nat (List.length (sales d)) in
  let products_count := Z.of_nat (List.length (products d)) in
  let predictions_created :=
    Z.of_nat (List.length (filter (eligible (sales d)) (products d))) in
  10 <= sales_count
  /\ dict_lookup "stats" resp
     = Some (JObj [("sales_records", JInt sales_count);
                   ("products_analyzed", JInt products_count);
                   ("predictions_created", JInt predictions_created)])
  /\ objects_get TMLModel
       (fun m => String.eqb (MLModel.name m) "inventory_forecasting")
       (ml_models d')
     = Ok (MLModel.mk "inventory_forecasting" true (Some now) sales_count
                      products_count predictions_created 85
                      "Linear Regression (Moving Average)" 90).
Proof.
  intros H Hs. cbv zeta.
  destruct (train_run _ _ _ _ H Hs)
    as (n & d1 & Hten & Hloop & _ & Hmodel & Hstats).
  apply train_loop_ok in Hloop. destruct Hloop as (Hn & _).
  cbn [Z.add] in Hn. subst n.
  split; [exact Hten|]. split; [exact Hstats|].
  apply objects_get_filter.
  apply (update_or_create_single _ _ _ _ _ eq_refl Hmodel).
Qed.

Lemma train_loop_state (ps : list Product.t) :
  forall (n : Z) (d d' : DB) (r : result Z),
    train_loop ps n d = (r, d') ->
    d' = set_ml_predictions (ml_predictions d') d.
Proof.
  induction ps as [|p ps IH]; intros n d d' r H.
  - cbn in H. unfold ret in H. injection H as _ <-.
    symmetry. apply set_ml_predictions_same.
  - cbn [train_loop] in H. unfold_train H.
    destruct (fault _) in H;
      [injection H as _ <-; symmetry; apply set_ml_predictions_same|].
    destruct (Z.of_nat (List.length (product_sales p d)) <? 3);
      [exact (IH _ _ _ _ H)|].
    destruct (fault _) in H;
      [injection H as _ <-; symmetry; apply set_ml_predictions_same|].
    destruct (product_sales p d) as [|s0 sd]; [exact (IH _ _ _ _ H)|].
    destruct (order_dates (s0 :: sd));
      [injection H as _ <-; symmetry; apply set_ml_predictions_same|].
    destruct (fault _) in H;
      [injection H as _ <-; symmetry; apply set_ml_predictions_same|].
    destruct (update_or_create _ _ _ _) in H;
      [|injection H as _ <-; symmetry; apply set_ml_predictions_same].
    apply IH in H. rewrite H at 1. reflexivity.
Qed.

Lemma train_frame (request : HttpRequest) (d d' : DB)
    (r : result JsonResponse) :
  train_forecasting_model request d = (r, d') ->
  products d' = products d
  /\ sales d' = sales d
  /\ recipes d' = recipes d
  /\ recipe_ingredients d' = recipe_ingredients d
  /\ waste_logs d' = waste_logs d.
Proof.
  intro H.
  unfold train_forecasting_model, train_forecasting_body in H.
  unfold_train H.
  destruct (fault _) in H; [injection H as _ <-; repeat split|].
  destruct (Z.of_nat (List.length (sales d)) <? 10);
    [injection H as _ <-; repeat split|].
  destruct (fault _) in H; [injection H as _ <-; repeat split|].
  destruct (train_loop (products d) 0 d) as [[n|e] d1] eqn:Hloop;
    apply train_loop_state in Hloop.
  - repeat (case_split; tidy); tidy; rewrite Hloop; repeat split.
  - injection H as _ <-. rewrite Hloop. repeat split.
Qed.

(** X13.  Training writes to the predictions, the model record and the audit
    trail only: whatever the outcome, products, sales, recipes, recipe
    ingredients and waste logs are as they were. *)
Theorem train_keeps_the_stock (request : HttpRequest) (d d' : DB)
    (r : result JsonResponse) :
  train_forecasting_model request d = (r, d') ->
  products d' = products d
  /\ sales d' = sales d
  /\ recipes d' = recipes d
  /\ recipe_ingredients d' = recipe_ingredients d
  /\ waste_logs d' = waste_logs d.
Proof. exact (train_frame request d d' r). Qed.

(** ** [delete_product_view] and [delete_recipe_api] *)

Section RemovalProperties.

Context {dr : Driver}.

Ltac unfold_removal H :=
  unfold id_or_productId, data_get, log_audit, AuditTrail_create, Product_get,
    Product_delete, Recipe_get, RecipeIngredient_delete, Recipe_delete in H;
  unfold try_except, bind, ret, raise, orm, query, deleting, Exception in H.

Lemma delete_product_cases (request : HttpRequest) (d d' : DB)
    (r : result JsonResponse) :
  delete_product_view request d = (r, d') ->
  (exists kv product resp,
      json_loads (body request) = Ok (JObj kv)
      /\ truthy (named_product kv) = true
      /\ objects_get TProduct
           (product_matches (lookup_text (named_product kv))) (products d)
         = Ok product
      /\ r = Ok resp
      /\ succeeded resp
      /\ dict_lookup "message" resp
         = Some (JStr ("Product " ++ Product.name product
                         ++ " deleted successfully!"))
      /\ products d' = delete_row product (products d)
      /\ set_audit_trail (audit_trail d) d'
         = set_products (delete_row product (products d)) d)
  \/ (exists m, r = Ok (failure m) /\ d' = d).
Proof.
  unfold delete_product_view, delete_product_body. intro H.
  unfold_removal H.
  repeat (case_split; tidy); tidy;
    try (right; eexists; split; reflexivity).
  all: left.
  all: eexists _, _, _; unfold named_product, succeeded.
  all: repeat match goal with
         | Ht : truthy _ = _ |- _ => rewrite Ht
         end.
  all: split; [reflexivity|].
  all: split; [first [reflexivity | apply negb_false_iff; assumption]|].
  all: split; [eassumption|].
  all: repeat split.
Qed.

(** X14.  Deleting a product is all or nothing, and removes the product
    the request names and no other.  Unless the answer reports success the
    database is as it was.  After a success the body of the request was a
    JSON object that names an identifier, its ['id'] or else its
    ['productId']; exactly one row of the products table had that
    identifier as its [firebase_id] or as its [id]; and the rows of the
    products table are now those that do not have the primary key of that
    row.  Its sales, the recipes and recipe ingredients that name it, the
    waste logs and the predictions all stay. *)
Theorem delete_product_removes_it (request : HttpRequest) (d d' : DB)
    (r : result JsonResponse) :
  delete_product_view request d = (r, d') ->
  exists resp,
    r = Ok resp
    /\ (~ succeeded resp -> d' = d)
    /\ (succeeded resp ->
        exists kv product,
          json_loads (body request) = Ok (JObj kv)
          /\ truthy (named_product kv) = true
          /\ filter (product_matches (lookup_text (named_product kv)))
                    (products d) = [product]
          /\ (forall row, In row (products d') <->
                          In row (products d)
                          /\ Product.id row <> Product.id product)
          /\ sales d' = sales d
          /\ recipes d' = recipes d
          /\ recipe_ingredients d' = recipe_ingredients d
          /\ waste_logs d' = waste_logs d
          /\ ml_predictions d' = ml_predictions d).
Proof.
  intro H. apply delete_product_cases in H.
  destruct H as [(kv & product & resp & Hkv & Ht & Hget & -> & Hs & _ & Hp & Hd)
                | (m & -> & ->)].
  - exists resp. split; [reflexivity|]. split; [intro Hn; contradiction|].
    intros _. exists kv, product.
    split; [exact Hkv|]. split; [exact Ht|].
    split; [apply objects_get_filter in Hget; exact Hget|].
    split.
    + intro row. rewrite Hp. unfold delete_row. rewrite filter_In.
      rewrite negb_true_iff, String.eqb_neq. reflexivity.
    + apply (f_equal sales) in Hd as Hsales.
      apply (f_equal recipes) in Hd as Hrecipes.
      apply (f_equal recipe_ingredients) in Hd as Hingredients.
      apply (f_equal waste_logs) in Hd as Hwaste.
      apply (f_equal ml_predictions) in Hd as Hpred.
      repeat split; assumption.
  - exists (failure m). split; [reflexivity|]. split; [reflexivity|].
    intro Hs. discriminate Hs.
Qed.

Lemma filter_after_delete (v : string) (product : Product.t)
    (rows : list Product.t) :
  filter (product_matches v) rows = [product] ->
  filter (product_matches v) (delete_row product rows) = [].
Proof.
  intro Hf. unfold delete_row.
  destruct (filter (product_matches v) (filter _ rows)) as [|x l] eqn:E;
    [reflexivity|].
  assert (Hx : In x (filter (product_matches v)
                       (filter (fun r => negb (String.eqb (Product.id r)
                                                          (Product.id product)))
                               rows)))
    by (rewrite E; left; reflexivity).
  apply filter_In in Hx. destruct Hx as [Hx Hm].
  apply filter_In in Hx. destruct Hx as [Hx Hid].
  assert (Hp : In x (filter (product_matches v) rows))
    by (apply filter_In; split; assumption).
  rewrite Hf in Hp. destruct Hp as [<- | []].
  rewrite String.eqb_refl in Hid. discriminate Hid.
Qed.

(** X15.  A product is deleted once: after a successful deletion the same
    request is answered with a failure and changes nothing, and when the
    driver answers the lookup the failure is that the product is not
    found. *)
Theorem delete_product_twice (request : HttpRequest) (d d1 d2 : DB)
    (resp : JsonResponse) (r : result JsonResponse) :
  delete_product_view request d = (Ok resp, d1) ->
  succeeded resp ->
  delete_product_view request d1 = (r, d2) ->
  exists m,
    r = Ok (failure m) /\ d2 = d1
    /\ ((forall c, fault c = None) -> m = "Product not found").
Proof.
  intros H1 Hs H2. apply delete_product_cases in H1.
  destruct H1 as [(kv & product & resp' & Hload & Htruthy & Hget & Hr & _ & _
                    & Hp & _)
                 | (m & Hr & _)].
  2:{ injection Hr as ->. discriminate Hs. }
  apply objects_get_filter in Hget.
  apply filter_after_delete in Hget. rewrite <- Hp in Hget.
  unfold delete_product_view, delete_product_body in H2.
  unfold_removal H2. rewrite Hload in H2. cbn beta iota in H2.
  unfold named_product in Htruthy, Hget.
  destruct (truthy (dict_get kv "id" JNull)) eqn:Eid;
    cbn beta iota in H2, Htruthy, Hget;
    rewrite Htruthy in H2; cbn [negb] in H2; cbn beta iota in H2;
    unfold objects_get in H2; rewrite Hget in H2.
  all: destruct (fault _) as [e|] eqn:F in H2.
  all: try (pose proof (fault_class _ _ F) as Hc;
            unfold is_does_not_exist in H2; rewrite Hc in H2;
            injection H2 as <- <-; eexists; split; [reflexivity|];
            split; [reflexivity|]; intro Hf; rewrite Hf in F;
            discriminate F).
  all: cbn in H2; injection H2 as <- <-; eexists; split; [reflexivity|];
    split; reflexivity.
Qed.

Lemma recipe_found_functional (d : DB) (recipe_id : string)
    (recipe recipe' : Recipe.t) :
  recipe_found d recipe_id recipe -> recipe_found d recipe_id recipe' ->
  recipe' = recipe.
Proof.
  intros [H | [Hn H]] [H' | [Hn' H']].
  - congruence.
  - apply objects_get_filter in H. congruence.
  - apply objects_get_filter in H'. congruence.
  - congruence.
Qed.

Lemma filter_swap {A : Type} (f g : A -> bool) (l : list A) :
  filter f (filter g l) = filter g (filter f l).
Proof.
  induction l as [|x l IH]; [reflexivity|]. cbn [filter].
  destruct (f x) eqn:Ef; destruct (g x) eqn:Eg; cbn [filter];
    rewrite ?Ef, ?Eg, IH; reflexivity.
Qed.

(** X16.  Deleting a product does not touch the recipes that use it: a
    recipe with a kept ingredient that named the deleted product, and no
    other, is still found afterwards, and the servings reported for it are
    zero at most. *)
Theorem deleted_product_leaves_no_servings (request : HttpRequest)
    (d d1 d2 : DB) (resp : JsonResponse) (kv : list (string * json))
    (product : Product.t) (product_firebase_id recipe_id : string)
    (recipe : Recipe.t) (i : RecipeIngredient.t) (m : Z) :
  delete_product_view request d = (Ok resp, d1) ->
  succeeded resp ->
  json_loads (body request) = Ok (JObj kv) ->
  objects_get TProduct (product_matches (lookup_text (named_product kv)))
              (products d) = Ok product ->
  recipe_found d recipe_id recipe ->
  In i (recipe_ingredients d) ->
  ingredient_of recipe i = true ->
  kept i = true ->
  ingredient_products d i = [product] ->
  calculate_max_servings product_firebase_id recipe_id d1
  = (Ok (Some m), d2) ->
  recipe_found d1 recipe_id recipe /\ m <= 0.
Proof.
  intros Hdel Hs Hload Hget Hfound Hin Hof Hkept Hnames Hcalc.
  apply delete_product_cases in Hdel.
  destruct Hdel as [(kv' & product' & resp' & Hload' & _ & Hget' & _ & _ & _
                      & Hp & Hd)
                   | (msg & Hr & _)].
  2:{ injection Hr as ->. discriminate Hs. }
  rewrite Hload in Hload'. injection Hload' as <-.
  rewrite Hget in Hget'. injection Hget' as <-.
  apply (f_equal recipes) in Hd as Hrecipes.
  apply (f_equal recipe_ingredients) in Hd as Hingredients.
  cbn [recipes recipe_ingredients set_audit_trail set_products]
    in Hrecipes, Hingredients.
  assert (Hfound1 : recipe_found d1 recipe_id recipe).
  { unfold recipe_found in *. rewrite Hrecipes. exact Hfound. }
  split; [exact Hfound1|].
  apply max_servings_cases in Hcalc.
  destruct Hcalc as (_ & answer & Ha & Hm). injection Ha as <-.
  destruct (Hm m eq_refl) as (recipe' & Hfound' & ->).
  rewrite (recipe_found_functional _ _ _ _ Hfound1 Hfound').
  assert (Hgone : ingredient_products d1 i = []).
  { unfold ingredient_products in *. rewrite Hp. unfold delete_row.
    rewrite filter_swap, Hnames. cbn [filter].
    rewrite String.eqb_refl. reflexivity. }
  assert (Hzero : servings_of d1 i = 0).
  { unfold servings_of. rewrite Hgone. reflexivity. }
  rewrite <- Hzero. apply min_or_zero_le. apply in_map.
  apply filter_In. split; [|exact Hkept].
  apply filter_In. split; [rewrite Hingredients; exact Hin | exact Hof].
Qed.

Lemma delete_recipe_cases (request : HttpRequest) (d d' : DB)
    (r : result JsonResponse) :
  delete_recipe_api request d = (r, d') ->
  (exists kv recipe resp,
      json_loads (body request) = Ok (JObj kv)
      /\ objects_get TRecipe
           (recipe_matches (lookup_text (dict_get kv "recipeId" JNull)))
           (recipes d)
         = Ok recipe
      /\ r = Ok resp
      /\ succeeded resp
      /\ set_audit_trail (audit_trail d) d'
         = set_recipes
             (filter (fun x => negb (String.eqb (Recipe.id x)
                                                (Recipe.id recipe)))
                     (recipes d))
             (set_recipe_ingredients
                (filter (fun i => negb (ingredient_of recipe i))
                        (recipe_ingredients d)) d))
  \/ (exists m,
        r = Ok (failure m)
        /\ (d' = d
            \/ exists recipe,
                In recipe (recipes d)
                /\ d' = set_recipe_ingredients
                          (filter (fun i => negb (ingredient_of recipe i))
                                  (recipe_ingredients d)) d)).
Proof.
  unfold delete_recipe_api, delete_recipe_body. intro H.
  unfold_removal H.
  repeat (case_split; tidy); tidy;
    try (right; eexists; split; [reflexivity|]; left; reflexivity).
  all: try (right; eexists; split; [reflexivity|]; right; eexists;
            split; [|reflexivity];
            match goal with
            | Hg : objects_get _ _ _ = Ok _ |- _ =>
                apply (objects_get_in _ _ _ _ Hg)
            end).
  all: left; eexists _, _, _; unfold succeeded.
  all: split; [reflexivity|].
  all: split; [eassumption|].
  all: repeat split.
Qed.

(** X17.  Deleting a recipe removes the recipe the request names together
    with every ingredient row that refers to it by [recipe_id] or by
    [recipe_firebase_id], and nothing else: the other recipes and
    ingredient rows, the products and the sales stay.  After a success the
    body of the request was a JSON object with a ['recipeId'], and exactly
    one row of the recipes table had that identifier as its [id] or as its
    [firebase_id]: that row is the recipe removed.  When the answer is a
    failure the recipe itself is still there. *)
Theorem delete_recipe_removes_ingredients (request : HttpRequest) (d d' : DB)
    (r : result JsonResponse) :
  delete_recipe_api request d = (r, d') ->
  exists resp,
    r = Ok resp
    /\ products d' = products d
    /\ sales d' = sales d
    /\ (~ succeeded resp -> recipes d' = recipes d)
    /\ (succeeded resp ->
        exists kv recipe,
          json_loads (body request) = Ok (JObj kv)
          /\ truthy (dict_get kv "recipeId" JNull) = true
          /\ filter (recipe_matches
                       (lookup_text (dict_get kv "recipeId" JNull)))
                    (recipes d) = [recipe]
          /\ (forall x, In x (recipes d') <->
                        In x (recipes d) /\ Recipe.id x <> Recipe.id recipe)
          /\ (forall i, In i (recipe_ingredients d') <->
                        In i (recipe_ingredients d)
                        /\ ingredient_of recipe i = false)).
Proof.
  intro H.
  assert (Hasked : forall resp, r = Ok resp -> succeeded resp ->
            exists kv, json_loads (body request) = Ok (JObj kv)
                       /\ truthy (dict_get kv "recipeId" JNull) = true).
  { intros resp -> Hs. revert H.
    unfold delete_recipe_api, delete_recipe_body, data_get.
    unfold try_except at 1, bind at 1, Exception.
    destruct (json_loads (body request)) as [data|e] eqn:Hload;
      [|intro H; injection H as <- _; discriminate Hs].
    destruct data as [| | | | | |kv];
      try (unfold bind, raise, ret; intro H; injection H as <- _;
           discriminate Hs).
    exists kv. split; [reflexivity|].
    destruct (truthy (dict_get kv "recipeId" JNull)) eqn:Ht; [reflexivity|].
    revert H. unfold bind at 1, ret at 1. rewrite Ht. cbn [negb].
    unfold ret. intro H. injection H as <- _. discriminate Hs. }
  apply delete_recipe_cases in H.
  destruct H as [(kv & recipe & resp & Hkv & Hget & -> & Hs & Hd)
                | (m & -> & [-> | (recipe & _ & ->)])].
  - exists resp. split; [reflexivity|].
    apply (f_equal products) in Hd as Hproducts.
    apply (f_equal sales) in Hd as Hsales.
    apply (f_equal recipes) in Hd as Hrecipes.
    apply (f_equal recipe_ingredients) in Hd as Hingredients.
    cbn [products sales recipes recipe_ingredients set_audit_trail
         set_recipes set_recipe_ingredients]
      in Hproducts, Hsales, Hrecipes, Hingredients.
    split; [exact Hproducts|]. split; [exact Hsales|].
    split; [intro Hn; contradiction|]. intros _. exists kv, recipe.
    split; [exact Hkv|].
    split; [destruct (Hasked resp eq_refl Hs) as (kv' & Hkv' & Ht');
            rewrite Hkv in Hkv'; injection Hkv' as <-; exact Ht'|].
    split; [apply objects_get_filter in Hget; exact Hget|]. split.
    + intro x. rewrite Hrecipes, filter_In, negb_true_iff, String.eqb_neq.
      reflexivity.
    + intro i. rewrite Hingredients, filter_In, negb_true_iff. reflexivity.
  - exists (failure m). repeat split; try reflexivity.
    intro Hs. discriminate Hs.
  - exists (failure m). repeat split; try reflexivity.
    intro Hs. discriminate Hs.
Qed.

Lemma no_recipe_after_delete (v : string) (recipe : Recipe.t)
    (rows : list Recipe.t) (f : Recipe.t -> bool) :
  filter (recipe_matches v) rows = [recipe] ->
  (forall x, f x = true -> recipe_matches v x = true) ->
  filter f (filter (fun x => negb (String.eqb (Recipe.id x)
                                               (Recipe.id recipe))) rows)
  = [].
Proof.
  intros Hf Himp.
  destruct (filter f (filter _ rows)) as [|x l] eqn:E; [reflexivity|].
  assert (Hx : In x (filter f
                       (filter (fun x => negb (String.eqb (Recipe.id x)
                                                          (Recipe.id recipe)))
                               rows)))
    by (rewrite E; left; reflexivity).
  apply filter_In in Hx. destruct Hx as [Hx Hm].
  apply filter_In in Hx. destruct Hx as [Hx Hid].
  assert (Hp : In x (filter (recipe_matches v) rows)).
  { apply filter_In. split; [exact Hx | apply Himp; exact Hm]. }
  rewrite Hf in Hp. destruct Hp as [<- | []].
  rewrite String.eqb_refl in Hid. discriminate Hid.
Qed.

(** X18.  A deleted recipe has no servings: after a successful deletion,
    [calculate_max_servings] called with the identifier the request named
    answers [None], whatever the driver does. *)
Theorem deleted_recipe_has_no_servings (request : HttpRequest) (d d1 : DB)
    (resp : JsonResponse) (kv : list (string * json))
    (product_firebase_id : string) :
  delete_recipe_api request d = (Ok resp, d1) ->
  succeeded resp ->
  json_loads (body request) = Ok (JObj kv) ->
  calculate_max_servings product_firebase_id
    (lookup_text (dict_get kv "recipeId" JNull)) d1
  = (Ok None, d1).
Proof.
  intros Hdel Hs Hload. apply delete_recipe_cases in Hdel.
  destruct Hdel as [(kv' & recipe & resp' & Hload' & Hget & _ & _ & Hd)
                   | (m & Hr & _)].
  2:{ injection Hr as ->. discriminate Hs. }
  rewrite Hload in Hload'. injection Hload' as <-.
  apply (f_equal recipes) in Hd as Hrecipes.
  cbn [recipes set_audit_trail set_recipes] in Hrecipes.
  apply objects_get_filter in Hget.
  set (v := lookup_text (dict_get kv "recipeId" JNull)) in *.
  assert (Hid : filter (fun x => String.eqb (Recipe.id x) v) (recipes d1)
                = []).
  { rewrite Hrecipes. apply (no_recipe_after_delete v); [exact Hget|].
    intros x Hx. unfold recipe_matches. rewrite Hx. reflexivity. }
  assert (Hfb : filter (fun x => String.eqb (Recipe.firebase_id x) v)
                       (recipes d1) = []).
  { rewrite Hrecipes. apply (no_recipe_after_delete v); [exact Hget|].
    intros x Hx. unfold recipe_matches. rewrite Hx. apply orb_true_r. }
  destruct (calculate_max_servings product_firebase_id v d1) as [r d2] eqn:H.
  destruct (max_servings_cases _ _ _ _ _ H) as (-> & answer & -> & Hm).
  destruct answer as [m|]; [|reflexivity].
  destruct (Hm m eq_refl) as (recipe' & [Hf | [_ Hf]] & _);
    apply objects_get_filter in Hf; congruence.
Qed.

(** X19.  Deleting a recipe is not all or nothing: when the driver removes
    the ingredient rows and then refuses to remove the recipe, the answer
    is a failure with the driver's message, and the recipe stays without
    the ingredient rows that referred to it. *)
Theorem delete_recipe_failure_after_ingredients (request : HttpRequest)
    (d : DB) (kv : list (string * json)) (recipe : Recipe.t) (e : PyExn) :
  json_loads (body request) = Ok (JObj kv) ->
  truthy (dict_get kv "recipeId" JNull) = true ->
  fault (mkCall TRecipe KGet (lookup_text (dict_get kv "recipeId" JNull)))
  = None ->
  objects_get TRecipe
    (recipe_matches (lookup_text (dict_get kv "recipeId" JNull))) (recipes d)
  = Ok recipe ->
  refuses TRecipeIngredient (Recipe.id recipe) = None ->
  refuses TRecipe (Recipe.id recipe) = Some e ->
  delete_recipe_api request d
  = (Ok (failure (exc_str e)),
     set_recipe_ingredients
       (filter (fun i => negb (ingredient_of recipe i))
               (recipe_ingredients d)) d).
Proof.
  intros Hload Hid Fget Hget Ring Rrec.
  unfold delete_recipe_api, delete_recipe_body.
  unfold data_get, log_audit, AuditTrail_create, Recipe_get,
    RecipeIngredient_delete, Recipe_delete.
  unfold try_except, bind, ret, raise, orm, query, deleting, Exception.
  rewrite Hload. cbn beta iota. rewrite Hid. cbn [negb]. cbn beta iota.
  rewrite Fget, Hget. cbn beta iota. rewrite Ring, Rrec. reflexivity.
Qed.

End RemovalProperties.

(** ** Training, then forecasting *)

(** ** More on [add_waste_api] *)

(** X21.  A waste request that is well formed, names a product that is found
    and asks for a positive quantity within the usable counter succeeds as
    soon as the driver answers the lookup, the save and the insert.  The
    product keeps every field but the usable counter, and the waste log
    added holds the product's key ([firebase_id], or [id] when that is
    empty), its name and category, the quantity, the reason of the request
    or [Expired], the user's name and the instant of the request. *)
Theorem add_waste_records_the_loss (request : HttpRequest) (d : DB)
    (kv : list (string * json)) (q : Q) (product : Product.t) :
  asks request kv q ->
  truthy (dict_get kv "productId" JNull) = true ->
  finds d kv product ->
  (0 < q)%Q ->
  (q <= or0 (Product.inventory_b product))%Q ->
  fault (mkCall TProduct KGet (lookup_text (dict_get kv "productId" JNull)))
  = None ->
  fault (mkCall TProduct KSave (Product.id product)) = None ->
  fault (mkCall TWasteLog KCreate (product_key product)) = None ->
  let b := (or0 (Product.inventory_b product) - q)%Q in
  exists resp,
    fst (add_waste_api request d) = Ok resp
    /\ dict_lookup "success" resp = Some (JBool true)
    /\ dict_lookup "newInventoryB" resp = Some (JNum b)
    /\ products (snd (add_waste_api request d))
       = save_row (with_inventory_b b product) (products d)
    /\ Product.inventory_a (with_inventory_b b product)
       = Product.inventory_a product
    /\ waste_logs (snd (add_waste_api request d))
       = (waste_logs d
          ++ [WasteLog.mk (product_key product) (Product.name product) q
                          (dict_get kv "reason" (JStr "Expired")) now
                          (username (user request))
                          (Product.category product)])%list.
Proof.
  intros [Hload Hq] Hid Hfinds Hpos Hle Fget Fsave Flog b.
  unfold finds in Hfinds.
  assert (Hguard : negb (truthy (dict_get kv "productId" JNull))
                   || Qle_bool q 0 = false).
  { rewrite Hid. cbn [negb orb].
    destruct (Qle_bool q 0) eqn:E; [|reflexivity].
    apply Qle_bool_iff in E. lra. }
  assert (Hstock : Qltb (or0 (Product.inventory_b product)) q = false)
    by (apply Qltb_ge; exact Hle).
  unfold add_waste_api, add_waste_body.
  unfold data_get, py_float, log_audit, AuditTrail_create, Product_get,
    Product_save, WasteLog_create.
  unfold try_except, bind, ret, raise, orm, query, Exception.
  rewrite Hload. cbn beta iota. rewrite Hq. cbn beta iota.
  rewrite Hguard, Fget, Hfinds. cbn beta iota.
  rewrite Hstock. cbn [with_inventory_b Product.id]. rewrite Fsave.
  cbn beta iota.
  cbn [WasteLog.product_firebase_id]. rewrite Flog. cbn beta iota.
  cbn [AuditTrail.action].
  destruct (fault (mkCall TAuditTrail KCreate "Waste Recorded"));
    cbn; eexists; repeat split; reflexivity.
Qed.

End Properties.

(** * Properties over binary64 *)

Section Binary64Properties.

Import Floats Binary64.

Context {rt : Runtime}.

Ltac case_split :=
  match goal with
  | H : context [match ?x with _ => _ end] |- _ => destruct x eqn:?
  | H : context [if ?x then _ else _] |- _ => destruct x eqn:?
  end.

Ltac tidy :=
  repeat match goal with
    | E : (_, _) = (_, _) |- _ =>
        first [injection E as ? ? | injection E as ? | clear E]; subst
    | E : Ok _ = Ok _ |- _ => injection E as ?; subst
    | E : Raise _ = Raise _ |- _ => injection E as ?; subst
    | E : Some _ = Some _ |- _ => injection E as ?; subst
    | E : Ok _ = Raise _ |- _ => discriminate E
    | E : Raise _ = Ok _ |- _ => discriminate E
    | E : Some _ = None |- _ => discriminate E
    | E : None = Some _ |- _ => discriminate E
    | E : true = false |- _ => discriminate E
    | E : false = true |- _ => discriminate E
    end.

(** The driver never answers a lookup with [DoesNotExist]. *)
Lemma fault_not_caught (c : orm_call) (e : PyExn) (model : table) :
  fault c = Some e -> is_does_not_exist model e = false.
Proof.
  intro F. apply fault_class in F. unfold is_does_not_exist.
  rewrite F. reflexivity.
Qed.

(** ** [int()] of a float *)

(** [int()] answers for the floats that stand for a number, with that
    number truncated toward zero. *)
Lemma py_int_truncates (x : float) (n : Z) :
  py_int x = Ok n <-> exists q, value x = Some q /\ n = truncation q.
Proof.
  unfold py_int, value, truncation.
  destruct (Prim2SF x) as [s|s| |s m e].
  - split.
    + intro H. injection H as <-. exists 0%Q. split; reflexivity.
    + intros (q & Hq & ->). injection Hq as <-. reflexivity.
  - split; [discriminate | intros (q & Hq & _); discriminate Hq].
  - split; [discriminate | intros (q & Hq & _); discriminate Hq].
  - assert (Hpos : 0 <= e \/ (e < 0 /\ 0 < 2 ^ (- e))).
    { destruct (Z.le_gt_cases 0 e); [left; assumption|].
      right. split; [assumption|]. apply Z.pow_pos_nonneg; lia. }
    assert (Hn : forall k : Z,
               (if 0 <=? e then k * 2 ^ e
                else Z.quot k (2 ^ (- e)))
               = Z.quot (Qnum (if 0 <=? e then inject_Z (k * 2 ^ e)
                               else Qmake k (Z.to_pos (2 ^ (- e)))))
                        (Zpos (Qden (if 0 <=? e then inject_Z (k * 2 ^ e)
                                     else Qmake k (Z.to_pos (2 ^ (- e))))))).
    { intro k. destruct Hpos as [He | [He Hp]].
      - apply Z.leb_le in He. rewrite He. cbn [inject_Z Qnum Qden].
        rewrite Z.quot_1_r. reflexivity.
      - apply Z.leb_gt in He. rewrite He. cbn [Qnum Qden].
        rewrite Z2Pos.id by exact Hp. reflexivity. }
    assert (Hs : (if s then
                    - (if 0 <=? e then Zpos m * 2 ^ e
                       else Z.quot (Zpos m) (2 ^ (- e)))
                  else (if 0 <=? e then Zpos m * 2 ^ e
                        else Z.quot (Zpos m) (2 ^ (- e))))
                 = (if 0 <=? e then (if s then Zneg m else Zpos m) * 2 ^ e
                    else Z.quot (if s then Zneg m else Zpos m) (2 ^ (- e)))).
    { destruct s; [|reflexivity].
      change (Zneg m) with (- Zpos m).
      destruct Hpos as [He | [He Hp]].
      - apply Z.leb_le in He. rewrite He, Z.mul_opp_l. reflexivity.
      - apply Z.leb_gt in He. rewrite He, Z.quot_opp_l by lia.
        reflexivity. }
    cbv zeta. rewrite Hs, Hn. split.
    + intro H. injection H as <-. eexists. split; reflexivity.
    + intros (q & Hq & ->). injection Hq as <-. reflexivity.
Qed.

(** Truncation is the floor of a number that is not negative. *)
Lemma truncation_floor (q : Q) : (0 <= q)%Q -> truncation q = Qfloor q.
Proof. exact (py_int_floor q). Qed.

(** ** [calculate_max_servings] *)

(** The ingredient loop never writes, and ends without exception exactly
    when every ingredient it keeps allows a number of servings, which it
    then appends in order. *)
Lemma servings_loop_spec (l : list RecipeIngredient.t) :
  forall (acc : list Z) (d : DB),
  exists r,
    servings_loop l acc d = (r, d)
    /\ forall out,
        r = Ok out
        <-> exists ns,
              Forall2 (allows d) (filter kept l) ns
              /\ out = (acc ++ ns)%list.
Proof.
  induction l as [|i l IH]; intros acc d.
  - exists (Ok acc). split; [reflexivity|]. intro out. split.
    + intro H. injection H as <-. exists []. split; [constructor|].
      rewrite app_nil_r. reflexivity.
    + intros (ns & Hall & ->). inversion Hall. rewrite app_nil_r.
      reflexivity.
  - cbn [servings_loop filter]. unfold kept at 1.
    destruct (String.eqb (ingredient_product_id i) ""
              || is_zero (or0 (RecipeIngredient.quantity_needed i))) eqn:Hs;
      cbn [negb]; [apply IH|].
    unfold bind at 1, try_except, bind, Product_get_firebase_id, orm, query,
      ret.
    destruct (fault (mkCall TProduct KGet (ingredient_product_id i)))
      as [e|] eqn:F.
    { rewrite (fault_not_caught _ _ _ F).
      exists (Raise e). split; [reflexivity|]. intro out.
      split; [discriminate|]. intros (ns & Hall & _).
      inversion Hall as [|? n ? ns' [Hf _] _]; subst.
      rewrite F in Hf. discriminate Hf. }
    unfold objects_get.
    change (filter (fun p => col_eqb (Product.firebase_id p)
                                     (ingredient_product_id i)) (products d))
      with (ingredient_products d i).
    destruct (ingredient_products d i) as [|p [|p' ps]] eqn:E.
    + cbn [is_does_not_exist exc_type table_eqb].
      destruct (IH (acc ++ [0])%list d) as (r & Hr & Hiff).
      exists r. split; [exact Hr|]. intro out. rewrite Hiff. split.
      * intros (ns & Hall & ->). exists (0 :: ns). split.
        -- constructor; [|exact Hall]. split; [exact F|].
           rewrite E. reflexivity.
        -- rewrite <- app_assoc. reflexivity.
      * intros (ns & Hall & ->).
        inversion Hall as [|? n ? ns' [_ Ha] Hall']; subst.
        rewrite E in Ha. subst n. exists ns'. split; [exact Hall'|].
        rewrite <- app_assoc. reflexivity.
    + unfold lift, max_for_this_ingredient.
      destruct (0 <? or0 (RecipeIngredient.quantity_needed i))%float eqn:Hpos.
      * destruct (py_int (or0 (Product.inventory_b p)
                          / or0 (RecipeIngredient.quantity_needed i))%float)
          as [n|e] eqn:Hint.
        -- destruct (IH (acc ++ [n])%list d) as (r & Hr & Hiff).
           exists r. split; [exact Hr|]. intro out. rewrite Hiff. split.
           ++ intros (ns & Hall & ->). exists (n :: ns). split.
              ** constructor; [|exact Hall]. split; [exact F|].
                 rewrite E. cbv zeta. rewrite Hpos. exact Hint.
              ** rewrite <- app_assoc. reflexivity.
           ++ intros (ns & Hall & ->).
              inversion Hall as [|? n' ? ns' [_ Ha] Hall']; subst.
              rewrite E in Ha. cbv zeta in Ha. rewrite Hpos, Hint in Ha.
              injection Ha as <-. exists ns'. split; [exact Hall'|].
              rewrite <- app_assoc. reflexivity.
        -- exists (Raise e). split; [reflexivity|]. intro out.
           split; [discriminate|]. intros (ns & Hall & _).
           inversion Hall as [|? n' ? ns' [_ Ha] _]; subst.
           rewrite E in Ha. cbv zeta in Ha. rewrite Hpos, Hint in Ha.
           discriminate Ha.
      * destruct (IH (acc ++ [0])%list d) as (r & Hr & Hiff).
        exists r. split; [exact Hr|]. intro out. rewrite Hiff. split.
        -- intros (ns & Hall & ->). exists (0 :: ns). split.
           ++ constructor; [|exact Hall]. split; [exact F|].
              rewrite E. cbv zeta. rewrite Hpos. reflexivity.
           ++ rewrite <- app_assoc. reflexivity.
        -- intros (ns & Hall & ->).
           inversion Hall as [|? n' ? ns' [_ Ha] Hall']; subst.
           rewrite E in Ha. cbv zeta in Ha. rewrite Hpos in Ha. subst n'.
           exists ns'. split; [exact Hall'|].
           rewrite <- app_assoc. reflexivity.
    + cbn [is_does_not_exist exc_type table_eqb].
      eexists. split; [reflexivity|]. intro out.
      split; [discriminate|]. intros (ns & Hall & _).
      inversion Hall as [|? n' ? ns' [_ Ha] _]; subst.
      rewrite E in Ha. exact (False_ind _ Ha).
Qed.

(** The lookup of the recipe: it never writes, and gives a recipe exactly
    when the driver answers and the identifier finds one. *)
Lemma recipe_lookup (recipe_id : string) (d : DB) :
  exists r,
    try_except (is_does_not_exist TRecipe)
      (bind (Recipe_get_id recipe_id) (fun recipe => ret (Some recipe)))
      (fun _ =>
         try_except (is_does_not_exist TRecipe)
           (bind (Recipe_get_firebase_id recipe_id)
                 (fun recipe => ret (Some recipe)))
           (fun _ => ret None)) d = (r, d)
    /\ forall recipe,
        r = Ok (Some recipe)
        <-> fault (mkCall TRecipe KGet recipe_id) = None
            /\ recipe_found d recipe_id recipe.
Proof.
  unfold try_except, bind, ret, Recipe_get_id, Recipe_get_firebase_id, orm,
    query, recipe_found.
  destruct (fault (mkCall TRecipe KGet recipe_id)) as [e|] eqn:F.
  { rewrite (fault_not_caught _ _ _ F). exists (Raise e).
    split; [reflexivity|]. intro recipe.
    split; [discriminate | intros [Hf _]; discriminate Hf]. }
  unfold objects_get.
  destruct (filter (fun r => String.eqb (Recipe.id r) recipe_id) (recipes d))
    as [|x [|y l]].
  - cbn [is_does_not_exist exc_type table_eqb].
    destruct (filter (fun r => String.eqb (Recipe.firebase_id r) recipe_id)
                     (recipes d)) as [|x [|y l]];
      cbn [is_does_not_exist exc_type table_eqb];
      eexists; (split; [reflexivity|]); intro recipe; split;
      try discriminate.
    + intros [_ [H | [_ H]]]; discriminate H.
    + intro H. injection H as <-. split; [reflexivity|].
      right. split; reflexivity.
    + intros [_ [H | [_ H]]]; [discriminate H|]. injection H as ->.
      reflexivity.
    + intros [_ [H | [_ H]]]; discriminate H.
  - eexists. split; [reflexivity|]. intro recipe. split.
    + intro H. injection H as <-. split; [reflexivity|]. left. reflexivity.
    + intros [_ [H | [H _]]]; [injection H as ->; reflexivity
                              | discriminate H].
  - cbn [is_does_not_exist exc_type table_eqb].
    eexists. split; [reflexivity|]. intro recipe.
    split; [discriminate|].
    intros [_ [H | [H _]]]; discriminate H.
Qed.

(** What [calculate_max_servings] answers: it never raises and never
    writes, and its answer is a number exactly when that number is the
    bottleneck of the recipe. *)
Lemma max_servings_spec (product_firebase_id recipe_id : string) (d : DB) :
  exists answer,
    calculate_max_servings product_firebase_id recipe_id d = (Ok answer, d)
    /\ forall m, answer = Some m <-> bottleneck d recipe_id m.
Proof.
  unfold calculate_max_servings.
  destruct (recipe_lookup recipe_id d) as (r & Hr & Hfound).
  unfold try_except at 1, bind at 1. rewrite Hr.
  unfold Exception, ret.
  destruct r as [[recipe|]|e].
  - destruct (proj1 (Hfound recipe) eq_refl) as [F Hrec].
    unfold bind at 1, RecipeIngredient_filter, orm, query.
    destruct (fault (mkCall TRecipeIngredient KFilter (Recipe.id recipe)))
      as [e|] eqn:F2.
    { exists None. split; [reflexivity|]. intro m.
      split; [discriminate|].
      intros (recipe' & ns & _ & Hrec' & F2' & _).
      assert (recipe' = recipe) as ->.
      { pose proof (proj2 (Hfound recipe') (conj F Hrec')) as H.
        injection H as ->. reflexivity. }
      rewrite F2 in F2'. discriminate F2'. }
    destruct (servings_loop_spec
                (filter (ingredient_of recipe) (recipe_ingredients d)) [] d)
      as (rl & Hl & Hiff).
    unfold bind. rewrite Hl.
    destruct rl as [out|e].
    + destruct (proj1 (Hiff out) eq_refl) as (ns & Hall & Hout).
      cbn [app] in Hout. subst out.
      eexists. split; [reflexivity|]. intro m. split.
      * intro H. injection H as <-. exists recipe, ns.
        repeat split; assumption.
      * intros (recipe' & ns' & _ & Hrec' & _ & Hall' & ->).
        assert (recipe' = recipe) as ->.
        { pose proof (proj2 (Hfound recipe') (conj F Hrec')) as H.
          injection H as ->. reflexivity. }
        assert (Ok ns = Ok ns') as H.
        { apply (proj2 (Hiff ns')). exists ns'.
          split; [exact Hall' | reflexivity]. }
        injection H as <-. reflexivity.
    + exists None. split; [reflexivity|]. intro m.
      split; [discriminate|].
      intros (recipe' & ns' & _ & Hrec' & _ & Hall' & _).
      assert (recipe' = recipe) as ->.
      { pose proof (proj2 (Hfound recipe') (conj F Hrec')) as H.
        injection H as ->. reflexivity. }
      assert (Raise e = Ok ns') as H.
      { apply (proj2 (Hiff ns')). exists ns'.
        split; [exact Hall' | reflexivity]. }
      discriminate H.
  - exists None. split; [reflexivity|]. intro m. split; [discriminate|].
    intros (recipe & ns & F & Hrec & _).
    pose proof (proj2 (Hfound recipe) (conj F Hrec)) as H. discriminate H.
  - exists None. split; [reflexivity|]. intro m. split; [discriminate|].
    intros (recipe & ns & F & Hrec & _).
    pose proof (proj2 (Hfound recipe) (conj F Hrec)) as H. discriminate H.
Qed.

(** C1 (amended).  [calculate_max_servings] never raises and never writes.
    It answers a number exactly when the driver answers its lookups, the
    identifier finds a recipe, as an [id] or else as a [firebase_id], and
    every ingredient it keeps allows a number of servings; the number is
    then the least of these, and zero when it keeps no ingredient.  It
    keeps the ingredients that have an identifier and a quantity that is
    neither zero nor missing.  A kept ingredient allows no servings when
    its identifier names no product or when its quantity is not above zero,
    and [int()] of the binary64 quotient of the usable counter by the
    quantity when it names one product: that quotient truncated toward
    zero, which is its floor when it is not negative.  It allows no number
    when its identifier names several products or when the quotient is NaN
    or infinite.  In every other case the answer is [None]. *)
Theorem calculate_max_servings_bottleneck
    (product_firebase_id recipe_id : string) (d : DB) :
  exists answer,
    calculate_max_servings product_firebase_id recipe_id d = (Ok answer, d)
    /\ (forall m,
          answer = Some m
          <-> exists recipe servings,
                fault (mkCall TRecipe KGet recipe_id) = None
                /\ recipe_found d recipe_id recipe
                /\ fault (mkCall TRecipeIngredient KFilter (Recipe.id recipe))
                   = None
                /\ Forall2 (allows d) (kept_ingredients d recipe) servings
                /\ m = min_or_zero servings
                /\ (servings = [] -> m = 0)
                /\ (servings <> [] ->
                    In m servings /\ Forall (Z.le m) servings))
    /\ (forall i n,
          allows d i n ->
          let needed := or0 (RecipeIngredient.quantity_needed i) in
          (ingredient_products d i = [] -> n = 0)
          /\ ((0 <? needed)%float = false -> n = 0)
          /\ (forall p,
                ingredient_products d i = [p] ->
                (0 <? needed)%float = true ->
                exists q,
                  value (or0 (Product.inventory_b p) / needed)%float = Some q
                  /\ n = truncation q
                  /\ ((0 <= q)%Q -> n = Qfloor q))).
Proof.
  destruct (max_servings_spec product_firebase_id recipe_id d)
    as (answer & Hrun & Hiff).
  exists answer. split; [exact Hrun|]. split.
  - intro m. rewrite Hiff. unfold bottleneck. split.
    + intros (recipe & servings & F1 & Hrec & F2 & Hall & ->).
      exists recipe, servings. repeat split; try assumption.
      * intros ->. reflexivity.
      * destruct servings as [|x l]; [congruence|]. apply py_min_in.
      * destruct servings as [|x l]; [congruence|]. apply py_min_lower.
    + intros (recipe & servings & F1 & Hrec & F2 & Hall & -> & _).
      exists recipe, servings. repeat split; assumption.
  - intros i n [_ Ha] needed. split; [|split].
    + intro E. rewrite E in Ha. exact Ha.
    + intro Hneg. destruct (ingredient_products d i) as [|p [|p' ps]].
      * exact Ha.
      * cbv zeta in Ha. fold needed in Ha. rewrite Hneg in Ha. exact Ha.
      * destruct Ha.
    + intros p E Hpos. rewrite E in Ha. cbv zeta in Ha. fold needed in Ha.
      rewrite Hpos in Ha. apply py_int_truncates in Ha.
      destruct Ha as (q & Hq & ->). exists q.
      split; [exact Hq|]. split; [reflexivity|].
      intro Hq0. apply truncation_floor. exact Hq0.
Qed.

(** With a driver that answers, the ingredients of a list all allow a
    number of servings exactly when each names at most one product and has
    a quotient that is a number. *)
Lemma all_allow (d : DB) (l : list RecipeIngredient.t) :
  (forall c, fault c = None) ->
  (exists ns, Forall2 (allows d) l ns)
  <-> forall i,
        In i l ->
        (List.length (ingredient_products d i) <= 1)%nat
        /\ forall p,
            ingredient_products d i = [p] ->
            (0 <? or0 (RecipeIngredient.quantity_needed i))%float = true ->
            value (or0 (Product.inventory_b p)
                   / or0 (RecipeIngredient.quantity_needed i))%float <> None.
Proof.
  intro Hf. induction l as [|i l IH].
  - split; [intros _ i [] | intros _; exists []; constructor].
  - split.
    + intros (ns & Hall) j Hj.
      inversion Hall as [|? n ? ns' [_ Ha] Hall']; subst.
      destruct Hj as [<- | Hj];
        [|apply (proj1 IH); [exists ns'; exact Hall' | exact Hj]].
      destruct (ingredient_products d i) as [|p [|p' ps]];
        [split; [cbn; lia | discriminate]| |destruct Ha].
      split; [cbn; lia|]. intros p0 E Hpos. injection E as <-.
      cbv zeta in Ha. rewrite Hpos in Ha. apply py_int_truncates in Ha.
      destruct Ha as (q & -> & _). discriminate.
    + intro H.
      destruct (proj2 IH (fun j Hj => H j (or_intror Hj))) as (ns & Hall).
      destruct (H i (or_introl eq_refl)) as [Hlen Hnum].
      assert (exists n, allows d i n) as (n & Hn).
      { unfold allows. rewrite Hf.
        destruct (ingredient_products d i) as [|p [|p' ps]].
        - exists 0. split; reflexivity.
        - cbv zeta.
          destruct (0 <? or0 (RecipeIngredient.quantity_needed i))%float
            eqn:Hpos; [|exists 0; split; reflexivity].
          specialize (Hnum p eq_refl eq_refl).
          destruct (value (or0 (Product.inventory_b p)
                           / or0 (RecipeIngredient.quantity_needed i))%float)
            as [q|] eqn:Hq; [|congruence].
          exists (truncation q). split; [reflexivity|].
          apply py_int_truncates. exists q. split; [exact Hq | reflexivity].
        - cbn in Hlen. lia. }
      exists (n :: ns). constructor; assumption.
Qed.

(** X22.  With a driver that answers, [calculate_max_servings] returns
    [None] in three cases only: when the identifier finds no recipe,
    neither as an [id] nor as a [firebase_id], or more than one; when an
    ingredient it keeps names more than one product; and when an
    ingredient it keeps names one product and has a quantity above zero
    but a quotient that is NaN or infinite, on which [int()] raises.  In
    every other case it returns a number. *)
Theorem max_servings_none_iff (product_firebase_id recipe_id : string)
    (d : DB) :
  (forall c, fault c = None) ->
  calculate_max_servings product_firebase_id recipe_id d = (Ok None, d)
  <-> ~ exists recipe,
        recipe_found d recipe_id recipe
        /\ forall i,
            In i (recipe_ingredients d) ->
            ingredient_of recipe i = true ->
            kept i = true ->
            (List.length (ingredient_products d i) <= 1)%nat
            /\ forall p,
                ingredient_products d i = [p] ->
                (0 <? or0 (RecipeIngredient.quantity_needed i))%float = true ->
                value (or0 (Product.inventory_b p)
                       / or0 (RecipeIngredient.quantity_needed i))%float
                <> None.
Proof.
  intro Hf.
  destruct (max_servings_spec product_firebase_id recipe_id d)
    as (answer & Hrun & Hiff).
  rewrite Hrun.
  assert (Hsome : (exists m, answer = Some m)
                  <-> exists recipe,
                        recipe_found d recipe_id recipe
                        /\ exists ns,
                            Forall2 (allows d) (kept_ingredients d recipe) ns).
  { split.
    - intros (m & Hm). apply Hiff in Hm.
      destruct Hm as (recipe & ns & _ & Hrec & _ & Hall & _).
      exists recipe. split; [exact Hrec|]. exists ns. exact Hall.
    - intros (recipe & Hrec & ns & Hall). exists (min_or_zero ns).
      apply Hiff. exists recipe, ns. repeat split; try assumption;
        apply Hf. }
  assert (Hkept : forall recipe i,
             In i (kept_ingredients d recipe)
             <-> In i (recipe_ingredients d)
                 /\ ingredient_of recipe i = true /\ kept i = true).
  { intros recipe i. unfold kept_ingredients. rewrite !filter_In. tauto. }
  split.
  - intros H (recipe & Hrec & Hall). injection H as ->.
    destruct (proj2 Hsome) as (m & Hm); [|discriminate Hm].
    exists recipe. split; [exact Hrec|]. apply (all_allow _ _ Hf).
    intros i Hi. apply Hkept in Hi. destruct Hi as (Hi & Hof & Hk).
    exact (Hall i Hi Hof Hk).
  - intro Hno. destruct answer as [m|]; [|reflexivity].
    exfalso. apply Hno.
    destruct (proj1 Hsome) as (recipe & Hrec & Hall);
      [exists m; reflexivity|].
    exists recipe. split; [exact Hrec|].
    intros i Hi Hof Hk. apply (proj1 (all_allow _ _ Hf) Hall).
    apply Hkept. repeat split; assumption.
Qed.

(** ** [inventory_forecasting_view] *)

Lemma forecast_step_row (p : Product.t) (u a c : float) (sm sm' : Summary)
    (row : ForecastRow) (d d' : DB) :
  forecast_step p u a c sm d = (Ok (row, sm'), d') ->
  exists days_left,
    days_left_of u (or0 (Product.quantity p)) = Ok days_left
    /\ d' = d
    /\ row_product_id row = Product.id p
    /\ row_days_left row = shown_days days_left
    /\ row_depletion_date row
       = (if days_left <? 999
          then strftime (now + days_left * microseconds_per_day)
          else "N/A")
    /\ row_status row
       = (if days_left <=? 3 then "critical"
          else if days_left <=? 7 then "warning" else "healthy")
    /\ critical sm' = critical sm + (if days_left <=? 3 then 1 else 0)
    /\ low sm'
       = low sm + (if days_left <=? 3 then 0
                   else if days_left <=? 7 then 1 else 0)
    /\ healthy sm' = healthy sm + (if days_left <=? 7 then 0 else 1)
    /\ needs_reorder sm'
       = needs_reorder sm + (if days_left <=? 7 then 1 else 0).
Proof.
  unfold forecast_step, now_plus_days, shown_days, lift. cbv zeta.
  unfold bind at 1.
  destruct (days_left_of u (or0 (Product.quantity p))) as [dl|e];
    [|discriminate].
  unfold bind, ret, raise. intro H. exists dl. split; [reflexivity|].
  destruct (confidence_percent_of c) as [percent|e].
  - destruct (dl <? 999) eqn:E999.
    + destruct ((dl <? -999999999) || (999999999 <? dl)); [discriminate|].
      destruct ((now + dl * microseconds_per_day <? datetime_min)
                || (datetime_max <? now + dl * microseconds_per_day));
        [discriminate|].
      destruct (dl <=? 3) eqn:E3; destruct (dl <=? 7) eqn:E7;
        injection H as <- <- <-; cbn; repeat split; lia.
    + destruct (dl <=? 3) eqn:E3; destruct (dl <=? 7) eqn:E7;
        injection H as <- <- <-; cbn; repeat split; lia.
  - exfalso.
    destruct (dl <? 999);
      [destruct ((dl <? -999999999) || (999999999 <? dl)); [discriminate|];
       destruct ((now + dl * microseconds_per_day <? datetime_min)
                 || (datetime_max <? now + dl * microseconds_per_day));
       [discriminate|]|];
      destruct (dl <=? 3); destruct (dl <=? 7); discriminate.
Qed.

Lemma forecast_step_reads_only (p : Product.t) (u a c : float) (sm : Summary)
    (r : result (ForecastRow * Summary)) (d d' : DB) :
  forecast_step p u a c sm d = (r, d') -> d' = d.
Proof.
  unfold forecast_step, now_plus_days, lift, bind, ret, raise. intro H.
  repeat (case_split; tidy); tidy; reflexivity.
Qed.

Lemma prediction_lookup (p : Product.t) (d d1 : DB) (u a c : float) :
  try_except (is_does_not_exist TMLPrediction)
    (bind (MLPrediction_get (Product.firebase_id p))
       (fun prediction =>
          ret (MLPrediction.predicted_daily_usage prediction,
               MLPrediction.avg_daily_usage prediction,
               MLPrediction.confidence_score prediction)))
    (fun _ => ret (0%float, 0%float, 0%float)) d = (Ok (u, a, c), d1) ->
  d1 = d /\ usage_read d p u.
Proof.
  unfold try_except, bind, ret, MLPrediction_get, orm, query, usage_read.
  destruct (fault _) as [e|] eqn:F.
  - rewrite (fault_not_caught _ _ _ F). discriminate.
  - unfold objects_get.
    destruct (filter _ (ml_predictions d)) as [|x [|y l]] eqn:E.
    + cbn. intro H. injection H as <- _ _ <-. split; [reflexivity|].
      right. split; reflexivity.
    + intro H. injection H as <- _ _ <-. split; [reflexivity|].
      left. exists x. split; reflexivity.
    + cbn. discriminate.
Qed.

Lemma prediction_lookup_state (p : Product.t) (d d1 : DB)
    (r : result (float * float * float)) :
  try_except (is_does_not_exist TMLPrediction)
    (bind (MLPrediction_get (Product.firebase_id p))
       (fun prediction =>
          ret (MLPrediction.predicted_daily_usage prediction,
               MLPrediction.avg_daily_usage prediction,
               MLPrediction.confidence_score prediction)))
    (fun _ => ret (0%float, 0%float, 0%float)) d = (r, d1) ->
  d1 = d.
Proof.
  unfold try_except, bind, ret, MLPrediction_get, orm, query. intro H.
  repeat (case_split; tidy); tidy; reflexivity.
Qed.

Lemma forecast_loop_rows (ps : list Product.t) :
  forall (acc rows : list ForecastRow) (sm sm' : Summary) (d d' : DB),
    forecast_loop ps acc sm d = (Ok (rows, sm'), d') ->
    d' = d
    /\ exists new,
        rows = (acc ++ new)%list
        /\ Forall2 (follows d) ps new
        /\ critical sm' = critical sm + status_count "critical" new
        /\ low sm' = low sm + status_count "warning" new
        /\ healthy sm' = healthy sm + status_count "healthy" new
        /\ needs_reorder sm'
           = needs_reorder sm
             + Z.of_nat (List.length (filter reorder_due new)).
Proof.
  induction ps as [|p ps IH]; intros acc rows sm sm' d d' H.
  - cbn in H. unfold ret in H. injection H as <- <- <-.
    split; [reflexivity|]. exists []. rewrite app_nil_r.
    repeat split; try constructor; cbn; lia.
  - cbn [forecast_loop] in H. unfold bind at 1 in H.
    destruct (try_except _ _ _ d) as [[[[u a] c]|e] d1] eqn:Hread;
      [|discriminate].
    apply prediction_lookup in Hread. destruct Hread as [-> Hu].
    unfold bind at 1 in H.
    destruct (forecast_step p u a c sm d) as [[[row sm1]|e] d2] eqn:Hstep;
      [|discriminate].
    apply forecast_step_row in Hstep.
    destruct Hstep as (dl & Hdl & -> & Hid & Hdays & Hdate & Hstatus
                       & Hc & Hl & Hh & Hn).
    cbn [fst snd] in H. apply IH in H.
    destruct H as (-> & new & -> & Hall & Hc' & Hl' & Hh' & Hn').
    split; [reflexivity|]. exists (row :: new).
    destruct (row_counts row _ Hdays Hstatus) as (Ec & Ew & Eh & Er).
    split; [rewrite <- app_assoc; reflexivity|]. split.
    { constructor; [|exact Hall]. exists dl, u. repeat split; assumption. }
    rewrite !status_count_cons, Ec, Ew, Eh. cbn [filter]. rewrite Er.
    destruct (dl <=? 3) eqn:E3; destruct (dl <=? 7) eqn:E7;
      cbn [negb andb List.length] in *; repeat split; lia.
Qed.

Lemma forecast_loop_reads_only (ps : list Product.t) :
  forall (acc : list ForecastRow) (sm : Summary) (d d' : DB)
         (r : result (list ForecastRow * Summary)),
    forecast_loop ps acc sm d = (r, d') -> d' = d.
Proof.
  induction ps as [|p ps IH]; intros acc sm d d' r H.
  - cbn in H. unfold ret in H. injection H as _ <-. reflexivity.
  - cbn [forecast_loop] in H. unfold bind at 1 in H.
    destruct (try_except _ _ _ d) as [[[[u a] c]|e] d1] eqn:Hread.
    + apply prediction_lookup_state in Hread. subst d1.
      unfold bind at 1 in H.
      destruct (forecast_step p u a c sm d) as [[[row sm1]|e] d2] eqn:Hstep.
      * apply forecast_step_reads_only in Hstep. subst d2.
        apply IH in H. exact H.
      * injection H as _ <-. apply forecast_step_reads_only in Hstep.
        exact Hstep.
    + injection H as _ <-. apply prediction_lookup_state in Hread.
      exact Hread.
Qed.

(** What the forecast page shows: nothing after an exception, and otherwise
    the sorted rows of the listed products with their counters. *)
Lemma forecast_page_cases (request : HttpRequest) (d d' : DB)
    (r : result Context) :
  inventory_forecasting_view request d = (r, d') ->
  d' = d
  /\ exists ctx,
      r = Ok ctx
      /\ ((data_status ctx = None
           /\ forecast_data ctx = [] /\ summary ctx = mkSummary 0 0 0 0)
          \/ (data_status ctx <> None
              /\ exists new,
                  forecast_data ctx = sort_rows new
                  /\ Forall2 (follows d) (filter listed (products d)) new
                  /\ critical (summary ctx) = status_count "critical" new
                  /\ low (summary ctx) = status_count "warning" new
                  /\ healthy (summary ctx) = status_count "healthy" new
                  /\ needs_reorder (summary ctx)
                     = Z.of_nat (List.length (filter reorder_due new)))).
Proof.
  unfold inventory_forecasting_view. intro H.
  unfold Sale_count, Product_count, MLPrediction_count, MLModel_get,
    Product_listed_count, Product_listed in H.
  unfold try_except at 1, bind, orm, query, Exception in H.
  unfold try_except, ret in H.
  repeat (case_split; tidy); tidy;
    try (split; [reflexivity|]; eexists; split; [reflexivity|];
         left; repeat split; reflexivity).
  all: try match goal with
       | Hl : forecast_loop _ _ _ _ = (Ok ?x, _) |- _ =>
           destruct x as [rows sm1];
           apply forecast_loop_rows in Hl;
           destruct Hl as (-> & new & -> & Hall & Hc & Hl' & Hh & Hn)
       end.
  all: try (split; [reflexivity|]; eexists; split; [reflexivity|];
    right; split; [discriminate|]; exists new;
    cbn [forecast_data summary fst snd app];
    repeat split; solve [assumption | lia]).
  all: match goal with
       | Hl : forecast_loop _ _ _ _ = (Raise _, _) |- _ =>
           apply forecast_loop_reads_only in Hl; subst
       end.
  all: split; [reflexivity|]; eexists; split; [reflexivity|];
    left; repeat split; reflexivity.
Qed.

Lemma follows_status (d : DB) (p : Product.t) (days_left : Z)
    (row : ForecastRow) :
  tracks d p days_left row ->
  (row_status row = "critical" <-> days_left <= 3)
  /\ (row_status row = "warning" <-> 3 < days_left <= 7)
  /\ (row_status row = "healthy" <-> 7 < days_left)
  /\ (reorder_due row = true <-> days_left <= 7).
Proof.
  intros (u & _ & _ & _ & Hdays & _ & Hstatus).
  destruct (row_counts row _ Hdays Hstatus) as (_ & _ & _ & Er).
  rewrite Hstatus, Er.
  destruct (Z.leb_spec days_left 3); destruct (Z.leb_spec days_left 7);
    repeat split; intros; try discriminate; try lia; reflexivity.
Qed.

(** C9 (amended).  The forecast page always renders and never writes.  When
    it is rendered without exception, every listed product has exactly one
    row, and that row exactly one status, decided by the product's days
    left: critical when at most 3, warning when above 3 and at most 7,
    healthy when above 7.  The counters critical, low and healthy then
    count the rows of each status and add up to the number of listed
    products, and [needs_reorder] counts the rows with at most 7 days
    left.  When an exception is raised while the page is built it shows no
    row and its counters are zero, whatever the products. *)
Theorem forecast_status_partition (request : HttpRequest) (d : DB) :
  exists ctx,
    inventory_forecasting_view request d = (Ok ctx, d)
    /\ (data_status ctx = None ->
        forecast_data ctx = [] /\ summary ctx = mkSummary 0 0 0 0)
    /\ (data_status ctx <> None ->
        (exists rows,
            Permutation rows (forecast_data ctx)
            /\ Forall2
                 (fun p row =>
                    exists days_left,
                      tracks d p days_left row
                      /\ (row_status row = "critical" <-> days_left <= 3)
                      /\ (row_status row = "warning" <-> 3 < days_left <= 7)
                      /\ (row_status row = "healthy" <-> 7 < days_left)
                      /\ (reorder_due row = true <-> days_left <= 7))
                 (filter listed (products d)) rows)
        /\ critical (summary ctx) = status_count "critical" (forecast_data ctx)
        /\ low (summary ctx) = status_count "warning" (forecast_data ctx)
        /\ healthy (summary ctx) = status_count "healthy" (forecast_data ctx)
        /\ critical (summary ctx) + low (summary ctx) + healthy (summary ctx)
           = Z.of_nat (List.length (filter listed (products d)))
        /\ needs_reorder (summary ctx)
           = Z.of_nat (List.length (filter reorder_due (forecast_data ctx)))).
Proof.
  destruct (inventory_forecasting_view request d) as [r d'] eqn:H.
  apply forecast_page_cases in H.
  destruct H as (-> & ctx & -> & [(Hnone & Hrows & Hsum)
                                 | (Hsome & new & Hrows & Hall & Hc & Hl & Hh
                                    & Hn)]).
  - exists ctx. split; [reflexivity|]. split; [intros _; split; assumption|].
    intro Hs. contradiction.
  - exists ctx. split; [reflexivity|]. split; [intro Hs; contradiction|].
    intros _.
    assert (Hcount : forall s, status_count s (forecast_data ctx)
                               = status_count s new).
    { intro s. unfold status_count. rewrite Hrows, sort_rows_count.
      reflexivity. }
    assert (Hstatus : Forall2
              (fun p row =>
                 exists days_left,
                   tracks d p days_left row
                   /\ (row_status row = "critical" <-> days_left <= 3)
                   /\ (row_status row = "warning" <-> 3 < days_left <= 7)
                   /\ (row_status row = "healthy" <-> 7 < days_left)
                   /\ (reorder_due row = true <-> days_left <= 7))
              (filter listed (products d)) new).
    { clear - Hall. induction Hall as [|p row ps rows [dl Ht] _ IH];
        constructor; [|exact IH].
      exists dl. split; [exact Ht|]. exact (follows_status _ _ _ _ Ht). }
    split.
    { exists new. split; [|exact Hstatus].
      rewrite Hrows. symmetry. apply sort_rows_perm. }
    rewrite !Hcount.
    split; [exact Hc|]. split; [exact Hl|]. split; [exact Hh|]. split.
    + rewrite Hc, Hl, Hh, (Forall2_length Hall). apply status_counts_total.
      intros row Hin.
      destruct (Forall2_right _ _ _ _ Hstatus Hin)
        as (p & _ & n & _ & H1 & H2 & H3 & _).
      destruct (Z.le_gt_cases n 3); [left; apply H1; lia|].
      destruct (Z.le_gt_cases n 7); [right; left; apply H2; lia|].
      right; right; apply H3; lia.
    + rewrite Hn, Hrows, sort_rows_count. reflexivity.
Qed.

(** C6 (amended).  Every row of the forecast is the row of a listed
    product.  When the product's predicted daily usage is above zero, its
    days left are [int()] of the binary64 quotient of the stock by that
    usage: the quotient truncated toward zero, which is its floor when it
    is not negative.  The row shows that number and a depletion date when
    it is below 999, and N/A for both otherwise.  When the predicted usage
    is not above zero or the product has no prediction, the days left are
    the sentinel 999 and the row shows N/A for both. *)
Theorem forecast_days_left (request : HttpRequest) (d d' : DB) (ctx : Context)
    (row : ForecastRow) :
  inventory_forecasting_view request d = (Ok ctx, d') ->
  In row (forecast_data ctx) ->
  exists p predicted days_left,
    In p (products d) /\ listed p = true
    /\ row_product_id row = Product.id p
    /\ usage_read d p predicted
    /\ let stock := or0 (Product.quantity p) in
       days_left_of predicted stock = Ok days_left
       /\ ((0 <? predicted)%float = true ->
           (exists q,
               value (stock / predicted)%float = Some q
               /\ days_left = truncation q
               /\ ((0 <= q)%Q -> days_left = Qfloor q))
           /\ (days_left < 999 ->
               row_days_left row = DaysInt days_left
               /\ row_depletion_date row
                  = strftime (now + days_left * microseconds_per_day))
           /\ (999 <= days_left ->
               row_days_left row = DaysNA /\ row_depletion_date row = "N/A"))
       /\ ((0 <? predicted)%float = false ->
           days_left = 999
           /\ row_days_left row = DaysNA
           /\ row_depletion_date row = "N/A").
Proof.
  intros H Hin. apply forecast_page_cases in H.
  destruct H as (_ & ctx' & Hctx & [(_ & Hrows & _)
                                   | (_ & new & Hrows & Hall & _)]);
    injection Hctx as <-.
  - rewrite Hrows in Hin. destruct Hin.
  - rewrite Hrows in Hin. apply (proj1 (sort_rows_in _ _)) in Hin.
    destruct (Forall2_right _ _ _ _ Hall Hin) as (p & Hp & Ht).
    apply filter_In in Hp. destruct Hp as [Hp Hlisted].
    destruct Ht as (dl & u & Hu & Hdl & Hid & Hdays & Hdate & _).
    exists p, u, dl. split; [exact Hp|]. split; [exact Hlisted|].
    split; [exact Hid|]. split; [exact Hu|]. cbv zeta.
    split; [exact Hdl|].
    unfold shown_days in Hdays. unfold days_left_of in Hdl. split.
    + intro Hpos. rewrite Hpos in Hdl. split.
      { apply py_int_truncates in Hdl. destruct Hdl as (q & Hq & ->).
        exists q. split; [exact Hq|]. split; [reflexivity|].
        apply truncation_floor. }
      split; intro Hlt.
      * apply Z.ltb_lt in Hlt. rewrite Hlt in *. split; assumption.
      * apply Z.ltb_ge in Hlt. rewrite Hlt in *. split; assumption.
    + intro Hneg. rewrite Hneg in Hdl. injection Hdl as <-.
      cbn in Hdays, Hdate. repeat split; assumption.
Qed.

(** ** [transfer_inventory_api] and [add_waste_api] *)

(** C2.  A transfer of NaN is carried out.  The request names the flour of
    the pantry, 10 in the warehouse and 5 usable, and a quantity of NaN,
    which is not above zero.  Neither guard refuses it, since NaN is neither
    at most zero nor above the warehouse counter: the handler answers
    success and saves NaN in both counters. *)
Theorem transfer_accepts_nan :
  asks (rt := office) transfer_nan transfer_nan_body nan
  /\ finds pantry_db transfer_nan_body flour
  /\ (0 <? nan)%float = false
  /\ (nan <=? or0 (Product.inventory_a flour))%float = false
  /\ counters pantry_db = [(Some 10%float, Some 5%float)]
  /\ (exists resp,
        transfer_inventory_api (rt := office) transfer_nan pantry_db
        = (Ok resp, spoiled_db)
        /\ succeeded resp
        /\ dict_lookup "newInventoryA" resp = Some (JNum nan)
        /\ dict_lookup "newInventoryB" resp = Some (JNum nan))
  /\ counters spoiled_db = [(Some nan, Some nan)].
Proof.
  split; [split; reflexivity|]. split; [reflexivity|].
  split; [reflexivity|]. split; [reflexivity|]. split; [reflexivity|].
  split; [|reflexivity].
  eexists. split; [vm_compute; reflexivity|]. repeat split.
Qed.

(** C3.  Waste is recorded from a usable counter that does not hold it.
    After the transfer of NaN the usable counter of the flour is NaN, which
    is not at least 3.  A request to record 3 units as waste is not
    refused, since NaN is not below 3: the handler answers success, creates
    a waste log of quantity 3 and leaves NaN in the counter. *)
Theorem add_waste_accepts_nan_stock :
  asks (rt := office) waste_3 waste_3_body 3%float
  /\ (0 <? 3)%float = true
  /\ (exists product,
        finds spoiled_db waste_3_body product
        /\ Product.inventory_b product = Some nan
        /\ (3 <=? or0 (Product.inventory_b product))%float = false)
  /\ (exists resp,
        add_waste_api (rt := office) waste_3 spoiled_db = (Ok resp, wasted_db)
        /\ succeeded resp
        /\ dict_lookup "newInventoryB" resp = Some (JNum nan))
  /\ counters wasted_db = [(Some nan, Some nan)]
  /\ waste_logs spoiled_db = []
  /\ map WasteLog.quantity (waste_logs wasted_db) = [3%float].
Proof.
  split; [split; reflexivity|]. split; [reflexivity|].
  split; [eexists; split; [vm_compute; reflexivity|]; split; reflexivity|].
  split; [|repeat split].
  eexists. split; [vm_compute; reflexivity|]. repeat split.
Qed.

(** ** [train_forecasting_model], then [inventory_forecasting_view] *)

Ltac unfold_train H :=
  unfold product_sales_count, product_sales_values, min_of,
    MLPrediction_update_or_create, MLModel_update_or_create, Sale_count,
    Product_all, log_audit, AuditTrail_create, lift in H;
  unfold try_except, bind, ret, raise, orm, query, Exception in H.












End Binary64Properties.

(** * The theorems at the sample data *)

(** The same transfer conserves the stock of flour: 6 + 9 = 10 + 5. *)
Lemma transfer_conserves_stock_witness :
  exists new_a new_b,
    dict_lookup "newInventoryA" transfer_4_response = Some (JNum new_a)
    /\ dict_lookup "newInventoryB" transfer_4_response = Some (JNum new_b)
    /\ (new_a + new_b == (10 # 1) + (5 # 1))%Q.
Proof.
  destruct (transfer_conserves_stock (rt := sample_runtime)
              transfer_4 pantry_db
              (snd (transfer_inventory_api transfer_4 pantry_db))
              transfer_4_response transfer_4_body (4 # 1) flour)
    as (a & b & saved & _ & _ & _ & _ & Ha & Hb & _ & _ & Hsum).
  - vm_compute. reflexivity.
  - reflexivity.
  - split; reflexivity.
  - reflexivity.
  - exists a, b. split; [exact Ha|]. split; [exact Hb|]. exact Hsum.
Defined.

(** With the database down the three handlers still answer, with the
    driver's message. *)
Lemma handlers_never_raise_witness :
  fst (transfer_inventory_api (rt := broken_runtime) transfer_4 pantry_db)
  = Ok (failure "connection refused")
  /\ fst (add_waste_api (rt := broken_runtime) waste_3 pantry_db)
     = Ok (failure "connection refused")
  /\ fst (train_forecasting_model (rt := broken_runtime) train_request shop_db)
     = Ok (failure "connection refused").
Proof.
  destruct (handlers_never_raise (rt := broken_runtime) transfer_4 pantry_db)
    as ((r1 & H1 & E1) & _ & _).
  destruct (handlers_never_raise (rt := broken_runtime) waste_3 pantry_db)
    as (_ & (r2 & H2 & E2) & _).
  destruct (handlers_never_raise (rt := broken_runtime) train_request shop_db)
    as (_ & _ & (r3 & H3 & E3)).
  destruct (E1 (mkExn DatabaseError "connection refused")) as [-> _];
    [vm_compute; reflexivity|].
  destruct (E2 (mkExn DatabaseError "connection refused")) as [-> _];
    [vm_compute; reflexivity|].
  destruct (E3 (mkExn DatabaseError "connection refused")) as [-> _];
    [vm_compute; reflexivity|].
  split; [exact H1|]. split; [exact H2 | exact H3].
Defined.

(** Training on the shop: milk, with two sales, gets no prediction; with no
    sale at all training is refused and nothing is stored. *)
Lemma train_requires_enough_sales_witness :
  predictions_for "milk"
    (ml_predictions (snd (train_forecasting_model (rt := sample_runtime)
                            train_request shop_db))) = []
  /\ snd (train_forecasting_model (rt := sample_runtime) train_request
                                  pantry_db) = pantry_db.
Proof.
  split.
  - destruct (train_requires_enough_sales (rt := sample_runtime)
                train_request shop_db
                (snd (train_forecasting_model train_request shop_db))
                (fst (train_forecasting_model train_request shop_db)))
      as [_ Hs].
    + vm_compute. reflexivity.
    + destruct (Hs train_response) as [_ Hskip].
      * vm_compute. reflexivity.
      * reflexivity.
      * destruct (Hskip milk) as [_ Hkeep].
        -- right. left. reflexivity.
        -- vm_compute. lia.
        -- apply Hkeep. intros q [<- | []]. vm_compute. discriminate.
  - destruct (train_requires_enough_sales (rt := sample_runtime)
                train_request pantry_db
                (snd (train_forecasting_model train_request pantry_db))
                (fst (train_forecasting_model train_request pantry_db)))
      as [Hf _].
    + vm_compute. reflexivity.
    + destruct Hf as (m & _ & Hd & _); [vm_compute; lia | exact Hd].
Defined.


(** * The further properties at the sample data *)


(** Without flour in the table the bread recipe allows no serving. *)
Lemma max_servings_not_negative_witness :
  0 <= 0
  /\ exists recipe,
      recipe_found bread_without_flour_db "r2" recipe
      /\ forall i,
          In i (recipe_ingredients bread_without_flour_db) ->
          ingredient_of recipe i = true ->
          kept i = true ->
          ingredient_products bread_without_flour_db i = [] ->
          0 = 0.
Proof.
  apply (max_servings_not_negative (rt := sample_runtime) "bread" "r2"
           bread_without_flour_db bread_without_flour_db 0).
  - vm_compute. reflexivity.
  - intros p [<- | []]. vm_compute. discriminate.
Defined.

(** Moving four units of flour leaves the sales alone; asking for forty
    changes nothing at all. *)
Lemma transfer_all_or_nothing_witness :
  sales (snd (transfer_inventory_api (rt := sample_runtime) transfer_4
                                     pantry_db))
  = sales pantry_db
  /\ snd (transfer_inventory_api (rt := sample_runtime) transfer_40 pantry_db)
     = pantry_db.
Proof.
  destruct (transfer_all_or_nothing (rt := sample_runtime) transfer_4
              pantry_db
              (snd (transfer_inventory_api transfer_4 pantry_db))
              (fst (transfer_inventory_api transfer_4 pantry_db)))
    as (resp & _ & _ & Hsales & _).
  { vm_compute. reflexivity. }
  destruct (transfer_all_or_nothing (rt := sample_runtime) transfer_40
              pantry_db
              (snd (transfer_inventory_api transfer_40 pantry_db))
              (fst (transfer_inventory_api transfer_40 pantry_db)))
    as (resp' & Hr & Hd & _).
  { vm_compute. reflexivity. }
  split; [exact Hsales|]. apply Hd.
  vm_compute in Hr. injection Hr as <-. vm_compute. discriminate.
Defined.

(** With an audit trail that cannot be written the four units of flour are
    moved all the same, and no audit entry is left. *)
Lemma transfer_succeeds_when_guards_pass_witness :
  exists resp,
    fst (transfer_inventory_api
           (rt := failing TAuditTrail KCreate "audit trail is read-only")
           transfer_4 pantry_db) = Ok resp
    /\ dict_lookup "success" resp = Some (JBool true)
    /\ audit_trail
         (snd (transfer_inventory_api
                 (rt := failing TAuditTrail KCreate "audit trail is read-only")
                 transfer_4 pantry_db)) = [].
Proof.
  destruct (transfer_succeeds_when_guards_pass
              (rt := failing TAuditTrail KCreate "audit trail is read-only")
              transfer_4 pantry_db transfer_4_body (4 # 1) flour)
    as (resp & Hr & Hs & _).
  - split; reflexivity.
  - reflexivity.
  - reflexivity.
  - reflexivity.
  - vm_compute. discriminate.
  - reflexivity.
  - reflexivity.
  - exists resp. split; [exact Hr|]. split; [exact Hs|].
    vm_compute. reflexivity.
Defined.

(** With a waste log table that refuses the row, three units of flour leave
    the usable counter and no waste log says so. *)
Lemma add_waste_failure_after_deduction_witness :
  add_waste_api (rt := failing TWasteLog KCreate "value too long") waste_3
                pantry_db
  = (Ok (failure "value too long"),
     set_products
       (save_row (with_inventory_b
                    (or0 (Product.inventory_b flour) - (3 # 1)) flour)
                 (products pantry_db))
       pantry_db).
Proof.
  apply (add_waste_failure_after_deduction
           (rt := failing TWasteLog KCreate "value too long")
           waste_3 pantry_db
           [("productId", JStr "flour"); ("quantity", JNum (3 # 1));
            ("reason", JStr "Spilled")]
           (3 # 1) flour (mkExn DatabaseError "value too long")).
  - split; reflexivity.
  - reflexivity.
  - reflexivity.
  - reflexivity.
  - vm_compute. discriminate.
  - reflexivity.
  - reflexivity.
  - reflexivity.
Defined.


(** The forecast of the sample stock lists beans, cocoa, syrup and cups,
    and leaves rice out. *)
Lemma forecast_lists_every_product_witness :
  Permutation (map row_product_id (forecast_data forecast_context))
              ["beans"; "cocoa"; "syrup"; "cups"].
Proof.
  apply (forecast_lists_every_product (rt := sample_runtime) train_request
           forecast_db forecast_db forecast_context).
  - vm_compute. reflexivity.
  - vm_compute. discriminate.
Defined.

(** Salt has a prediction stored under its [id] and no [firebase_id]: its
    row shows no days left. *)
Lemma forecast_needs_firebase_id_witness :
  forecast_data salt_context <> []
  /\ Forall (fun row =>
               row_days_left row = DaysNA
               /\ row_depletion_date row = "N/A"
               /\ row_status row = "healthy")
            (forecast_data salt_context).
Proof.
  split; [vm_compute; discriminate|].
  apply Forall_forall. intros row Hin.
  apply (forecast_needs_firebase_id (rt := sample_runtime) train_request
           salt_db salt_db salt_context row).
  - vm_compute. reflexivity.
  - exact Hin.
  - intros p [<- | []] _. reflexivity.
Defined.

(** Flour, with four sales, has one prediction after training. *)
Lemma train_one_prediction_per_product_witness :
  exists row,
    predictions_for "flour" (ml_predictions trained_shop_db) = [row]
    /\ objects_get TMLPrediction (same_prediction "flour")
                   (ml_predictions trained_shop_db) = Ok row.
Proof.
  apply (train_one_prediction_per_product (rt := sample_runtime)
           train_request shop_db trained_shop_db train_response flour).
  - vm_compute. reflexivity.
  - reflexivity.
  - left. reflexivity.
  - vm_compute. lia.
Defined.

(** Training on the ten sales of the shop records ten sales, two products
    and one prediction. *)
Lemma train_records_the_run_witness :
  dict_lookup "stats" train_response
  = Some (JObj [("sales_records", JInt 10); ("products_analyzed", JInt 2);
                ("predictions_created", JInt 1)])
  /\ objects_get TMLModel
       (fun m => String.eqb (MLModel.name m) "inventory_forecasting")
       (ml_models trained_shop_db)
     = Ok (MLModel.mk "inventory_forecasting" true (Some sample_day) 10 2 1 85
                      "Linear Regression (Moving Average)" 90).
Proof.
  destruct (train_records_the_run (rt := sample_runtime) train_request
              shop_db trained_shop_db train_response)
    as (_ & Hstats & Hmodel).
  - vm_compute. reflexivity.
  - reflexivity.
  - split; [exact Hstats | exact Hmodel].
Defined.

(** Training leaves the products and the sales of the shop as they were. *)
Lemma train_keeps_the_stock_witness :
  products trained_shop_db = products shop_db
  /\ sales trained_shop_db = sales shop_db.
Proof.
  destruct (train_keeps_the_stock (rt := sample_runtime) train_request
              shop_db trained_shop_db (Ok train_response))
    as (Hp & Hs & _).
  - vm_compute. reflexivity.
  - split; [exact Hp | exact Hs].
Defined.

(** Deleting the flour of the bakery: the request names [flour], which
    finds the flour and no other row; the milk is left, and the bread
    recipe with its three ingredient rows. *)
Lemma delete_product_removes_it_witness :
  exists kv product,
    json_loads (Runtime := office_runtime) (body delete_flour) = Ok (JObj kv)
    /\ lookup_text (rt := office_runtime) (named_product kv) = "flour"
    /\ filter (product_matches "flour") (products bread_db) = [product]
    /\ (forall row, In row (products bread_without_flour_db) <->
                    In row (products bread_db)
                    /\ Product.id row <> Product.id product)
    /\ recipe_ingredients bread_without_flour_db = recipe_ingredients bread_db.
Proof.
  destruct (delete_product_removes_it (rt := office_runtime)
              (dr := sample_driver) delete_flour bread_db
              bread_without_flour_db (Ok delete_flour_response))
    as (resp & Hr & _ & Hdone).
  - vm_compute. reflexivity.
  - injection Hr as <-.
    destruct (Hdone eq_refl)
      as (kv & product & Hkv & _ & Hone & Hrows & _ & _ & Hing & _).
    exists kv, product. split; [exact Hkv|].
    assert (E : kv = [("id", JStr "flour")]).
    { assert (H : json_loads (Runtime := office_runtime) (body delete_flour)
                  = Ok (JObj [("id", JStr "flour")]))
        by (vm_compute; reflexivity).
      rewrite H in Hkv. injection Hkv as <-. reflexivity. }
    subst kv.
    split; [reflexivity|]. split; [exact Hone|].
    split; [exact Hrows | exact Hing].
Defined.

(** The flour cannot be deleted twice. *)
Lemma delete_product_twice_witness :
  delete_product_view (rt := office_runtime) (dr := sample_driver)
    delete_flour bread_without_flour_db
  = (Ok (failure "Product not found"), bread_without_flour_db).
Proof.
  destruct (delete_product_twice (rt := office_runtime) (dr := sample_driver)
              delete_flour bread_db bread_without_flour_db
              (snd (delete_product_view (rt := office_runtime)
                      (dr := sample_driver) delete_flour
                      bread_without_flour_db))
              delete_flour_response
              (fst (delete_product_view (rt := office_runtime)
                      (dr := sample_driver) delete_flour
                      bread_without_flour_db)))
    as (m & Hr & Hd & Hm).
  - vm_compute. reflexivity.
  - reflexivity.
  - vm_compute. reflexivity.
  - rewrite (Hm (fun c => eq_refl)) in Hr.
    rewrite (surjective_pairing (delete_product_view _ _)), Hr, Hd.
    reflexivity.
Defined.

(** Once the flour is deleted the bread recipe, which still asks for it,
    allows no serving. *)
Lemma deleted_product_leaves_no_servings_witness :
  recipe_found bread_without_flour_db "r2" (Recipe.mk "r2" "fb2" "bread" "Bread")
  /\ 0 <= 0.
Proof.
  apply (deleted_product_leaves_no_servings (rt := office_runtime)
           (dr := sample_driver) delete_flour bread_db
           bread_without_flour_db bread_without_flour_db
           delete_flour_response [("id", JStr "flour")] flour "bread" "r2"
           (Recipe.mk "r2" "fb2" "bread" "Bread")
           (RecipeIngredient.mk "fb2" (Some " flour ") (Some "Flour")
                                (Some (2 # 1)) None)
           0).
  - vm_compute. reflexivity.
  - reflexivity.
  - reflexivity.
  - reflexivity.
  - left. reflexivity.
  - left. reflexivity.
  - reflexivity.
  - reflexivity.
  - reflexivity.
  - vm_compute. reflexivity.
Defined.

(** Deleting the bread recipe: the request names [r2], which finds the
    bread recipe and no other; it is removed with its three ingredient
    rows, and the products are left. *)
Lemma delete_recipe_removes_ingredients_witness :
  products bread_deleted_db = products bread_db
  /\ exists kv recipe,
      json_loads (Runtime := office_runtime) (body delete_bread)
      = Ok (JObj kv)
      /\ lookup_text (rt := office_runtime) (dict_get kv "recipeId" JNull)
         = "r2"
      /\ filter (recipe_matches "r2") (recipes bread_db) = [recipe]
      /\ (forall i, In i (recipe_ingredients bread_deleted_db) <->
                    In i (recipe_ingredients bread_db)
                    /\ ingredient_of recipe i = false).
Proof.
  destruct (delete_recipe_removes_ingredients (rt := office_runtime)
              (dr := sample_driver) delete_bread bread_db bread_deleted_db
              (Ok delete_bread_response))
    as (resp & Hr & Hp & _ & _ & Hdone).
  - vm_compute. reflexivity.
  - injection Hr as <-. split; [exact Hp|].
    destruct (Hdone eq_refl) as (kv & recipe & Hkv & _ & Hone & _ & Hing).
    exists kv, recipe. split; [exact Hkv|].
    assert (E : kv = [("recipeId", JStr "r2")]).
    { assert (H : json_loads (Runtime := office_runtime) (body delete_bread)
                  = Ok (JObj [("recipeId", JStr "r2")]))
        by (vm_compute; reflexivity).
      rewrite H in Hkv. injection Hkv as <-. reflexivity. }
    subst kv.
    split; [reflexivity|]. split; [exact Hone | exact Hing].
Defined.

(** Once the bread recipe is deleted its servings are [None]. *)
Lemma deleted_recipe_has_no_servings_witness :
  calculate_max_servings (rt := office_runtime) "bread" "r2" bread_deleted_db
  = (Ok None, bread_deleted_db).
Proof.
  apply (deleted_recipe_has_no_servings (rt := office_runtime)
           (dr := sample_driver) delete_bread bread_db bread_deleted_db
           delete_bread_response [("recipeId", JStr "r2")] "bread").
  - vm_compute. reflexivity.
  - reflexivity.
  - reflexivity.
Defined.

(** A driver that may not remove recipes leaves the bread recipe without
    ingredients. *)
Lemma delete_recipe_failure_after_ingredients_witness :
  delete_recipe_api (rt := office_runtime) (dr := stubborn_driver)
    delete_bread bread_db
  = (Ok (failure "permission denied for table recipes"),
     set_recipe_ingredients [] bread_db).
Proof.
  apply (delete_recipe_failure_after_ingredients (rt := office_runtime)
           (dr := stubborn_driver) delete_bread bread_db
           [("recipeId", JStr "r2")] (Recipe.mk "r2" "fb2" "bread" "Bread")
           (mkExn DatabaseError "permission denied for table recipes")).
  - reflexivity.
  - reflexivity.
  - reflexivity.
  - reflexivity.
  - reflexivity.
  - reflexivity.
Defined.

(** Three units of flour wasted: the usable counter goes from 5 to 2, the
    warehouse counter stays, and the log names flour, the reason and the
    user. *)
Lemma add_waste_records_the_loss_witness :
  waste_logs (snd (add_waste_api (rt := sample_runtime) waste_3 pantry_db))
  = [WasteLog.mk "flour" "Flour" (3 # 1) (JStr "Spilled") sample_day "ana"
                 "ingredients"].
Proof.
  destruct (add_waste_records_the_loss (rt := sample_runtime) waste_3
              pantry_db
              [("productId", JStr "flour"); ("quantity", JNum (3 # 1));
               ("reason", JStr "Spilled")]
              (3 # 1) flour)
    as (resp & _ & _ & _ & _ & _ & Hlog).
  - split; reflexivity.
  - reflexivity.
  - reflexivity.
  - reflexivity.
  - vm_compute. discriminate.
  - reflexivity.
  - reflexivity.
  - reflexivity.
  - exact Hlog.
Defined.

(** * The properties over binary64 at the sample data *)

Section Binary64Samples.

Import Floats Binary64.

(** The bread recipe: flour allows 2 servings, milk 3, and the ingredient
    without identifier is skipped. *)
Lemma calculate_max_servings_bottleneck_witness :
  calculate_max_servings (rt := office) "bread" "r2" bread_db
  = (Ok (Some 2), bread_db)
  /\ bottleneck (rt := office) bread_db "r2" 2.
Proof.
  destruct (calculate_max_servings_bottleneck (rt := office) "bread" "r2"
              bread_db) as (answer & Hrun & Hiff & _).
  assert (E : answer = Some 2).
  { assert (H : calculate_max_servings (rt := office) "bread" "r2" bread_db
                = (Ok (Some 2), bread_db)) by (vm_compute; reflexivity).
    rewrite H in Hrun. injection Hrun as <-. reflexivity. }
  subst answer. split; [exact Hrun|].
  destruct (proj1 (Hiff 2) eq_refl)
    as (recipe & servings & F1 & Hrec & F2 & Hall & Hm & _).
  exists recipe, servings. repeat split; assumption.
Defined.

(** C1 as stated fails.  With 10 of milk and a quantity of -2 the code
    answers 0 servings where the floor of 10 / -2 is -5.  With half a unit
    of milk and a quantity of a tenth it answers 5, the quotient of the two
    floats being 5, where the floor of the quotient of the two numbers is
    4.  With the milk entered twice, with a stock of NaN, or with a
    database that is down, it answers [None] for a recipe that is there. *)
Lemma max_servings_is_not_the_floor :
  calculate_max_servings (rt := office) "latte" "r1"
    (one_ingredient 10 (-2)) = (Ok (Some 0), one_ingredient 10 (-2))
  /\ spec_servings 10 (-2) = Some (-5)
  /\ calculate_max_servings (rt := office) "latte" "r1"
       (one_ingredient 0.5 tenth) = (Ok (Some 5), one_ingredient 0.5 tenth)
  /\ spec_servings 0.5 tenth = Some 4
  /\ calculate_max_servings (rt := office) "bread" "r2" twin_db
     = (Ok None, twin_db)
  /\ calculate_max_servings (rt := office) "latte" "r1" (one_ingredient nan 2)
     = (Ok None, one_ingredient nan 2)
  /\ calculate_max_servings (rt := broken) "bread" "r2" bread_db
     = (Ok None, bread_db)
  /\ recipe_found twin_db "r2" (Recipe.mk "r2" "fb2" "bread" "Bread")
  /\ recipe_found (one_ingredient nan 2) "r1"
       (Recipe.mk "r1" "r1" "latte" "Latte")
  /\ recipe_found bread_db "r2" (Recipe.mk "r2" "fb2" "bread" "Bread").
Proof.
  repeat split; try (vm_compute; reflexivity); left; reflexivity.
Qed.

(** With the milk entered twice the bread recipe has no ingredient list
    that allows a number of servings. *)
Lemma max_servings_none_iff_witness :
  ~ exists recipe,
      recipe_found twin_db "r2" recipe
      /\ forall i,
          In i (recipe_ingredients twin_db) ->
          ingredient_of recipe i = true ->
          kept i = true ->
          (List.length (ingredient_products twin_db i) <= 1)%nat
          /\ forall p,
              ingredient_products twin_db i = [p] ->
              (0 <? or0 (RecipeIngredient.quantity_needed i))%float = true ->
              value (or0 (Product.inventory_b p)
                     / or0 (RecipeIngredient.quantity_needed i))%float
              <> None.
Proof.
  apply (max_servings_none_iff (rt := office) "bread" "r2" twin_db).
  - intro c. reflexivity.
  - vm_compute. reflexivity.
Defined.

(** The forecast of the sample stock: one critical row, two low, two
    healthy, three to reorder, for five listed products. *)
Lemma forecast_status_partition_witness :
  summary forecast_context = mkSummary 1 2 2 3
  /\ List.length (filter listed (products forecast_db)) = 5%nat
  /\ critical (summary forecast_context) + low (summary forecast_context)
     + healthy (summary forecast_context)
     = Z.of_nat (List.length (filter listed (products forecast_db))).
Proof.
  destruct (forecast_status_partition (rt := office) page_request forecast_db)
    as (ctx & Hctx & _ & Hrendered).
  assert (E : ctx = forecast_context).
  { assert (H : inventory_forecasting_view (rt := office) page_request
                  forecast_db = (Ok forecast_context, forecast_db))
      by (vm_compute; reflexivity).
    rewrite H in Hctx. injection Hctx as <-. reflexivity. }
  subst ctx.
  destruct Hrendered as (_ & _ & _ & _ & Hsum & _);
    [vm_compute; discriminate|].
  split; [reflexivity|]. split; [reflexivity | exact Hsum].
Defined.

(** C9 as stated fails.  Beans two thousand million units short and used
    one a day have -2000000000 days left, for which no depletion date
    exists: the exception empties the page, and the counters add up to 0
    for one listed product. *)
Lemma forecast_page_loses_listed_products :
  inventory_forecasting_view (rt := office) page_request debt_db
  = (Ok debt_context, debt_db)
  /\ days_left_of 1 (-2000000000) = Ok (-2000000000)
  /\ List.length (filter listed (products debt_db)) = 1%nat
  /\ forecast_data debt_context = []
  /\ summary debt_context = mkSummary 0 0 0 0
  /\ critical (summary debt_context) + low (summary debt_context)
     + healthy (summary debt_context)
     <> Z.of_nat (List.length (filter listed (products debt_db))).
Proof.
  repeat split; try (vm_compute; reflexivity). vm_compute. discriminate.
Qed.

(** The forecast of the sample stock: syrup, 10 in stock and used 2 a day,
    has 5 days left. *)
Lemma forecast_days_left_witness :
  exists row,
    In row (forecast_data forecast_context)
    /\ row_product_id row = "syrup"
    /\ row_days_left row = DaysInt 5.
Proof.
  pose (row := nth 1 (forecast_data forecast_context)
                   (mkRow "" "" "" "" "" "" DaysNA "" "" "" "" "" "")).
  assert (Hin : In row (forecast_data forecast_context))
    by (right; left; reflexivity).
  destruct (forecast_days_left (rt := office) page_request forecast_db
              forecast_db forecast_context row)
    as (p & u & dl & _ & _ & Hid & _).
  - vm_compute. reflexivity.
  - exact Hin.
  - exists row. split; [exact Hin|]. split; reflexivity.
Defined.

(** C6 as stated fails.  With -5 beans in stock and 2 used a day the code
    counts -2 days left where the floor of -5 / 2 is -3; with half a unit
    of salt and a tenth used a day it counts 5 days, the quotient of the
    two floats being 5, where the floor of the quotient of the two numbers
    is 4; and with 2000 of cocoa and 1 used a day it counts 2000 days and
    the row shows N/A. *)
Lemma days_left_is_not_the_floor :
  days_left_of 2 (-5) = Ok (-2)
  /\ spec_days_left 2 (-5) = Some (-3)
  /\ days_left_of tenth 0.5 = Ok 5
  /\ spec_days_left tenth 0.5 = Some 4
  /\ days_left_of 1 2000 = Ok 2000
  /\ map (fun r => (row_product_id r, row_days_left r))
         (forecast_data forecast_context)
     = [("beans", DaysInt (-2)); ("syrup", DaysInt 5); ("salt", DaysInt 5);
        ("cocoa", DaysNA); ("cups", DaysNA)]
  /\ inventory_forecasting_view (rt := office) page_request forecast_db
     = (Ok forecast_context, forecast_db).
Proof.
  repeat split; vm_compute; reflexivity.
Qed.


End Binary64Samples.
